(** * Vehicle / licence-plate recognition pipeline

    A shallow embedding of the detection worker, the plate rectifier, the
    plate-text validators and the background OCR workers of
    [python_yolo.py] and [python_yolo_fast_plate.py], followed by the
    properties established about them.

    Conventions of the embedding:
    - a Python [str] is a list of Unicode code points ([N]);
    - a Python float produced by a detector is an exact rational ([Q]);
      the comparisons and the [+ 20] / [- 20] of the source are exact on
      the values a detector produces;
    - where the rounding of float arithmetic decides the result (the crop
      around the best plate), a float is an IEEE 754 binary64 value
      ([PyFloat]);
    - numpy [int32] arithmetic that can wrap is written with its wrap-around;
    - OpenCV and the OCR engines are not part of the program: they are
      parameters, and every result holds for all of them;
    - a Python exception is the [Raise] constructor of [Py.result]. *)

From Stdlib Require Import List ZArith NArith QArith Qround String Ascii Bool Lia.
From Stdlib Require Import DecimalString SpecFloat.
Import ListNotations.

Open Scope Z_scope.

(* ================================================================== *)
(** * Part I - the model *)
(* ================================================================== *)

(** ** Python values: strings, slices, truthiness, exceptions *)

Module Py.

(** A code point. *)
Definition char := N.

(** A Python [str]. *)
Definition str := list char.

(** String literals of the source. *)
Definition lit (s : string) : str :=
  map N_of_ascii (list_ascii_of_string s).

Definition char_eqb (a b : char) : bool := N.eqb a b.

Fixpoint str_eqb (s t : str) : bool :=
  match s, t with
  | [], [] => true
  | a :: s', b :: t' => char_eqb a b && str_eqb s' t'
  | _, _ => false
  end.

(** [len(s)] *)
Definition len (s : str) : nat := List.length s.

(** [s[:b]], [s[a:]] and [s[a:b]] for literal, non-negative bounds. *)
Definition slice_to (b : nat) (s : str) : str := firstn b s.
Definition slice_from (a : nat) (s : str) : str := skipn a s.
Definition slice (a b : nat) (s : str) : str := firstn (b - a) (skipn a s).

(** [s[:-1]] *)
Definition slice_to_last (s : str) : str := firstn (len s - 1) s.

(** Truthiness of a [str] and of an optional [str] ([None] is falsy). *)
Definition truthy (s : str) : bool :=
  match s with [] => false | _ :: _ => true end.

Definition truthy_opt (o : option str) : bool :=
  match o with None => false | Some s => truthy s end.

(** [c in '0'..'9'], the class [[0-9]] of a [str] pattern. *)
Definition is_digit (c : char) : bool := (48 <=? c)%N && (c <=? 57)%N.

Definition is_ascii_lower (c : char) : bool := (97 <=? c)%N && (c <=? 122)%N.
Definition is_ascii_upper (c : char) : bool := (65 <=? c)%N && (c <=? 90)%N.

(** The class [[a-zA-Z0-9]]. *)
Definition is_alnum (c : char) : bool :=
  is_ascii_lower c || is_ascii_upper c || is_digit c.

(** [str.isspace()] on one code point: the characters [str.strip()]
    removes. *)
Definition is_space (c : char) : bool :=
  ((9 <=? c) && (c <=? 13) || (28 <=? c) && (c <=? 32)
   || (c =? 133) || (c =? 160) || (c =? 5760)
   || (8192 <=? c) && (c <=? 8202)
   || (c =? 8232) || (c =? 8233) || (c =? 8239) || (c =? 8287)
   || (c =? 12288))%N.

Fixpoint lstrip (s : str) : str :=
  match s with
  | c :: s' => if is_space c then lstrip s' else s
  | [] => []
  end.

(** [s.strip()] *)
Definition strip (s : str) : str := rev (lstrip (rev (lstrip s))).

(** [s.replace(c, '')] for a one-character [c]. *)
Definition remove_char (c : char) (s : str) : str :=
  filter (fun x => negb (char_eqb x c)) s.

(** [re.sub(r'[^0-9]', '', s)] *)
Definition re_sub_non_digits (s : str) : str := filter is_digit s.

(** [str(n)] for a length. *)
Definition str_of_nat (n : nat) : str :=
  lit (NilEmpty.string_of_uint (Nat.to_uint n)).

(** [d.get(k, default)] on a dict with [str] keys, as an association
    list in insertion order. *)
Fixpoint dict_get (d : list (str * str)) (k default : str) : str :=
  match d with
  | [] => default
  | (k', v) :: d' => if str_eqb k' k then v else dict_get d' k default
  end.

(** [a > b], [a >= b] and [a <= b] on floats. *)
Definition gt (a b : Q) : bool := negb (Qle_bool a b).
Definition ge (a b : Q) : bool := Qle_bool b a.
Definition le (a b : Q) : bool := Qle_bool a b.

(** [int(x)]: truncation towards zero. *)
Definition int (x : Q) : Z := Z.quot (Qnum x) (Zpos (Qden x)).

(** Outcome of a Python computation. *)
Inductive exn := ValueError | IndexError | EngineError | OverflowError.

Inductive result (A : Type) :=
| Ok (a : A)
| Raise (e : exn).
Arguments Ok {A} a.
Arguments Raise {A} e.

Definition bind {A B} (m : result A) (k : A -> result B) : result B :=
  match m with
  | Ok a => k a
  | Raise e => Raise e
  end.

End Py.

(** ** Python floats where their rounding matters: IEEE 754 binary64 *)

Module PyFloat.

Import Py.

(** A [float] is a binary64 value.  The operations are those of the
    Standard Library's executable specification of IEEE 754 arithmetic,
    which round to nearest, ties to even, as the hardware does. *)
Definition float : Type := spec_float.







(** What [max] and [min] return below: one of their two arguments, the
    float or the [int]. *)
Inductive number :=
| Int (n : Z)
| Float (a : float).



(** The integer part of [m * 2^e]. *)
Definition magnitude (m : positive) (e : Z) : Z :=
  if 0 <=? e then Zpos m * 2 ^ e else Zpos m / 2 ^ (- e).

(** [int(x)]: an [int] is itself; a float is truncated towards zero, NaN
    raises [ValueError] and an infinity [OverflowError]. *)
Definition int (x : number) : result Z :=
  match x with
  | Int n => Ok n
  | Float S754_nan => Raise ValueError
  | Float (S754_infinity _) => Raise OverflowError
  | Float (S754_zero _) => Ok 0
  | Float (S754_finite s m e) =>
      Ok (if s then - magnitude m e else magnitude m e)
  end.

End PyFloat.

Notation "x <- m ;; k" := (Py.bind m (fun x => k))
  (at level 61, m at next level, right associativity).

(** ** The fragment of [re] the validators use *)

Module Re.

Import Py.

(** Patterns built from character classes, concatenation, [?] and
    [{n}]. *)
Inductive regex :=
| Eps
| Cls (p : char -> bool)
| Cat (r1 r2 : regex)
| Opt (r : regex).

(** [r{n}] *)
Fixpoint times (n : nat) (r : regex) : regex :=
  match n with
  | O => Eps
  | S n' => Cat r (times n' r)
  end.

(** The suffixes left after matching [r] at the start of [s], in the
    order a backtracking matcher tries them ([?] is greedy). *)
Fixpoint match_prefix (r : regex) (s : str) : list str :=
  match r with
  | Eps => [s]
  | Cls p =>
      match s with
      | c :: s' => if p c then [s'] else []
      | [] => []
      end
  | Cat r1 r2 => flat_map (match_prefix r2) (match_prefix r1 s)
  | Opt r' => match_prefix r' s ++ [s]
  end.

(** [re.fullmatch(r, s) is not None] *)
Definition fullmatch (r : regex) (s : str) : bool :=
  existsb (fun rest => match rest with [] => true | _ => false end)
          (match_prefix r s).

End Re.

(** ** The numpy arrays the scripts handle *)

Module Np.

Import Py.

(** A contour point: a row of an [int32] array of shape [(n, 2)]. *)
Definition point := (Z * Z)%type.
Definition contour := list point.

(** Signed 32-bit wrap-around. *)
Definition wrap32 (z : Z) : Z :=
  (z + 2147483648) mod 4294967296 - 2147483648.

(** [pts.sum(axis=1)]: numpy adds [int32] rows in 64-bit accumulators. *)
Definition sum_axis1 (pts : list point) : list Z :=
  map (fun p => fst p + snd p) pts.

(** [np.diff(pts, axis=1)]: second column minus first, in [int32]. *)
Definition diff_axis1 (pts : list point) : list Z :=
  map (fun p => wrap32 (snd p - fst p)) pts.

Fixpoint argmin_from (best_i : nat) (best : Z) (i : nat) (l : list Z) : nat :=
  match l with
  | [] => best_i
  | x :: rest =>
      if x <? best then argmin_from i x (S i) rest
      else argmin_from best_i best (S i) rest
  end.

Fixpoint argmax_from (best_i : nat) (best : Z) (i : nat) (l : list Z) : nat :=
  match l with
  | [] => best_i
  | x :: rest =>
      if best <? x then argmax_from i x (S i) rest
      else argmax_from best_i best (S i) rest
  end.

(** [np.argmin] / [np.argmax]: first index of an extremum; an empty
    array raises. *)
Definition argmin (l : list Z) : result nat :=
  match l with
  | [] => Raise ValueError
  | x :: rest => Ok (argmin_from 0 x 1 rest)
  end.

Definition argmax (l : list Z) : result nat :=
  match l with
  | [] => Raise ValueError
  | x :: rest => Ok (argmax_from 0 x 1 rest)
  end.

(** [pts[i]] *)
Definition getitem (pts : list point) (i : nat) : result point :=
  match nth_error pts i with
  | Some p => Ok p
  | None => Raise IndexError
  end.

(** A pixel coordinate pair: both coordinates are non-negative, as
    [findContours] and the estimated corners give them, and at most 2^24,
    the range in which a [float32] array holds every integer exactly. *)
Definition is_pixel (p : point) : Prop :=
  0 <= fst p <= 16777216 /\ 0 <= snd p <= 16777216.

(** An image array of shape [(shape0, shape1, 3)] with its bytes. *)
Record image := mkImage { shape0 : Z; shape1 : Z; data : list Z }.

(** [im.size] *)
Definition size (im : image) : Z := shape0 im * shape1 im * 3.

End Np.

(** ** [python_yolo.py]: [SimpleOCRWorker] *)

Module SimpleOCRWorker.

Import Py Re Np.

(** The class written [[-\\s]] inside a raw string literal: the pattern
    text holds two backslashes, so the class is a hyphen, an escaped
    backslash and the letter s. *)
Definition sep_class (c : char) : bool :=
  (c =? 45)%N || (c =? 92)%N || (c =? 115)%N.

Definition nn_nnn_nn_raw_re : regex :=
  Cat (times 2 (Cls is_alnum))
    (Cat (Opt (Cls sep_class))
       (Cat (times 3 (Cls is_alnum))
          (Cat (Opt (Cls sep_class)) (times 2 (Cls is_alnum))))).

Definition n_nnnn_nn_raw_re : regex :=
  Cat (times 1 (Cls is_alnum))
    (Cat (Opt (Cls sep_class))
       (Cat (times 4 (Cls is_alnum))
          (Cat (Opt (Cls sep_class)) (times 2 (Cls is_alnum))))).

Definition _validate_and_format_plate_by_rules
    (raw_ocr_text numeric_plate_text : str) : option str :=
  let len_numeric := len numeric_plate_text in
  if Nat.eqb len_numeric 7 then
    let format1 := slice_to 2 numeric_plate_text ++ lit "-"
                   ++ slice 2 5 numeric_plate_text ++ lit "-"
                   ++ slice_from 5 numeric_plate_text in
    let format2 := slice_to 1 numeric_plate_text ++ lit "-"
                   ++ slice 1 5 numeric_plate_text ++ lit "-"
                   ++ slice_from 5 numeric_plate_text in
    let match_format1_hint := fullmatch nn_nnn_nn_raw_re raw_ocr_text in
    let match_format2_hint := fullmatch n_nnnn_nn_raw_re raw_ocr_text in
    if match_format1_hint && negb match_format2_hint then Some format1
    else if match_format2_hint && negb match_format1_hint then Some format2
    else if match_format1_hint && match_format2_hint
         then Some (format1 ++ lit " or " ++ format2)
    else Some (format1 ++ lit " or " ++ format2)
  else if Nat.eqb len_numeric 8 then
    Some (slice_to 3 numeric_plate_text ++ lit "-"
          ++ slice 3 5 numeric_plate_text ++ lit "-"
          ++ slice_from 5 numeric_plate_text)
  else None.

Definition char_map : list (str * str) :=
  [ (lit "O", lit "0"); (lit "I", lit "1"); (lit "L", lit "1");
    (lit "S", lit "5"); (lit "B", lit "8"); (lit "Z", lit "2");
    (lit "G", lit "6"); (lit "Q", lit "0"); (lit "A", lit "4");
    (lit "E", lit "3") ].

Section Normalisation.

(** [ch.upper()] outside ASCII is Python's Unicode table, which is not
    part of the program; it may return several code points. *)
Variable upper_nonascii : char -> str.

(** [ch.upper()] for a one-character string. *)
Definition upper (c : char) : str :=
  if is_ascii_lower c then [(c - 32)%N]
  else if (c <? 128)%N then [c]
  else upper_nonascii c.

(** ["".join([char_map.get(char.upper(), char.upper()) for char in raw])] *)
Definition corrected_raw_text (raw_text_from_ocr : str) : str :=
  List.concat (map (fun ch => dict_get char_map (upper ch) (upper ch))
              raw_text_from_ocr).

Definition numeric_text (raw_text_from_ocr : str) : str :=
  re_sub_non_digits (corrected_raw_text raw_text_from_ocr).

(** The text handling of [_read_license_plate_trocr],
    [_read_license_plate_easyocr] and [process_synchronous_ocr], from
    the decoded engine text on: map, strip to digits, validate. *)
Definition validate_and_format (raw_text_from_ocr : str) : option str :=
  _validate_and_format_plate_by_rules
    (corrected_raw_text raw_text_from_ocr)
    (numeric_text raw_text_from_ocr).

End Normalisation.

(** *** Perspective correction: [_order_points], [_correct_plate_perspective] *)

(** The rows of [rect] in order: [rect[0]], [rect[1]], [rect[2]],
    [rect[3]].  [rect] is a [float32] array: a coordinate of magnitude up
    to 2^24 is stored exactly, a larger one is rounded.  The rows are kept
    as integers, so this is the code's function on coordinates up to 2^24
    ([is_pixel]) and is used for those only. *)
Definition _order_points (pts : list point) : result (list point) :=
  let s := sum_axis1 pts in
  i0 <- argmin s ;;
  rect0 <- getitem pts i0 ;;
  i2 <- argmax s ;;
  rect2 <- getitem pts i2 ;;
  let diff := diff_axis1 pts in
  i1 <- argmin diff ;;
  rect1 <- getitem pts i1 ;;
  i3 <- argmax diff ;;
  rect3 <- getitem pts i3 ;;
  Ok [rect0; rect1; rect2; rect3].

(** [approx.reshape(4, 2)] *)
Definition reshape_4_2 (approx : contour) : result (list point) :=
  if Nat.eqb (List.length approx) 4 then Ok approx else Raise ValueError.

Section OpenCV.

(** [cvtColor], [GaussianBlur], [Canny] and [findContours] in a row:
    the contours of the edge map of a crop. *)
Variable findContours : image -> list contour.
Variable contourArea : contour -> Q.
Variable arcLength : contour -> Q.
Variable approxPolyDP : contour -> Q -> contour.
(** [np.sqrt] on [float32]. *)
Variable np_sqrt : Q -> Q.
(** [getPerspectiveTransform] then [warpPerspective] to the size
    [(max_width, max_height)]. *)
Variable warpPerspective : image -> list point -> Z * Z -> image.

(** [sorted(contours, key=cv2.contourArea, reverse=True)]: stable,
    largest first. *)
Fixpoint insert_desc (c : contour) (sorted : list contour) : list contour :=
  match sorted with
  | [] => [c]
  | d :: rest =>
      if ge (contourArea d) (contourArea c) then d :: insert_desc c rest
      else c :: d :: rest
  end.

Definition sorted_desc (contours : list contour) : list contour :=
  fold_left (fun acc c => insert_desc c acc) contours [].

(** The loop that looks for [screen_cnt], with its [break]. *)
Fixpoint find_screen_cnt (gray_area : Q) (contours : list contour)
  : option contour :=
  match contours with
  | [] => None
  | c :: rest =>
      let peri := arcLength c in
      let approx := approxPolyDP c ((2 # 100) * peri) in
      if Nat.eqb (List.length approx) 4 then
        if gt (contourArea approx) (gray_area * (1 # 10)) then Some approx
        else find_screen_cnt gray_area rest
      else find_screen_cnt gray_area rest
  end.

(** A contour that approximates to exactly four points whose area is
    above one tenth of the crop's area. *)
Definition qualifies (plate_crop_bgr : image) (c : contour) : Prop :=
  let approx := approxPolyDP c ((2 # 100) * arcLength c) in
  List.length approx = 4%nat
  /\ (inject_Z (shape0 plate_crop_bgr * shape1 plate_crop_bgr) * (1 # 10)
      < contourArea approx)%Q.

Definition screen_cnt (plate_crop_bgr : image) : option contour :=
  find_screen_cnt (inject_Z (shape0 plate_crop_bgr * shape1 plate_crop_bgr))
    (firstn 10 (sorted_desc (findContours plate_crop_bgr))).

(** [np.sqrt(((a[0] - b[0]) ** 2) + ((a[1] - b[1]) ** 2))] *)
Definition edge (a b : point) : Q :=
  np_sqrt (inject_Z ((fst a - fst b) ^ 2) + inject_Z ((snd a - snd b) ^ 2)).

Definition max_width (tl tr br bl : point) : Z :=
  Z.max (int (edge br bl)) (int (edge tr tl)).

Definition max_height (tl tr br bl : point) : Z :=
  Z.max (int (edge tr br)) (int (edge tl bl)).

Definition _correct_plate_perspective (plate_crop_bgr : option image)
  : result (option image) :=
  match plate_crop_bgr with
  | None => Ok None
  | Some crop =>
      if size crop =? 0 then Ok (Some crop)
      else
        let original_crop := crop in
        match screen_cnt crop with
        | None => Ok (Some original_crop)
        | Some cnt =>
            pts <- reshape_4_2 cnt ;;
            ordered_points <- _order_points pts ;;
            match ordered_points with
            | [tl; tr; br; bl] =>
                let w := max_width tl tr br bl in
                if w =? 0 then Ok (Some original_crop)
                else
                  let h := max_height tl tr br bl in
                  if h =? 0 then Ok (Some original_crop)
                  else
                    let warped :=
                      warpPerspective original_crop ordered_points (w, h) in
                    if (shape0 warped <? 20) || (shape1 warped <? 50)
                    then Ok (Some original_crop)
                    else Ok (Some warped)
            | _ => Raise ValueError
            end
        end
  end.

End OpenCV.

(** *** The background worker: [process_latest], [_process_ocr] *)

(** [ocr_engine_type]: the two supported names, or any other string. *)
Inductive engine_type := trocr | easyocr | other_engine.

(** The attributes of a [SimpleOCRWorker] the threads share. *)
Record worker := mkWorker {
  ocr_engine_type : engine_type;
  current_task : option image;
  latest_result : str;
  processing : bool;
  stop_event : bool
}.

(** [__init__] *)
Definition init (ty : engine_type) : worker :=
  mkWorker ty None (lit "No plate detected") false false.

(** [get_latest_result] *)
Definition get_latest_result (self : worker) : str := latest_result self.

Definition set_current_task (self : worker) (t : option image) : worker :=
  mkWorker (ocr_engine_type self) t (latest_result self)
           (processing self) (stop_event self).

Definition set_latest_result (self : worker) (r : str) : worker :=
  mkWorker (ocr_engine_type self) (current_task self) r
           (processing self) (stop_event self).

Definition set_processing (self : worker) (b : bool) : worker :=
  mkWorker (ocr_engine_type self) (current_task self) (latest_result self)
           b (stop_event self).

Definition set_stop_event (self : worker) : worker :=
  mkWorker (ocr_engine_type self) (current_task self) (latest_result self)
           (processing self) true.

Section Engines.

Variable upper_nonascii : char -> str.

(** The TrOCR call chain from pre-processing to
    [batch_decode(...)[0]]: the decoded text, or an exception. *)
Variable trocr_decode : option image -> result str.

(** [easyocr_reader.readtext(img, detail=1)] after pre-processing:
    the [(text, confidence)] of each fragment, or an exception. *)
Variable easyocr_readtext : option image -> result (list (str * Q)).

Definition _read_license_plate_trocr (license_plate_crop_bgr : option image)
  : option str * Q :=
  match trocr_decode license_plate_crop_bgr with
  | Raise _ => (None, 0%Q)
  | Ok raw_text_from_ocr =>
      let formatted_plate :=
        validate_and_format upper_nonascii raw_text_from_ocr in
      if truthy_opt formatted_plate then (formatted_plate, 1%Q)
      else (None, 0%Q)
  end.

Definition _read_license_plate_easyocr (license_plate_crop_bgr : option image)
  : option str * Q :=
  match easyocr_readtext license_plate_crop_bgr with
  | Raise _ => (None, 0%Q)
  | Ok results =>
      match results with
      | [] => (None, 0%Q)
      | _ :: _ =>
          let raw_text_from_ocr := List.concat (map fst results) in
          let formatted_plate :=
            validate_and_format upper_nonascii raw_text_from_ocr in
          if truthy_opt formatted_plate then
            (formatted_plate,
             (fold_right Qplus 0 (map snd results)
              / inject_Z (Z.of_nat (List.length results)))%Q)
          else (None, 0%Q)
      end
  end.

(** Where a thread running [_process_ocr] stands.  A thread moves in
    steps; between two steps of one thread anything else can happen.  The
    stop test of line 56 and the write of line 60 are two steps: no lock
    holds them together. *)
Inductive pc :=
| Entry                                        (* started, line 43 not run yet *)
| Reading                                      (* [processing] set, engine call pending *)
| Publishing (license_plate_text : option str) (* engine returned, line 56 pending *)
| Writing (license_plate_text : option str)    (* line 56 passed, lines 59-60 pending *)
| Done.

(** The worker object and the threads started on it so far, oldest
    first. *)
Record world := mkWorld {
  self : worker;
  threads : list pc
}.

Definition boot (ty : engine_type) : world := mkWorld (init ty) [].

(** [process_latest]: guard, copy of the crop, thread start. *)
Definition process_latest (license_plate_crop : image) (w : world) : world :=
  if negb (processing (self w)) && negb (stop_event (self w)) then
    mkWorld (set_current_task (self w) (Some license_plate_crop))
            (threads w ++ [Entry])
  else w.

(** Lines 43-47 of [_process_ocr]. *)
Definition enter (s : worker) : worker * pc :=
  match current_task s with
  | None => (set_processing s false, Done)
  | Some _ =>
      if stop_event s then (set_processing s false, Done)
      else (set_processing s true, Reading)
  end.

(** Lines 48-54: the engine call; the [ValueError] of an unsupported
    engine goes to [except] and [finally]. *)
Definition read (s : worker) : worker * pc :=
  match ocr_engine_type s with
  | trocr =>
      (s, Publishing (fst (_read_license_plate_trocr (current_task s))))
  | easyocr =>
      (s, Publishing (fst (_read_license_plate_easyocr (current_task s))))
  | other_engine => (set_processing s false, Done)
  end.

(** Lines 56-57: the stop test.  A stopped task returns through
    [finally]; the other goes on to line 59 with nothing held: whatever
    happens before its next step, the stop flag included, it will write. *)
Definition stop_test (license_plate_text : option str) (s : worker)
  : worker * pc :=
  if stop_event s then (set_processing s false, Done)
  else (s, Writing license_plate_text).

(** Lines 59-60 and [finally]. *)
Definition write_result (license_plate_text : option str) (s : worker)
  : worker :=
  match license_plate_text with
  | Some text =>
      if truthy text
      then set_processing (set_latest_result s text) false
      else set_processing s false
  | None => set_processing s false
  end.

Definition thread_step (p : pc) (s : worker) : worker * pc :=
  match p with
  | Entry => enter s
  | Reading => read s
  | Publishing text => stop_test text s
  | Writing text => (write_result text s, Done)
  | Done => (s, Done)
  end.

(** [_process_ocr] run from start to end with nothing in between.  The
    [except] clause (lines 62-64, whose [print] stands at the level of its
    [if] in the source) only prints; [finally] lowers the flag. *)
Definition _process_ocr (s : worker) : worker :=
  let '(s1, p1) := thread_step Entry s in
  let '(s2, p2) := thread_step p1 s1 in
  let '(s3, p3) := thread_step p2 s2 in
  fst (thread_step p3 s3).

(** [l[i] = x], nothing out of range. *)
Fixpoint set_nth {A} (i : nat) (x : A) (l : list A) : list A :=
  match l, i with
  | [], _ => []
  | _ :: t, O => x :: t
  | y :: t, S j => y :: set_nth j x t
  end.

(** What can happen next. *)
Inductive event :=
| call_process_latest (license_plate_crop : image)
| set_stop
| run_thread (tid : nat).

Definition step (e : event) (w : world) : world :=
  match e with
  | call_process_latest crop => process_latest crop w
  | set_stop => mkWorld (set_stop_event (self w)) (threads w)
  | run_thread tid =>
      match nth_error (threads w) tid with
      | None => w
      | Some p =>
          let '(s', p') := thread_step p (self w) in
          mkWorld s' (set_nth tid p' (threads w))
      end
  end.

(** A schedule, first event first. *)
Definition run (schedule : list event) (w : world) : world :=
  fold_left (fun w e => step e w) schedule w.

Definition is_live (p : pc) : bool :=
  match p with Done => false | _ => true end.

(** Threads started and not yet finished. *)
Definition in_flight (w : world) : nat :=
  List.length (filter is_live (threads w)).

(** Threads started so far. *)
Definition started (w : world) : nat := List.length (threads w).

(** A string some raw text validates to. *)
Definition validated (s : str) : Prop :=
  exists raw, validate_and_format upper_nonascii raw = Some s.

(** The text a thread holds between the engine call and the write. *)
Definition held_text (p : pc) : option str :=
  match p with
  | Publishing text | Writing text => text
  | _ => None
  end.

(** What every reachable state satisfies: the published result is the
    initial sentinel or a validated string, and so is every text a thread
    is about to publish. *)
Definition consistent (w : world) : Prop :=
  (latest_result (self w) = lit "No plate detected"
   \/ validated (latest_result (self w)))
  /\ Forall (fun p => forall t, held_text p = Some t -> validated t)
            (threads w).

End Engines.

(** *** [process_synchronous_ocr] *)

Section Synchronous.

Variable upper_nonascii : char -> str.

(** The TrOCR chain of line 291, from pre-processing to
    [batch_decode(...)[0]]: the decoded text, or an exception. *)
Variable trocr_decode_sync : image -> result str.

(** Pre-processing and [easyocr_reader.readtext(img, detail=1)], the same
    calls as in [_read_license_plate_easyocr]. *)
Variable easyocr_readtext : option image -> result (list (str * Q)).

Definition process_synchronous_ocr (ty : engine_type)
    (license_plate_crop_bgr : option image) : option str :=
  match license_plate_crop_bgr with
  | None => None
  | Some crop =>
      if size crop =? 0 then None
      else
        match ty with
        | trocr =>
            match trocr_decode_sync crop with
            | Raise _ => None
            | Ok raw_text_from_ocr =>
                validate_and_format upper_nonascii raw_text_from_ocr
            end
        | easyocr =>
            match easyocr_readtext (Some crop) with
            | Raise _ => None
            | Ok results =>
                match results with
                | [] => None
                | _ :: _ =>
                    validate_and_format upper_nonascii
                      (List.concat (map fst results))
                end
            end
        | other_engine => None
        end
  end.

End Synchronous.

(** *** Schedules in which a started thread runs its first lines at once *)

Section Orderly.

Variable upper_nonascii : char -> str.
Variable trocr_decode : option image -> result str.
Variable easyocr_readtext : option image -> result (list (str * Q)).

(** A request whose thread, if one is started, runs lines 43-47 before
    anything else happens. *)
Definition request_and_enter (license_plate_crop : image) (w : world) : world :=
  step upper_nonascii trocr_decode easyocr_readtext (run_thread (started w))
    (step upper_nonascii trocr_decode easyocr_readtext
       (call_process_latest license_plate_crop) w).

Inductive orderly_event :=
| request (license_plate_crop : image)
| stop
| thread (tid : nat).

Definition orderly_step (e : orderly_event) (w : world) : world :=
  match e with
  | request crop => request_and_enter crop w
  | stop => step upper_nonascii trocr_decode easyocr_readtext set_stop w
  | thread tid =>
      step upper_nonascii trocr_decode easyocr_readtext (run_thread tid) w
  end.

Definition orderly_run (schedule : list orderly_event) (w : world) : world :=
  fold_left (fun w e => orderly_step e w) schedule w.

(** No thread waits at its entry, and a live thread means the flag is up. *)
Definition single_flight (w : world) : Prop :=
  Forall (fun p => p <> Entry) (threads w)
  /\ (in_flight w = 0%nat
      \/ (in_flight w = 1%nat /\ processing (self w) = true)).

End Orderly.

End SimpleOCRWorker.

(** ** [python_yolo_fast_plate.py]: [FastPlateOCRWorker] *)

Module FastPlateOCRWorker.

Import Py Np.

Definition _validate_and_format_plate_by_rules
    (raw_ocr_text numeric_plate_text : str) : option str :=
  let len_numeric := len numeric_plate_text in
  if Nat.eqb len_numeric 7 then
    Some (slice_to 2 numeric_plate_text ++ lit "-"
          ++ slice 2 5 numeric_plate_text ++ lit "-"
          ++ slice_from 5 numeric_plate_text)
  else if Nat.eqb len_numeric 8 then
    Some (slice_to 3 numeric_plate_text ++ lit "-"
          ++ slice 3 5 numeric_plate_text ++ lit "-"
          ++ slice_from 5 numeric_plate_text)
  else if Nat.eqb len_numeric 9 then
    let option1 := slice_from 1 numeric_plate_text in
    let option2 := slice_to_last numeric_plate_text in
    let formatted_option1 := slice_to 3 option1 ++ lit "-"
                             ++ slice 3 5 option1 ++ lit "-"
                             ++ slice_from 5 option1 in
    let formatted_option2 := slice_to 3 option2 ++ lit "-"
                             ++ slice 3 5 option2 ++ lit "-"
                             ++ slice_from 5 option2 in
    Some (formatted_option1 ++ lit " or " ++ formatted_option2)
  else None.

(** [raw_text.replace('_', '').strip()] *)
Definition clean_text (raw_text : str) : str :=
  strip (remove_char 95%N raw_text).

(** [re.sub(r'[^0-9]', '', clean_text)] *)
Definition numeric_only (raw_text : str) : str :=
  re_sub_non_digits (clean_text raw_text).

Definition _validate_and_format_plate (raw_text : str) : option str :=
  if negb (truthy raw_text) then None
  else
    if (len (numeric_only raw_text) <? 7)%nat
       || (9 <? len (numeric_only raw_text))%nat
    then None
    else _validate_and_format_plate_by_rules
           (clean_text raw_text) (numeric_only raw_text).

(** *** The background worker *)

(** The attributes of a [FastPlateOCRWorker]; [ocr_recognizer] is the
    recogniser applied to the grey crop ([cvtColor] then [run]), or
    [None] when its initialisation failed. *)
Record worker := mkWorker {
  ocr_recognizer : option (image -> result (list str));
  current_task : option image;
  latest_result : str;
  processing : bool;
  stop_event : bool;
  debug_counter : nat
}.

(** [__init__] *)
Definition init (recognizer : option (image -> result (list str))) : worker :=
  mkWorker recognizer None (lit "No plate detected") false false 0.

Definition get_latest_result (self : worker) : str := latest_result self.

Definition set_latest_result (self : worker) (r : str) : worker :=
  mkWorker (ocr_recognizer self) (current_task self) r
           (processing self) (stop_event self) (debug_counter self).

Definition set_processing (self : worker) (b : bool) : worker :=
  mkWorker (ocr_recognizer self) (current_task self) (latest_result self)
           b (stop_event self) (debug_counter self).

Definition incr_debug_counter (self : worker) : worker :=
  mkWorker (ocr_recognizer self) (current_task self) (latest_result self)
           (processing self) (stop_event self) (S (debug_counter self)).

(** Lines 136-157: what the run writes to [latest_result] for the
    recogniser's list of strings. *)
Definition published (result : list str) : str :=
  match result with
  | [] => lit "No plate detected"
  | first :: _ =>
      let raw_text := if truthy first then first else [] in
      if truthy raw_text then
        let formatted_text := _validate_and_format_plate raw_text in
        if truthy_opt formatted_text then
          match formatted_text with
          | Some t => t
          | None => []
          end
        else
          let numeric_only := re_sub_non_digits (strip (remove_char 95%N raw_text)) in
          lit "Raw: " ++ numeric_only ++ lit " (len:"
          ++ str_of_nat (len numeric_only) ++ lit ")"
      else lit "No plate detected"
  end.

(** One background run of [_process_ocr], start to end. *)
Definition _process_ocr (self : worker) : worker :=
  match current_task self, ocr_recognizer self with
  | Some task, Some recognizer =>
      if stop_event self then set_processing self false
      else
        let self := incr_debug_counter (set_processing self true) in
        match recognizer task with
        | Raise _ => set_processing self false
        | Ok result =>
            if stop_event self then set_processing self false
            else set_processing (set_latest_result self (published result)) false
        end
  | _, _ => set_processing self false
  end.

(** *** The point ordering written inline in
    [_auto_correct_plate_perspective_and_enhance] (lines 417-427) *)

(** As in [_order_points], [rect] is a [float32] array and the rows are
    kept as integers: the code's function on coordinates up to 2^24. *)

Definition ordered_rect (pts : list point) : result (list point) :=
  let s := sum_axis1 pts in
  i0 <- argmin s ;;
  rect0 <- getitem pts i0 ;;
  i2 <- argmax s ;;
  rect2 <- getitem pts i2 ;;
  let diff := diff_axis1 pts in
  i1 <- argmin diff ;;
  rect1 <- getitem pts i1 ;;
  i3 <- argmax diff ;;
  rect3 <- getitem pts i3 ;;
  Ok [rect0; rect1; rect2; rect3].

(** *** [process_latest], [process_synchronous_ocr],
    [_apply_numeric_format_rules] and the last-resort corners *)

Definition set_current_task (self : worker) (t : option image) : worker :=
  mkWorker (ocr_recognizer self) t (latest_result self)
           (processing self) (stop_event self) (debug_counter self).

(** [process_latest]: the worker after the call, and whether a thread was
    started. *)
Definition process_latest (license_plate_crop : image) (self : worker)
  : worker * bool :=
  if negb (processing self) && negb (stop_event self)
     && match ocr_recognizer self with Some _ => true | None => false end
  then (set_current_task self (Some license_plate_crop), true)
  else (self, false).

Definition process_synchronous_ocr (self : worker)
    (license_plate_crop_bgr : option image) : option str :=
  match license_plate_crop_bgr, ocr_recognizer self with
  | Some crop, Some recognizer =>
      if size crop =? 0 then None
      else
        match recognizer crop with
        | Raise _ => None
        | Ok result =>
            match result with
            | [] => None
            | first :: _ =>
                let raw_text := if truthy first then first else [] in
                if truthy raw_text then
                  let formatted_text := _validate_and_format_plate raw_text in
                  if truthy_opt formatted_text then formatted_text else None
                else None
            end
        end
  | _, _ => None
  end.

Definition _apply_numeric_format_rules (numeric_text : str) : str :=
  let len_numeric := len numeric_text in
  if Nat.eqb len_numeric 7 then
    slice_to 2 numeric_text ++ lit "-" ++ slice 2 5 numeric_text ++ lit "-"
    ++ slice_from 5 numeric_text
  else if Nat.eqb len_numeric 8 then
    slice_to 3 numeric_text ++ lit "-" ++ slice 3 5 numeric_text ++ lit "-"
    ++ slice_from 5 numeric_text
  else numeric_text.

(** Strategy 3 of [_auto_correct_plate_perspective_and_enhance] (lines
    388-399): the corners of the central region of a crop [w_img] wide
    and [h_img] high, as [int32] rows.  The products [w_img * 0.1] and
    [h_img * 0.2] are taken exact; the rows pass through a [float32]
    array, which holds integers up to 2^24 exactly. *)
Definition central_region (w_img h_img : Z) : list point :=
  let margin_x := int (inject_Z w_img * (1 # 10)) in
  let margin_y := int (inject_Z h_img * (2 # 10)) in
  [ (margin_x, margin_y);
    (w_img - margin_x, margin_y);
    (w_img - margin_x, h_img - margin_y);
    (margin_x, h_img - margin_y) ].

End FastPlateOCRWorker.

(** ** [python_yolo_fast_plate.py]: [NumericOnlyONNXPlateRecognizer] *)

Module NumericOnlyONNXPlateRecognizer.

Import Py.

Section Postprocess.

(** [char.isdigit()] outside ASCII is Python's Unicode table. *)
Variable isdigit_nonascii : char -> bool.

Definition isdigit (c : char) : bool :=
  if (c <? 128)%N then is_digit c else isdigit_nonascii c.

(** One slot of [masked_predictions]: the scores of the alphabet's
    characters, [None] standing for [-np.inf]. *)
Definition mask_row (model_alphabet : str) (row : list Q) : list (option Q) :=
  map (fun cp => if isdigit (fst cp) then Some (snd cp) else None)
      (combine model_alphabet row).

(** [a < b] on masked scores. *)
Definition lt_masked (a b : option Q) : bool :=
  match a, b with
  | None, Some _ => true
  | Some x, Some y => gt y x
  | _, None => false
  end.

Fixpoint argmax_from (best_i : nat) (best : option Q) (i : nat)
    (l : list (option Q)) : nat :=
  match l with
  | [] => best_i
  | x :: rest =>
      if lt_masked best x then argmax_from i x (S i) rest
      else argmax_from best_i best (S i) rest
  end.

(** [np.argmax] along the last axis: first index of the greatest score. *)
Definition argmax (l : list (option Q)) : result nat :=
  match l with
  | [] => Raise ValueError
  | x :: rest => Ok (argmax_from 0 x 1 rest)
  end.

(** [alphabet_array[i]] *)
Definition alphabet_at (model_alphabet : str) (i : nat) : result char :=
  match nth_error model_alphabet i with
  | Some c => Ok c
  | None => Raise IndexError
  end.

Definition decode_slot (model_alphabet : str) (row : list Q) : result char :=
  i <- argmax (mask_row model_alphabet row) ;;
  alphabet_at model_alphabet i.

Fixpoint for_each {A B} (f : A -> result B) (l : list A) : result (list B) :=
  match l with
  | [] => Ok []
  | a :: rest =>
      b <- f a ;;
      bs <- for_each f rest ;;
      Ok (b :: bs)
  end.

(** [predictions] is [model_output] after its [reshape]: for every plate
    and every slot, one score per character of the alphabet.
    [np.apply_along_axis] raises when there is no plate at all. *)
Definition _postprocess_output_numeric_only
    (predictions : list (list (list Q))) (model_alphabet : str)
  : result (list str) :=
  match predictions with
  | [] => Raise ValueError
  | _ :: _ => for_each (for_each (decode_slot model_alphabet)) predictions
  end.

(** The order [np.argmax] sees on masked scores. *)
Definition masked_le (a b : option Q) : Prop :=
  match a, b with
  | None, _ => True
  | Some _, None => False
  | Some x, Some y => (x <= y)%Q
  end.

(** The shape [reshape((-1, max_plate_slots, len(model_alphabet)))] gives. *)
Definition well_shaped (predictions : list (list (list Q)))
    (max_plate_slots : nat) (model_alphabet : str) : Prop :=
  Forall (fun plate =>
            List.length plate = max_plate_slots
            /\ Forall (fun row => List.length row = List.length model_alphabet)
                      plate) predictions.

End Postprocess.

End NumericOnlyONNXPlateRecognizer.

(** The separator patterns as the specification words them: groups of
    alphanumerics with an optional hyphen or whitespace between them. *)

Module SpecPattern.

Import Py Re.

Definition sep_class (c : char) : bool := (c =? 45)%N || is_space c.

Definition nn_nnn_nn : regex :=
  Cat (times 2 (Cls is_alnum))
    (Cat (Opt (Cls sep_class))
       (Cat (times 3 (Cls is_alnum))
          (Cat (Opt (Cls sep_class)) (times 2 (Cls is_alnum))))).

Definition n_nnnn_nn : regex :=
  Cat (times 1 (Cls is_alnum))
    (Cat (Opt (Cls sep_class))
       (Cat (times 4 (Cls is_alnum))
          (Cat (Opt (Cls sep_class)) (times 2 (Cls is_alnum))))).

End SpecPattern.

(** ** [DetectionWorker.run]: vehicle filter, plate association, best plate

    The two scripts hold the same text for this part of the loop body
    ([python_yolo.py] lines 354-383, [python_yolo_fast_plate.py] lines
    487-516). *)

Module DetectionWorker.

(** A row of [boxes.data.tolist()]: six floats. *)
Record detection := mkDetection {
  x1 : Q; y1 : Q; x2 : Q; y2 : Q; score : Q; class_id : Q
}.

(** A row of [detected_license_plates]: [[x1_lp, y1_lp, x2_lp, y2_lp, score_lp]]. *)
Definition plate_row := (Q * Q * Q * Q * Q)%type.

(** [best_license_plate_coords] *)
Definition coords := (Q * Q * Q * Q)%type.

Definition row_of (lp : detection) : plate_row :=
  (x1 lp, y1 lp, x2 lp, y2 lp, score lp).

Definition coords_of (lp : detection) : coords :=
  (x1 lp, y1 lp, x2 lp, y2 lp).

Import Py.

Definition vehicle_classes : list Z := [2; 3; 5; 7].

(** [int(class_id) in self.vehicle_classes and score > 0.5] *)
Definition is_vehicle (d : detection) : bool :=
  existsb (Z.eqb (int (class_id d))) vehicle_classes
  && gt (score d) (1 # 2).

(** The loop over the vehicle detector's rows, appending to
    [detected_vehicles]. *)
Fixpoint vehicle_loop (rows detected_vehicles : list detection)
  : list detection :=
  match rows with
  | [] => detected_vehicles
  | d :: rest =>
      if is_vehicle d
      then vehicle_loop rest (detected_vehicles ++ [d])
      else vehicle_loop rest detected_vehicles
  end.

(** The margin test of the inner loop. *)
Definition within_margin (lp vehicle : detection) : bool :=
  ge (x1 lp) (x1 vehicle - 20) && ge (y1 lp) (y1 vehicle - 20)
  && le (x2 lp) (x2 vehicle + 20) && le (y2 lp) (y2 vehicle + 20).

(** The inner loop with its [break]: the first vehicle that passes. *)
Fixpoint associated_vehicle (lp : detection) (detected_vehicles : list detection)
  : option detection :=
  match detected_vehicles with
  | [] => None
  | vehicle :: rest =>
      if within_margin lp vehicle then Some vehicle
      else associated_vehicle lp rest
  end.

(** The variables the plate loop updates. *)
Record plate_state := mkPlateState {
  detected_license_plates : list plate_row;
  best_license_plate_coords : option coords;
  best_score : Q
}.

Definition plate_init : plate_state :=
  mkPlateState [] None 0.

(** One iteration of the plate loop. *)
Definition plate_body (detected_vehicles : list detection)
    (st : plate_state) (lp : detection) : plate_state :=
  match associated_vehicle lp detected_vehicles with
  | None => st
  | Some _ =>
      let plates := detected_license_plates st ++ [row_of lp] in
      if gt (score lp) (best_score st)
      then mkPlateState plates (Some (coords_of lp)) (score lp)
      else mkPlateState plates (best_license_plate_coords st) (best_score st)
  end.

Fixpoint plate_loop (detected_vehicles rows : list detection)
    (st : plate_state) : plate_state :=
  match rows with
  | [] => st
  | lp :: rest =>
      plate_loop detected_vehicles rest (plate_body detected_vehicles st lp)
  end.

Section Frame.

Variable Frame : Type.

(** The two detectors, as the rows of [boxes.data.tolist()]. *)
Variable vehicle_detector : Frame -> list detection.
Variable license_plate_detector : Frame -> list detection.

Variables show_vehicles show_plates : bool.

(** The detection part of one iteration of [run]. *)
Definition detect (original_frame_for_ocr : Frame)
  : list detection * plate_state :=
  let detected_vehicles :=
    if show_vehicles || show_plates
    then vehicle_loop (vehicle_detector original_frame_for_ocr) []
    else [] in
  let st :=
    if show_plates
    then plate_loop detected_vehicles
           (license_plate_detector original_frame_for_ocr) plate_init
    else plate_init in
  (detected_vehicles, st).

(** The plate rows the loop of this frame went through. *)
Definition plate_detections (original_frame_for_ocr : Frame)
  : list detection :=
  if show_plates then license_plate_detector original_frame_for_ocr else [].

End Frame.

(** *** The OCR interval *)

(** [__init__]: an interval of 0 or less is replaced by 1. *)
Definition ocr_processing_interval (ocr_interval : Z) : Z :=
  if ocr_interval <=? 0 then 1 else ocr_interval.

(** [self.frame_nmr_processed % self.ocr_processing_interval == 0];
    [None] is the [ZeroDivisionError] of [%]. *)
Definition ocr_due (frame_nmr_processed interval : Z) : option bool :=
  if interval =? 0 then None
  else Some (frame_nmr_processed mod interval =? 0).

(** Among the first [n] frames taken from the queue, numbered from 1 (the
    counter is raised before anything else), those on which the crop goes
    to [process_latest] when there is one. *)
Definition due_frames (ocr_interval : Z) (n : nat) : list Z :=
  filter (fun k =>
            match ocr_due k (ocr_processing_interval ocr_interval) with
            | Some b => b
            | None => false
            end)
         (map Z.of_nat (seq 1 n)).

(** *** The crop of [python_yolo_fast_plate.py] (lines 519-532) *)


(** *** Notions the properties of the loop are stated with *)

(** The filter on the vehicle rows, as a proposition. *)
Definition passes_vehicle_filter (d : detection) : Prop :=
  In (int (class_id d)) [2; 3; 5; 7] /\ (1 # 2 < score d)%Q.

(** The vehicle's box grown by 20 on every side holds the plate's box. *)
Definition expanded_box_contains (vehicle lp : detection) : Prop :=
  (x1 vehicle - 20 <= x1 lp /\ y1 vehicle - 20 <= y1 lp
   /\ x2 lp <= x2 vehicle + 20 /\ y2 lp <= y2 vehicle + 20)%Q.

(** Some vehicle of the list passes the margin test for the plate. *)
Definition is_associated (vehicles : list detection) (lp : detection) : bool :=
  existsb (within_margin lp) vehicles.

(** What the loop knows after the associated plates [seen]: nothing
    above confidence 0 yet, or the first plate of highest confidence. *)
Definition best_of (seen : list detection) (st : plate_state) : Prop :=
  (best_license_plate_coords st = None /\ best_score st = 0%Q
   /\ forall q, In q seen -> (score q <= 0)%Q)
  \/ exists l1 p l2,
       seen = l1 ++ p :: l2
       /\ best_license_plate_coords st = Some (coords_of p)
       /\ best_score st = score p
       /\ (0 < score p)%Q
       /\ (forall q, In q l1 -> (score q < score p)%Q)
       /\ (forall q, In q l2 -> (score q <= score p)%Q).

End DetectionWorker.


(** ** [get_video_rotation] (the same text in both scripts) *)

Module Rotation.

Import Py.

(** What [json.loads] returns.  A float that is [NaN] or an infinity is
    [JFloat None]; an object is its key/value pairs, keys distinct. *)
#[warnings="-register-all"]
Inductive json :=
| JNull
| JBool (b : bool)
| JInt (z : Z)
| JFloat (f : option Q)
| JStr (s : str)
| JList (l : list json)
| JDict (d : list (str * json)).

(** The exceptions the body of [get_video_rotation] can meet; every one
    of them is caught by one of its [except] clauses. *)
Inductive error :=
| FileNotFoundError | CalledProcessError | JSONDecodeError
| TypeError | KeyError | IndexError | ValueError | OverflowError.

Inductive outcome (A : Type) :=
| Val (a : A)
| Exc (e : error).
Arguments Val {A} a.
Arguments Exc {A} e.

Definition and_then {A B} (m : outcome A) (k : A -> outcome B) : outcome B :=
  match m with
  | Val a => k a
  | Exc e => Exc e
  end.

(** [d[key]] on the pairs of an object. *)
Fixpoint lookup (key : str) (d : list (str * json)) : option json :=
  match d with
  | [] => None
  | (k, v) :: d' => if str_eqb k key then Some v else lookup key d'
  end.

Fixpoint is_prefix (p s : str) : bool :=
  match p, s with
  | [], _ => true
  | a :: p', b :: s' => char_eqb a b && is_prefix p' s'
  | _ :: _, [] => false
  end.

(** [p in s] on two strings. *)
Fixpoint is_substring (p s : str) : bool :=
  is_prefix p s
  || match s with
     | [] => false
     | _ :: s' => is_substring p s'
     end.

(** [key in v] for a string [key]. *)
Definition contains (key : str) (v : json) : outcome bool :=
  match v with
  | JDict d => Val (match lookup key d with Some _ => true | None => false end)
  | JList l =>
      Val (existsb (fun x => match x with
                             | JStr s => str_eqb s key
                             | _ => false
                             end) l)
  | JStr s => Val (is_substring key s)
  | _ => Exc TypeError
  end.

(** [v[key]] for a string [key]. *)
Definition getitem_key (v : json) (key : str) : outcome json :=
  match v with
  | JDict d =>
      match lookup key d with
      | Some x => Val x
      | None => Exc KeyError
      end
  | _ => Exc TypeError
  end.

(** [v[0]] *)
Definition getitem_0 (v : json) : outcome json :=
  match v with
  | JList (x :: _) => Val x
  | JList [] => Exc IndexError
  | JStr (c :: _) => Val (JStr [c])
  | JStr [] => Exc IndexError
  | JDict _ => Exc KeyError
  | _ => Exc TypeError
  end.

(** Truthiness of a value. *)
Definition truthy_json (v : json) : bool :=
  match v with
  | JNull => false
  | JBool b => b
  | JInt z => negb (z =? 0)
  | JFloat None => true
  | JFloat (Some q) => negb (Qeq_bool q 0)
  | JStr s => truthy s
  | JList l => match l with [] => false | _ => true end
  | JDict d => match d with [] => false | _ => true end
  end.

Section GetVideoRotation.

(** [int(s)] on a string: Python's integer parser. *)
Variable int_of_str : str -> outcome Z.

(** [int(v)] *)
Definition int_of (v : json) : outcome Z :=
  match v with
  | JInt z => Val z
  | JBool b => Val (if b then 1 else 0)
  | JFloat (Some q) => Val (int q)
  | JFloat None => Exc OverflowError
  | JStr s => int_of_str s
  | _ => Exc TypeError
  end.

(** The [try] block, from the value of [json.loads(result.stdout)] on;
    [ffprobe] is that value, or the exception of [subprocess.run] or of
    [json.loads]. *)
Definition rotation_of_output (ffprobe : outcome json) : outcome Z :=
  and_then ffprobe (fun data =>
  and_then (contains (lit "streams") data) (fun has_streams =>
  if negb has_streams then Val 0 else
  and_then (getitem_key data (lit "streams")) (fun streams =>
  if negb (truthy_json streams) then Val 0 else
  and_then (getitem_0 streams) (fun stream_info =>
  and_then (contains (lit "tags") stream_info) (fun has_tags =>
  if negb has_tags then Val 0 else
  and_then (getitem_key stream_info (lit "tags")) (fun tags =>
  and_then (contains (lit "rotate") tags) (fun has_rotate =>
  if negb has_rotate then Val 0 else
  and_then (getitem_key tags (lit "rotate")) (fun tag =>
  and_then (int_of tag) (fun rotation =>
  let rotation := if rotation <? 0 then rotation + 360 else rotation in
  if existsb (Z.eqb rotation) [90; 180; 270] then Val rotation
  else Val 0))))))))).

Definition get_video_rotation (ffprobe : outcome json) : Z :=
  match rotation_of_output ffprobe with
  | Val rotation => rotation
  | Exc _ => 0
  end.

(** [main]: a manual rotation other than 0 takes precedence. *)
Definition final_rotation_angle (manual_rotation : Z) (ffprobe : outcome json) : Z :=
  if negb (manual_rotation =? 0) then manual_rotation
  else get_video_rotation ffprobe.

End GetVideoRotation.

(** The output [ffprobe -of json] prints for a stream with a rotate tag. *)
Definition ffprobe_output (rotate : json) : json :=
  JDict [(lit "programs", JList []);
         (lit "streams", JList [JDict [(lit "tags", JDict [(lit "rotate", rotate)])]])].

End Rotation.

(** ** Reference notions the properties are stated with *)

(** The layouts, written out on the digits. *)

Definition layout_nn_nnn_nn (numeric : Py.str) : Py.str :=
  match numeric with
  | [a; b; c; d; e; f; g] => [a; b; 45%N; c; d; e; 45%N; f; g]
  | _ => []
  end.

Definition layout_n_nnnn_nn (numeric : Py.str) : Py.str :=
  match numeric with
  | [a; b; c; d; e; f; g] => [a; 45%N; b; c; d; e; 45%N; f; g]
  | _ => []
  end.

Definition layout_nnn_nn_nnn (numeric : Py.str) : Py.str :=
  match numeric with
  | [a; b; c; d; e; f; g; h] => [a; b; c; 45%N; d; e; 45%N; f; g; h]
  | _ => []
  end.

(** [numeric[1:]] and [numeric[:-1]] of nine digits. *)
Definition drop_first (numeric : Py.str) : Py.str := tl numeric.
Definition drop_last (numeric : Py.str) : Py.str := removelast numeric.

(** The digit an ASCII character is read as by the normalisation of
    [python_yolo.py], if any: a digit is itself, and the ten letters of the
    character map, in either case, are the digit they look like. *)
Definition one_of (letters : string) (c : Py.char) : bool :=
  existsb (N.eqb c) (Py.lit letters).

Definition digit_read (c : Py.char) : option Py.char :=
  if Py.is_digit c then Some c
  else if one_of "OoQq" c then Some 48%N
  else if one_of "IiLl" c then Some 49%N
  else if one_of "Zz" c then Some 50%N
  else if one_of "Ee" c then Some 51%N
  else if one_of "Aa" c then Some 52%N
  else if one_of "Ss" c then Some 53%N
  else if one_of "Gg" c then Some 54%N
  else if one_of "Bb" c then Some 56%N
  else None.

Definition digits_read (raw : Py.str) : Py.str :=
  flat_map (fun c => match digit_read c with Some d => [d] | None => [] end) raw.

(** ASCII punctuation ([string.punctuation]). *)
Definition is_punctuation (c : Py.char) : bool :=
  ((33 <=? c) && (c <=? 47) || (58 <=? c) && (c <=? 64)
   || (91 <=? c) && (c <=? 96) || (123 <=? c) && (c <=? 126))%N.

(** Sample inputs. *)
Definition garbage50 : Py.str :=
  Py.lit "x#k1?w@2~~p3%%y4^^r5&&t6**u7((v))w--x++y==m//n||hh".

Definition pure_punctuation : Py.str := Py.lit "!?-.,;:#()[]".

(** A frame with one car and, inside its box, one plate of confidence 0. *)
Definition sample_car : DetectionWorker.detection :=
  DetectionWorker.mkDetection 0 0 100 100 (9 # 10) 2.

Definition sample_plate_conf0 : DetectionWorker.detection :=
  DetectionWorker.mkDetection 10 10 40 20 0 0.

(** A frame with two vehicles (class ids 2 and 7.0) and four plates: one
    outside every vehicle, two of equal highest confidence, one lower. *)
Definition sample_truck : DetectionWorker.detection :=
  DetectionWorker.mkDetection 200 0 300 100 (7 # 10) 7.

Definition sample_plates : list DetectionWorker.detection :=
  [ DetectionWorker.mkDetection 500 500 540 520 (99 # 100) 0;
    DetectionWorker.mkDetection 10 10 40 20 (6 # 10) 0;
    DetectionWorker.mkDetection 210 80 240 120 (8 # 10) 0;
    DetectionWorker.mkDetection (-20) 10 40 20 (8 # 10) 0 ].

(** An axis-aligned quadrilateral, clockwise from the top-left corner. *)
Definition sample_quad : list Np.point := [(0, 0); (10, 0); (10, 5); (0, 5)].

(** Stand-ins for the OpenCV calls: one contour, the 40 by 10 rectangle,
    of area 400 and perimeter 100, that approximates to itself; an integer
    square root; a warp that returns a blank image of the size asked. *)
Definition sample_rectangle : Np.contour := [(0, 0); (40, 0); (40, 10); (0, 10)].
Definition sample_findContours (_ : Np.image) : list Np.contour := [sample_rectangle].
Definition sample_contourArea (_ : Np.contour) : Q := 400%Q.
Definition sample_arcLength (_ : Np.contour) : Q := 100%Q.
Definition sample_approxPolyDP (c : Np.contour) (_ : Q) : Np.contour := c.
Definition sample_sqrt (q : Q) : Q := inject_Z (Z.sqrt (Qfloor q)).
Definition sample_warp (_ : Np.image) (_ : list Np.point) (dsize : Z * Z) : Np.image :=
  Np.mkImage (snd dsize) (fst dsize) [].

(** A crop of 12 rows and 44 columns (its bytes are left out). *)
Definition sample_crop : Np.image := Np.mkImage 12 44 [].

(** A fast-plate worker that holds a plate, has a task, and whose
    recogniser reads three digits and padding. *)
Definition sample_fast_worker : FastPlateOCRWorker.worker :=
  FastPlateOCRWorker.mkWorker
    (Some (fun _ => Py.Ok [Py.lit "123____"])) (Some sample_crop)
    (Py.lit "12-345-67") false false 0.

(** A three-character alphabet with its pad character, and the scores of
    one plate of two slots; the pad character scores highest in both. *)
Definition sample_alphabet : Py.str := Py.lit "01_".
Definition sample_predictions : list (list (list Q)) :=
  [ [ [0.1; 0.2; 0.7]; [0.5; 0.1; 0.9] ] ]%Q.

(** A [str.isdigit] that knows no digit outside ASCII. *)
Definition isdigit_ascii_only (_ : Py.char) : bool := false.

(** A fast-plate worker with a task whose recogniser reads eight digits. *)
Definition sample_fast_reader : FastPlateOCRWorker.worker :=
  FastPlateOCRWorker.mkWorker
    (Some (fun _ => Py.Ok [Py.lit "12345678"])) (Some sample_crop)
    (Py.lit "No plate detected") false false 0.

(** A stand-in for Python's integer parser that knows two tag texts. *)
Definition sample_int_of_str (s : Py.str) : Rotation.outcome Z :=
  if Py.str_eqb s (Py.lit "-90") then Rotation.Val (-90)
  else if Py.str_eqb s (Py.lit "450") then Rotation.Val 450
  else Rotation.Exc Rotation.ValueError.

(** An upper-casing table that leaves every non-ASCII character alone. *)
Definition upper_identity (c : Py.char) : Py.str := [c].

(** A TrOCR chain that reads a seven-digit plate from every crop, and an
    EasyOCR reader that finds one fragment. *)
Definition sample_trocr_decode (_ : option Np.image) : Py.result Py.str :=
  Py.Ok (Py.lit "12-345-67").
Definition sample_easyocr_readtext (_ : option Np.image)
  : Py.result (list (Py.str * Q)) :=
  Py.Ok [(Py.lit "12-345-67", 0.9%Q)].

(** A TrOCR worker stopped while its one task holds the text it has read:
    request, the thread's first lines, the engine call, then the stop. *)
Definition sample_stopped_world : SimpleOCRWorker.world :=
  SimpleOCRWorker.run upper_identity sample_trocr_decode sample_easyocr_readtext
    [ SimpleOCRWorker.call_process_latest sample_crop;
      SimpleOCRWorker.run_thread 0;
      SimpleOCRWorker.run_thread 0;
      SimpleOCRWorker.set_stop ]
    (SimpleOCRWorker.boot SimpleOCRWorker.trocr).

(** The same worker stopped one step later, after the task's stop test. *)
Definition sample_late_stopped_world : SimpleOCRWorker.world :=
  SimpleOCRWorker.run upper_identity sample_trocr_decode sample_easyocr_readtext
    [ SimpleOCRWorker.call_process_latest sample_crop;
      SimpleOCRWorker.run_thread 0;
      SimpleOCRWorker.run_thread 0;
      SimpleOCRWorker.run_thread 0;
      SimpleOCRWorker.set_stop ]
    (SimpleOCRWorker.boot SimpleOCRWorker.trocr).

(* ================================================================== *)
(** * Part II - properties *)
(* ================================================================== *)

(** ** Strings and layouts *)

Section StringFacts.

Import Py.

Lemma len_app (s t : str) : len (s ++ t) = (len s + len t)%nat.
Proof. unfold len. apply length_app. Qed.

Lemma filter_digits_all (s : str) : Forall (fun c => is_digit c = true) (re_sub_non_digits s).
Proof.
  unfold re_sub_non_digits. apply Forall_forall. intros c Hc.
  apply filter_In in Hc. tauto.
Qed.

Lemma filter_none (s : str) :
  Forall (fun c => is_digit c = false) s -> re_sub_non_digits s = [].
Proof.
  unfold re_sub_non_digits.
  induction 1 as [|c s Hc _ IH]; simpl; [reflexivity|].
  now rewrite Hc.
Qed.

Lemma lstrip_digits (s : str) :
  re_sub_non_digits (lstrip s) = re_sub_non_digits s.
Proof.
  unfold re_sub_non_digits.
  induction s as [|c s IH]; simpl; [reflexivity|].
  destruct (is_space c) eqn:Hs; [|reflexivity].
  rewrite IH.
  assert (Hd : is_digit c = false).
  { unfold is_space, is_digit in *.
    destruct (N.leb_spec 48 c); destruct (N.leb_spec c 57); simpl; try reflexivity.
    repeat match type of Hs with
           | context [(?a <=? ?b)%N] => destruct (N.leb_spec a b); try lia
           | context [(?a =? ?b)%N] => destruct (N.eqb_spec a b); try lia
           end; simpl in Hs; discriminate. }
  now rewrite Hd.
Qed.

Lemma filter_rev {A} (f : A -> bool) (l : list A) :
  filter f (rev l) = rev (filter f l).
Proof.
  induction l as [|a l IH]; simpl; [reflexivity|].
  rewrite filter_app, IH. simpl. destruct (f a); simpl; [reflexivity|].
  now rewrite app_nil_r.
Qed.

(** Stripping white space loses no digit. *)
Lemma strip_digits (s : str) :
  re_sub_non_digits (strip s) = re_sub_non_digits s.
Proof.
  unfold strip.
  pose proof lstrip_digits as L. unfold re_sub_non_digits in *.
  rewrite filter_rev, L, filter_rev, rev_involutive. apply L.
Qed.

End StringFacts.

Ltac all_digits D :=
  repeat match type of D with
         | Forall _ (_ :: _) =>
             let H := fresh "Hd" in
             let D' := fresh "D" in
             inversion D as [|? ? H D']; subst; clear D; rename D' into D
         end.

Ltac destruct_len H :=
  repeat match type of H with
         | Py.len ?l = _ => destruct l; simpl in H; try discriminate H
         | List.length ?l = _ => destruct l; simpl in H; try discriminate H
         | S _ = S _ => apply Nat.succ_inj in H
         end.

Section ValidatorFacts.

Import Py.

Lemma simple_rules_7 (raw numeric : str) :
  len numeric = 7%nat ->
  SimpleOCRWorker._validate_and_format_plate_by_rules raw numeric =
    let m1 := Re.fullmatch SimpleOCRWorker.nn_nnn_nn_raw_re raw in
    let m2 := Re.fullmatch SimpleOCRWorker.n_nnnn_nn_raw_re raw in
    if m1 && negb m2 then Some (layout_nn_nnn_nn numeric)
    else if m2 && negb m1 then Some (layout_n_nnnn_nn numeric)
    else Some (layout_nn_nnn_nn numeric ++ lit " or " ++ layout_n_nnnn_nn numeric).
Proof.
  intros H. destruct_len H.
  unfold SimpleOCRWorker._validate_and_format_plate_by_rules.
  cbn -[Re.fullmatch SimpleOCRWorker.nn_nnn_nn_raw_re SimpleOCRWorker.n_nnnn_nn_raw_re].
  destruct (Re.fullmatch SimpleOCRWorker.nn_nnn_nn_raw_re raw),
           (Re.fullmatch SimpleOCRWorker.n_nnnn_nn_raw_re raw); reflexivity.
Qed.

Lemma simple_rules_8 (raw numeric : str) :
  len numeric = 8%nat ->
  SimpleOCRWorker._validate_and_format_plate_by_rules raw numeric =
    Some (layout_nnn_nn_nnn numeric).
Proof. intros H. destruct_len H. reflexivity. Qed.

Lemma simple_rules_other (raw numeric : str) :
  len numeric <> 7%nat -> len numeric <> 8%nat ->
  SimpleOCRWorker._validate_and_format_plate_by_rules raw numeric = None.
Proof.
  intros H7 H8. unfold SimpleOCRWorker._validate_and_format_plate_by_rules.
  cbv zeta.
  destruct (Nat.eqb_spec (len numeric) 7); [contradiction|].
  destruct (Nat.eqb_spec (len numeric) 8); [contradiction|]. reflexivity.
Qed.

Lemma fast_rules_7 (raw numeric : str) :
  len numeric = 7%nat ->
  FastPlateOCRWorker._validate_and_format_plate_by_rules raw numeric =
    Some (layout_nn_nnn_nn numeric).
Proof. intros H. destruct_len H. reflexivity. Qed.

Lemma fast_rules_8 (raw numeric : str) :
  len numeric = 8%nat ->
  FastPlateOCRWorker._validate_and_format_plate_by_rules raw numeric =
    Some (layout_nnn_nn_nnn numeric).
Proof. intros H. destruct_len H. reflexivity. Qed.

Lemma fast_rules_9 (raw numeric : str) :
  len numeric = 9%nat ->
  FastPlateOCRWorker._validate_and_format_plate_by_rules raw numeric =
    Some (layout_nnn_nn_nnn (drop_first numeric) ++ lit " or "
          ++ layout_nnn_nn_nnn (drop_last numeric)).
Proof. intros H. destruct_len H. reflexivity. Qed.

Lemma fast_rules_other (raw numeric : str) :
  len numeric <> 7%nat -> len numeric <> 8%nat -> len numeric <> 9%nat ->
  FastPlateOCRWorker._validate_and_format_plate_by_rules raw numeric = None.
Proof.
  intros H7 H8 H9. unfold FastPlateOCRWorker._validate_and_format_plate_by_rules.
  cbv zeta.
  destruct (Nat.eqb_spec (len numeric) 7); [contradiction|].
  destruct (Nat.eqb_spec (len numeric) 8); [contradiction|].
  destruct (Nat.eqb_spec (len numeric) 9); [contradiction|]. reflexivity.
Qed.

(** The entry point of the fast-plate validator goes to the rules
    exactly for 7 to 9 digits. *)
Lemma fast_validate_in_range (raw : str) :
  (7 <= len (FastPlateOCRWorker.numeric_only raw) <= 9)%nat ->
  FastPlateOCRWorker._validate_and_format_plate raw =
    FastPlateOCRWorker._validate_and_format_plate_by_rules
      (FastPlateOCRWorker.clean_text raw) (FastPlateOCRWorker.numeric_only raw).
Proof.
  intros H. unfold FastPlateOCRWorker._validate_and_format_plate.
  destruct raw as [|c raw]; [simpl in H; lia|]. cbn [truthy negb].
  destruct (Nat.ltb_spec (len (FastPlateOCRWorker.numeric_only (c :: raw))) 7); [lia|].
  destruct (Nat.ltb_spec 9 (len (FastPlateOCRWorker.numeric_only (c :: raw)))); [lia|].
  reflexivity.
Qed.

Lemma fast_validate_out_of_range (raw : str) :
  ~ (7 <= len (FastPlateOCRWorker.numeric_only raw) <= 9)%nat ->
  FastPlateOCRWorker._validate_and_format_plate raw = None.
Proof.
  intros H. unfold FastPlateOCRWorker._validate_and_format_plate.
  destruct (truthy raw); [|reflexivity]. cbn [negb].
  destruct (Nat.ltb_spec (len (FastPlateOCRWorker.numeric_only raw)) 7);
    [reflexivity|].
  destruct (Nat.ltb_spec 9 (len (FastPlateOCRWorker.numeric_only raw)));
    [reflexivity|]. lia.
Qed.

End ValidatorFacts.

Section Normalisation.

Import Py.

Variable up : char -> str.

Lemma mapped_non_letter (c : char) :
  (c < 128)%N -> is_ascii_lower c = false -> is_ascii_upper c = false ->
  dict_get SimpleOCRWorker.char_map
    (SimpleOCRWorker.upper up c) (SimpleOCRWorker.upper up c) = [c].
Proof.
  intros H128 Hlow Hup. unfold SimpleOCRWorker.upper. rewrite Hlow.
  apply N.ltb_lt in H128. rewrite H128.
  assert (Hr : (c < 65 \/ 90 < c)%N).
  { unfold is_ascii_upper in Hup.
    destruct (N.leb_spec 65 c); destruct (N.leb_spec c 90);
      simpl in Hup; try discriminate; lia. }
  unfold SimpleOCRWorker.char_map, dict_get, str_eqb, char_eqb, lit.
  cbn [list_ascii_of_string map N_of_ascii N_of_digits].
  repeat match goal with
         | |- context [(?k =? c)%N] =>
             destruct (N.eqb_spec k c); [exfalso; cbn in *; lia|]
         end.
  reflexivity.
Qed.

Lemma punctuation_kept (c : char) :
  is_punctuation c = true ->
  dict_get SimpleOCRWorker.char_map
    (SimpleOCRWorker.upper up c) (SimpleOCRWorker.upper up c) = [c]
  /\ is_digit c = false.
Proof.
  intros Hp.
  assert (Hr : (33 <= c <= 47 \/ 58 <= c <= 64 \/ 91 <= c <= 96 \/ 123 <= c <= 126)%N).
  { unfold is_punctuation in Hp.
    repeat match type of Hp with
           | context [(?a <=? ?b)%N] => destruct (N.leb_spec a b)
           end; simpl in Hp; try discriminate; lia. }
  split.
  - apply mapped_non_letter; [lia| |].
    + unfold is_ascii_lower.
      destruct (N.leb_spec 97 c); destruct (N.leb_spec c 122); simpl; try reflexivity; lia.
    + unfold is_ascii_upper.
      destruct (N.leb_spec 65 c); destruct (N.leb_spec c 90); simpl; try reflexivity; lia.
  - unfold is_digit.
    destruct (N.leb_spec 48 c); destruct (N.leb_spec c 57); simpl; try reflexivity; lia.
Qed.

Lemma punctuation_has_no_digits (raw : str) :
  Forall (fun c => is_punctuation c = true) raw ->
  SimpleOCRWorker.numeric_text up raw = [].
Proof.
  intros H. unfold SimpleOCRWorker.numeric_text.
  assert (E : SimpleOCRWorker.corrected_raw_text up raw = raw).
  { unfold SimpleOCRWorker.corrected_raw_text.
    induction H as [|c raw Hc _ IH]; [reflexivity|].
    cbn [map List.concat]. rewrite IH.
    destruct (punctuation_kept c Hc) as [-> _]. reflexivity. }
  rewrite E. apply filter_none.
  eapply Forall_impl; [|exact H]. intros c Hc. now apply punctuation_kept.
Qed.

Lemma numeric_text_digits (raw : str) :
  Forall (fun c => is_digit c = true) (SimpleOCRWorker.numeric_text up raw).
Proof. apply filter_digits_all. Qed.

(** What the validator of [python_yolo.py] returns, by digit count. *)
Lemma simple_validate_cases (raw : str) :
  let numeric := SimpleOCRWorker.numeric_text up raw in
  (len numeric <> 7%nat /\ len numeric <> 8%nat
   /\ SimpleOCRWorker.validate_and_format up raw = None)
  \/ (len numeric = 7%nat
      /\ (SimpleOCRWorker.validate_and_format up raw
            = Some (layout_nn_nnn_nn numeric)
          \/ SimpleOCRWorker.validate_and_format up raw
            = Some (layout_n_nnnn_nn numeric)
          \/ SimpleOCRWorker.validate_and_format up raw
            = Some (layout_nn_nnn_nn numeric ++ lit " or "
                    ++ layout_n_nnnn_nn numeric)))
  \/ (len numeric = 8%nat
      /\ SimpleOCRWorker.validate_and_format up raw
           = Some (layout_nnn_nn_nnn numeric)).
Proof.
  cbv zeta. unfold SimpleOCRWorker.validate_and_format.
  destruct (Nat.eq_dec (len (SimpleOCRWorker.numeric_text up raw)) 7) as [H7|H7].
  - right; left. split; [assumption|].
    rewrite (simple_rules_7 _ _ H7). cbv zeta.
    destruct (_ && negb _); [now left|].
    destruct (_ && negb _); [right; now left|]. right; now right.
  - destruct (Nat.eq_dec (len (SimpleOCRWorker.numeric_text up raw)) 8) as [H8|H8].
    + right; right. split; [assumption|]. now apply simple_rules_8.
    + left. repeat split; try assumption. now apply simple_rules_other.
Qed.

(** A formatted plate starts with a digit. *)
Lemma simple_validate_starts_with_digit (raw s : str) :
  SimpleOCRWorker.validate_and_format up raw = Some s ->
  exists d rest, s = d :: rest /\ is_digit d = true.
Proof.
  intros H. pose proof (numeric_text_digits raw) as D.
  destruct (simple_validate_cases raw) as [(_ & _ & E)|[(L & E)|(L & E)]];
    cbv zeta in *.
  - congruence.
  - destruct_len L. inversion D as [|? ? Hd _]; subst.
    cbn in E. destruct E as [E|[E|E]]; rewrite E in H; inversion H; eauto.
  - destruct_len L. inversion D as [|? ? Hd _]; subst.
    cbn in E. rewrite E in H. inversion H; eauto.
Qed.

End Normalisation.

(** ** The plate-text validators *)

(** C2, as amended.  The validator of [python_yolo.py] returns [None]
    exactly when the digit string has a length other than 7 or 8 (nine
    digits are rejected there), whether it is called on its two arguments
    or after the character map; the validator of
    [python_yolo_fast_plate.py] returns [None] exactly when the digit
    string has a length outside 7, 8, 9. *)
Theorem C2_rejected_lengths :
  (forall raw numeric : Py.str,
      SimpleOCRWorker._validate_and_format_plate_by_rules raw numeric = None
      <-> (Py.len numeric <> 7 /\ Py.len numeric <> 8)%nat)
  /\ (forall (up : Py.char -> Py.str) (raw : Py.str),
      SimpleOCRWorker.validate_and_format up raw = None
      <-> (Py.len (SimpleOCRWorker.numeric_text up raw) <> 7
           /\ Py.len (SimpleOCRWorker.numeric_text up raw) <> 8)%nat)
  /\ (forall raw : Py.str,
      FastPlateOCRWorker._validate_and_format_plate raw = None
      <-> ~ (7 <= Py.len (FastPlateOCRWorker.numeric_only raw) <= 9)%nat).
Proof.
  assert (S : forall raw numeric : Py.str,
      SimpleOCRWorker._validate_and_format_plate_by_rules raw numeric = None
      <-> (Py.len numeric <> 7 /\ Py.len numeric <> 8)%nat).
  { intros raw numeric. split.
    - intros H. split; intros L.
      + rewrite (simple_rules_7 _ _ L) in H. cbv zeta in H.
        repeat (destruct (_ && _) in H; try discriminate).
      + rewrite (simple_rules_8 _ _ L) in H. discriminate.
    - intros [H7 H8]. now apply simple_rules_other. }
  split; [exact S|]. split.
  - intros up raw. apply S.
  - intros raw. split.
    + intros H R. rewrite (fast_validate_in_range _ R) in H.
      assert (C : (Py.len (FastPlateOCRWorker.numeric_only raw) = 7
                   \/ Py.len (FastPlateOCRWorker.numeric_only raw) = 8
                   \/ Py.len (FastPlateOCRWorker.numeric_only raw) = 9)%nat) by lia.
      destruct C as [L|[L|L]].
      * rewrite (fast_rules_7 _ _ L) in H. discriminate.
      * rewrite (fast_rules_8 _ _ L) in H. discriminate.
      * rewrite (fast_rules_9 _ _ L) in H. discriminate.
    + apply fast_validate_out_of_range.
Qed.

(** C2, as stated, fails: nine digits lie in the set 7, 8, 9, and the
    validator of [python_yolo.py] returns [None] for them. *)
Lemma C2_simple_validator_rejects_nine_digits :
  Py.len (Py.lit "123456789") = 9%nat
  /\ SimpleOCRWorker._validate_and_format_plate_by_rules
       (Py.lit "123456789") (Py.lit "123456789") = None.
Proof. split; reflexivity. Qed.

(** C3 at the input ["12 345 67"].  Read as the specification words the
    patterns (an optional hyphen or white space between the groups), the
    text matches NN-NNN-NN and not N-NNNN-NN, so ["12-345-67"] is due.
    The pattern of the source writes the separator class with a doubled
    backslash in a raw string, which makes it a hyphen, a backslash or the
    letter s: the text matches neither pattern and both candidates are
    returned. *)
Theorem C3_space_separator_not_taken_as_hint :
  Re.fullmatch SpecPattern.nn_nnn_nn (Py.lit "12 345 67") = true
  /\ Re.fullmatch SpecPattern.n_nnnn_nn (Py.lit "12 345 67") = false
  /\ Re.fullmatch SimpleOCRWorker.nn_nnn_nn_raw_re (Py.lit "12 345 67") = false
  /\ Re.fullmatch SimpleOCRWorker.n_nnnn_nn_raw_re (Py.lit "12 345 67") = false
  /\ forall up : Py.char -> Py.str,
       SimpleOCRWorker.corrected_raw_text up (Py.lit "12 345 67")
         = Py.lit "12 345 67"
       /\ SimpleOCRWorker.numeric_text up (Py.lit "12 345 67") = Py.lit "1234567"
       /\ SimpleOCRWorker.validate_and_format up (Py.lit "12 345 67")
          = Some (Py.lit "12-345-67 or 1-2345-67").
Proof. repeat split; reflexivity. Qed.

(** The three-way choice for seven digits, on the patterns as the source
    has them; with hyphens the hint works. *)
Lemma seven_digit_choice (raw numeric : Py.str) :
  Py.len numeric = 7%nat ->
  let m1 := Re.fullmatch SimpleOCRWorker.nn_nnn_nn_raw_re raw in
  let m2 := Re.fullmatch SimpleOCRWorker.n_nnnn_nn_raw_re raw in
  SimpleOCRWorker._validate_and_format_plate_by_rules raw numeric =
    Some (if m1 && negb m2 then layout_nn_nnn_nn numeric
          else if m2 && negb m1 then layout_n_nnnn_nn numeric
          else layout_nn_nnn_nn numeric ++ Py.lit " or " ++ layout_n_nnnn_nn numeric).
Proof.
  intros L. rewrite (simple_rules_7 _ _ L). cbv zeta.
  repeat (destruct (_ && negb _); try reflexivity).
Qed.

Example hyphenated_hint_nn_nnn_nn :
  forall up, SimpleOCRWorker.validate_and_format up (Py.lit "12-345-67")
             = Some (Py.lit "12-345-67").
Proof. reflexivity. Qed.

Example hyphenated_hint_n_nnnn_nn :
  forall up, SimpleOCRWorker.validate_and_format up (Py.lit "1-2345-67")
             = Some (Py.lit "1-2345-67").
Proof. reflexivity. Qed.

(** C4.  Eight digits are laid out NNN-NN-NNN by both validators, and by
    the entry point of the fast-plate validator; nine digits give, in the
    fast-plate validator, the layout of the text without its first digit,
    then " or ", then the layout of the text without its last digit. *)
Theorem C4_eight_and_nine_digits (raw numeric : Py.str) :
  (Py.len numeric = 8%nat ->
     SimpleOCRWorker._validate_and_format_plate_by_rules raw numeric
       = Some (layout_nnn_nn_nnn numeric)
     /\ FastPlateOCRWorker._validate_and_format_plate_by_rules raw numeric
       = Some (layout_nnn_nn_nnn numeric))
  /\ (Py.len (FastPlateOCRWorker.numeric_only raw) = 8%nat ->
     FastPlateOCRWorker._validate_and_format_plate raw
       = Some (layout_nnn_nn_nnn (FastPlateOCRWorker.numeric_only raw)))
  /\ (Py.len numeric = 9%nat ->
     Py.len (drop_first numeric) = 8%nat /\ Py.len (drop_last numeric) = 8%nat
     /\ FastPlateOCRWorker._validate_and_format_plate_by_rules raw numeric
       = Some (layout_nnn_nn_nnn (drop_first numeric) ++ Py.lit " or "
               ++ layout_nnn_nn_nnn (drop_last numeric)))
  /\ (Py.len (FastPlateOCRWorker.numeric_only raw) = 9%nat ->
     FastPlateOCRWorker._validate_and_format_plate raw
       = Some (layout_nnn_nn_nnn (drop_first (FastPlateOCRWorker.numeric_only raw))
               ++ Py.lit " or "
               ++ layout_nnn_nn_nnn (drop_last (FastPlateOCRWorker.numeric_only raw)))).
Proof.
  repeat split.
  - now apply simple_rules_8.
  - now apply fast_rules_8.
  - intros L. rewrite fast_validate_in_range by lia. now apply fast_rules_8.
  - destruct_len H. reflexivity.
  - destruct_len H. reflexivity.
  - now apply fast_rules_9.
  - intros L. rewrite fast_validate_in_range by lia. now apply fast_rules_9.
Qed.

(** C4 on the two texts of the specification: "12345678" gives "123-45-678" and
    "123456789" gives "234-56-789 or 123-45-678". *)
Lemma C4_eight_and_nine_digits_witness :
  (SimpleOCRWorker._validate_and_format_plate_by_rules
     (Py.lit "12345678") (Py.lit "12345678") = Some (Py.lit "123-45-678")
   /\ FastPlateOCRWorker._validate_and_format_plate (Py.lit "12345678")
      = Some (Py.lit "123-45-678"))
  /\ FastPlateOCRWorker._validate_and_format_plate_by_rules
       (Py.lit "123456789") (Py.lit "123456789")
     = Some (Py.lit "234-56-789 or 123-45-678")
  /\ FastPlateOCRWorker._validate_and_format_plate (Py.lit "123456789")
     = Some (Py.lit "234-56-789 or 123-45-678").
Proof.
  pose proof (C4_eight_and_nine_digits (Py.lit "12345678") (Py.lit "12345678"))
    as (H8 & E8 & _ & _).
  pose proof (C4_eight_and_nine_digits (Py.lit "123456789") (Py.lit "123456789"))
    as (_ & _ & H9 & E9).
  split; [split|split].
  - exact (proj1 (H8 eq_refl)).
  - exact (E8 eq_refl).
  - exact (proj2 (proj2 (H9 eq_refl))).
  - exact (E9 eq_refl).
Defined.

(** C7, as amended.  Normalising and validating is a total computation
    (no operation in it can raise): it yields [None] or a non-empty
    formatted string.  It yields [None] for the empty string, for every
    string of pure punctuation, and for every string, of length 50 or any
    other, whose digits after the character map are not 7 or 8 in number;
    a string whose mapped digits are 7 or 8 in number is formatted whatever
    else it holds. *)
Theorem C7_normalise_then_validate (up : Py.char -> Py.str) :
  (forall raw : Py.str,
      SimpleOCRWorker.validate_and_format up raw = None
      \/ exists s, SimpleOCRWorker.validate_and_format up raw = Some s
                   /\ Py.truthy s = true)
  /\ SimpleOCRWorker.validate_and_format up [] = None
  /\ (forall raw : Py.str,
      Forall (fun c => is_punctuation c = true) raw ->
      SimpleOCRWorker.validate_and_format up raw = None)
  /\ (forall raw : Py.str,
      SimpleOCRWorker.validate_and_format up raw = None
      <-> (Py.len (SimpleOCRWorker.numeric_text up raw) <> 7
           /\ Py.len (SimpleOCRWorker.numeric_text up raw) <> 8)%nat).
Proof.
  split; [|split; [|split]].
  - intros raw.
    destruct (SimpleOCRWorker.validate_and_format up raw) as [s|] eqn:E;
      [right|now left].
    exists s. split; [reflexivity|].
    destruct (simple_validate_starts_with_digit up raw s E) as (d & rest & -> & _).
    reflexivity.
  - reflexivity.
  - intros raw P. unfold SimpleOCRWorker.validate_and_format.
    rewrite (punctuation_has_no_digits up raw P). reflexivity.
  - intros raw. unfold SimpleOCRWorker.validate_and_format. split.
    + intros H. split; intros L.
      * rewrite (simple_rules_7 _ _ L) in H. cbv zeta in H.
        repeat (destruct (_ && _) in H; try discriminate).
      * rewrite (simple_rules_8 _ _ L) in H. discriminate.
    + intros [H7 H8]. now apply simple_rules_other.
Qed.

Example empty_and_punctuation_rejected :
  forall up,
    SimpleOCRWorker.validate_and_format up [] = None
    /\ SimpleOCRWorker.validate_and_format up pure_punctuation = None.
Proof. intros up. split; reflexivity. Qed.

(** C7, as stated, fails: a string of fifty characters of garbage that
    holds seven digits is formatted, not rejected. *)
Lemma C7_garbage_of_length_50_is_formatted :
  Py.len garbage50 = 50%nat
  /\ SimpleOCRWorker.validate_and_format upper_identity garbage50
     = Some (Py.lit "12-345-67 or 1-2345-67").
Proof. split; reflexivity. Qed.

(** ** [DetectionWorker.run]: association and best plate *)

Section Detection.

Import Py DetectionWorker.

Lemma gt_spec (a b : Q) : gt a b = true <-> (b < a)%Q.
Proof.
  unfold gt. rewrite negb_true_iff. split.
  - intros H. apply Qnot_le_lt. intros L.
    apply Qle_bool_iff in L. congruence.
  - intros H. destruct (Qle_bool a b) eqn:E; [|reflexivity].
    apply Qle_bool_iff in E. exfalso. apply (Qlt_not_le _ _ H E).
Qed.

Lemma gt_false (a b : Q) : gt a b = false <-> (a <= b)%Q.
Proof.
  unfold gt. rewrite negb_false_iff. apply Qle_bool_iff.
Qed.

Lemma is_vehicle_spec (d : detection) :
  is_vehicle d = true <-> passes_vehicle_filter d.
Proof.
  unfold is_vehicle, passes_vehicle_filter.
  rewrite andb_true_iff, gt_spec, existsb_exists. split.
  - intros [(z & Hz & E) Hs]. apply Z.eqb_eq in E. subst z. now split.
  - intros [Hz Hs]. split; [|assumption].
    exists (int (class_id d)). split; [assumption|apply Z.eqb_refl].
Qed.

Lemma within_margin_spec (lp vehicle : detection) :
  within_margin lp vehicle = true <-> expanded_box_contains vehicle lp.
Proof.
  unfold within_margin, expanded_box_contains, ge, le.
  rewrite !andb_true_iff, !Qle_bool_iff. tauto.
Qed.

Lemma vehicle_loop_filter (rows acc : list detection) :
  vehicle_loop rows acc = acc ++ filter is_vehicle rows.
Proof.
  revert acc. induction rows as [|d rows IH]; intros acc; simpl.
  - now rewrite app_nil_r.
  - destruct (is_vehicle d); rewrite IH; [|reflexivity].
    now rewrite <- app_assoc.
Qed.

Lemma associated_vehicle_some (lp : detection) (vehicles : list detection) :
  is_associated vehicles lp =
    match associated_vehicle lp vehicles with Some _ => true | None => false end.
Proof.
  unfold is_associated.
  induction vehicles as [|v vs IH]; simpl; [reflexivity|].
  destruct (within_margin lp v); simpl; [reflexivity|exact IH].
Qed.

Lemma plate_loop_rows (vehicles rows : list detection) (st : plate_state) :
  detected_license_plates (plate_loop vehicles rows st) =
    detected_license_plates st
    ++ map row_of (filter (is_associated vehicles) rows).
Proof.
  revert st. induction rows as [|lp rows IH]; intros st; simpl.
  - now rewrite app_nil_r.
  - rewrite IH. unfold plate_body. rewrite associated_vehicle_some.
    destruct (associated_vehicle lp vehicles); simpl; [|reflexivity].
    destruct (gt (score lp) (best_score st)); simpl;
      now rewrite <- app_assoc.
Qed.

Lemma best_of_body (vehicles seen : list detection) (st : plate_state)
    (lp : detection) :
  best_of seen st ->
  is_associated vehicles lp = true ->
  best_of (seen ++ [lp]) (plate_body vehicles st lp).
Proof.
  intros Inv A. unfold plate_body.
  rewrite associated_vehicle_some in A.
  destruct (associated_vehicle lp vehicles); [clear A|discriminate].
  destruct (gt (score lp) (best_score st)) eqn:G.
  - apply gt_spec in G. right. exists seen, lp, []. simpl.
    destruct Inv as [(_ & E & Hall)|(l1 & p & l2 & -> & _ & E & Hp & H1 & H2)].
    + rewrite E in G. repeat split; try assumption; try (now intros q []).
      intros q Hq. apply Qle_lt_trans with 0%Q; auto.
    + rewrite E in G. repeat split; try (now intros q []).
      * now apply Qlt_trans with (score p).
      * intros q Hq. apply in_app_or in Hq. destruct Hq as [Hq|[<-|Hq]].
        -- apply Qlt_trans with (score p); auto.
        -- assumption.
        -- apply Qle_lt_trans with (score p); auto.
  - apply gt_false in G.
    destruct Inv as [(B & E & Hall)|(l1 & p & l2 & -> & B & E & Hp & H1 & H2)].
    + left. simpl. repeat split; try assumption.
      intros q Hq. apply in_app_or in Hq. destruct Hq as [Hq|[<-|[]]]; auto.
      now rewrite <- E.
    + right. exists l1, p, (l2 ++ [lp]). simpl.
      rewrite <- app_assoc. simpl. repeat split; try assumption.
      intros q Hq. apply in_app_or in Hq. destruct Hq as [Hq|[<-|[]]]; auto.
      now rewrite <- E.
Qed.

Lemma best_of_loop (vehicles rows seen : list detection) (st : plate_state) :
  best_of seen st ->
  best_of (seen ++ filter (is_associated vehicles) rows)
          (plate_loop vehicles rows st).
Proof.
  revert seen st. induction rows as [|lp rows IH]; intros seen st Inv; simpl.
  - now rewrite app_nil_r.
  - destruct (is_associated vehicles lp) eqn:A.
    + replace (seen ++ lp :: filter (is_associated vehicles) rows)
        with ((seen ++ [lp]) ++ filter (is_associated vehicles) rows)
        by (now rewrite <- app_assoc).
      apply IH. now apply best_of_body.
    + apply IH. unfold plate_body.
      rewrite associated_vehicle_some in A.
      now destruct (associated_vehicle lp vehicles).
Qed.

Lemma best_of_init : best_of [] plate_init.
Proof. left. repeat split. intros q []. Qed.

End Detection.

(** C1, as amended.  For every frame and every setting of the two display
    flags: the vehicles kept are the detector's rows that pass the class
    and confidence filter, in order; the plate rows kept are those of the
    plates the loop went through for which some kept vehicle's box, grown
    by 20 on every side, holds the plate's box, in order; the best plate is
    [None] exactly when no kept plate has a confidence above 0, and
    otherwise it is the box of the first kept plate of highest confidence:
    every kept plate before it is strictly lower, every one after it is
    lower or equal. *)
Theorem C1_association_and_best_plate
    (Frame : Type)
    (vehicle_detector license_plate_detector : Frame -> list DetectionWorker.detection)
    (show_vehicles show_plates : bool) (frame : Frame) :
  let out := DetectionWorker.detect Frame vehicle_detector license_plate_detector
               show_vehicles show_plates frame in
  let vehicles := fst out in
  let st := snd out in
  let plates := DetectionWorker.plate_detections Frame license_plate_detector
                  show_plates frame in
  let kept := filter (DetectionWorker.is_associated vehicles) plates in
  vehicles = (if show_vehicles || show_plates
              then filter DetectionWorker.is_vehicle (vehicle_detector frame)
              else [])
  /\ DetectionWorker.detected_license_plates st = map DetectionWorker.row_of kept
  /\ (forall lp, In lp kept <->
        In lp plates
        /\ exists v, In v (vehicle_detector frame)
                     /\ DetectionWorker.passes_vehicle_filter v
                     /\ DetectionWorker.expanded_box_contains v lp)
  /\ (DetectionWorker.best_license_plate_coords st = None <->
        forall lp, In lp kept -> (DetectionWorker.score lp <= 0)%Q)
  /\ (forall c, DetectionWorker.best_license_plate_coords st = Some c ->
        exists l1 p l2,
          kept = l1 ++ p :: l2
          /\ c = DetectionWorker.coords_of p
          /\ (0 < DetectionWorker.score p)%Q
          /\ (forall q, In q l1 -> (DetectionWorker.score q < DetectionWorker.score p)%Q)
          /\ (forall q, In q l2 -> (DetectionWorker.score q <= DetectionWorker.score p)%Q)).
Proof.
  cbv zeta. unfold DetectionWorker.detect, DetectionWorker.plate_detections.
  cbn [fst snd].
  assert (V : (if show_vehicles || show_plates
               then DetectionWorker.vehicle_loop (vehicle_detector frame) []
               else [])
              = (if show_vehicles || show_plates
                 then filter DetectionWorker.is_vehicle (vehicle_detector frame)
                 else [])).
  { destruct (show_vehicles || show_plates); [|reflexivity].
    now rewrite vehicle_loop_filter. }
  rewrite V. clear V.
  set (vehicles := if show_vehicles || show_plates
                   then filter DetectionWorker.is_vehicle (vehicle_detector frame)
                   else []).
  set (plates := if show_plates then license_plate_detector frame else []).
  set (st := if show_plates
             then DetectionWorker.plate_loop vehicles (license_plate_detector frame)
                    DetectionWorker.plate_init
             else DetectionWorker.plate_init).
  assert (R : DetectionWorker.detected_license_plates st
              = map DetectionWorker.row_of
                    (filter (DetectionWorker.is_associated vehicles) plates)).
  { unfold st, plates. destruct show_plates; [|reflexivity].
    now rewrite plate_loop_rows. }
  assert (B : DetectionWorker.best_of
                (filter (DetectionWorker.is_associated vehicles) plates) st).
  { unfold st, plates. destruct show_plates.
    - apply (best_of_loop vehicles (license_plate_detector frame) []
               DetectionWorker.plate_init best_of_init).
    - apply best_of_init. }
  split; [reflexivity|]. split; [exact R|]. split; [|split].
  - intros lp. rewrite filter_In. unfold DetectionWorker.is_associated.
    rewrite existsb_exists. split.
    + intros [Hin (v & Hv & M)]. split; [assumption|].
      assert (SP : show_plates = true).
      { unfold plates in Hin. destruct show_plates; [reflexivity|destruct Hin]. }
      unfold vehicles in Hv. rewrite SP, orb_true_r in Hv.
      apply filter_In in Hv. destruct Hv as [Hv F].
      exists v. repeat split; try assumption.
      * now apply is_vehicle_spec.
      * now apply is_vehicle_spec.
      * apply within_margin_spec in M. apply M.
      * apply within_margin_spec in M. apply M.
      * apply within_margin_spec in M. apply M.
      * apply within_margin_spec in M. apply M.
    + intros [Hin (v & Hv & F & M)]. split; [assumption|].
      assert (SP : show_plates = true).
      { unfold plates in Hin. destruct show_plates; [reflexivity|destruct Hin]. }
      exists v. split; [|now apply within_margin_spec].
      unfold vehicles. rewrite SP, orb_true_r. apply filter_In.
      split; [assumption|now apply is_vehicle_spec].
  - destruct B as [(N & _ & Hall)|(l1 & p & l2 & E & S & _ & Hp & _ & _)].
    + split; [intros _; exact Hall|intros _; exact N].
    + split; [intros N; congruence|].
      intros Hall. exfalso.
      assert (Hin : In p (filter (DetectionWorker.is_associated vehicles) plates)).
      { rewrite E. apply in_or_app. right. now left. }
      apply (Qlt_not_le _ _ Hp). now apply Hall.
  - intros c Hc.
    destruct B as [(N & _ & _)|(l1 & p & l2 & E & S & _ & Hp & H1 & H2)].
    + congruence.
    + exists l1, p, l2. rewrite S in Hc. inversion Hc. now repeat split.
Qed.

(** C1, as stated, fails: a plate of confidence 0 inside a car's box is
    kept in the list, so an associated plate exists, and the best plate is
    [None]. *)
Lemma C1_plate_of_confidence_zero_is_not_best :
  DetectionWorker.detect unit (fun _ => [sample_car])
    (fun _ => [sample_plate_conf0]) true true tt
  = ([sample_car],
     DetectionWorker.mkPlateState
       [DetectionWorker.row_of sample_plate_conf0] None 0).
Proof. reflexivity. Qed.

(** A frame with a tie: the unassociated plate of confidence 0.99 is
    dropped, and of the two plates of confidence 0.8 the first seen is the
    best one. *)
Example detect_tie_first_seen :
  DetectionWorker.detect unit (fun _ => [sample_car; sample_truck])
    (fun _ => sample_plates) false true tt
  = ([sample_car; sample_truck],
     DetectionWorker.mkPlateState
       [ (10, 10, 40, 20, 6 # 10); (210, 80, 240, 120, 8 # 10);
         (-20, 10, 40, 20, 8 # 10) ]%Q
       (Some (210, 80, 240, 120)%Q) (8 # 10)).
Proof. reflexivity. Qed.

(** ** Point ordering *)

Section Ordering.

Import Py Np.

Lemma wrap32_small (z : Z) :
  -2147483648 <= z < 2147483648 -> wrap32 z = z.
Proof.
  intros H. unfold wrap32. rewrite Z.mod_small; lia.
Qed.

Lemma argmin_from_spec (rest pre : list Z) (best_i : nat) (best : Z) :
  nth_error pre best_i = Some best ->
  (forall y, In y pre -> best <= y) ->
  exists m, nth_error (pre ++ rest)
              (argmin_from best_i best (List.length pre) rest) = Some m
            /\ forall y, In y (pre ++ rest) -> m <= y.
Proof.
  revert pre best_i best.
  induction rest as [|x rest IH]; intros pre best_i best Hn Hall; simpl.
  - rewrite app_nil_r. eauto.
  - replace (pre ++ x :: rest) with ((pre ++ [x]) ++ rest)
      by (now rewrite <- app_assoc).
    replace (S (List.length pre)) with (List.length (pre ++ [x]))
      by (rewrite length_app; simpl; lia).
    destruct (Z.ltb_spec x best) as [Lt|Ge].
    + apply IH.
      * rewrite nth_error_app2 by lia. now rewrite Nat.sub_diag.
      * intros y Hy. apply in_app_or in Hy. destruct Hy as [Hy|[<-|[]]].
        -- specialize (Hall y Hy). lia.
        -- lia.
    + apply IH.
      * rewrite nth_error_app1; [assumption|].
        apply nth_error_Some. congruence.
      * intros y Hy. apply in_app_or in Hy. destruct Hy as [Hy|[<-|[]]]; auto.
Qed.

Lemma argmax_from_spec (rest pre : list Z) (best_i : nat) (best : Z) :
  nth_error pre best_i = Some best ->
  (forall y, In y pre -> y <= best) ->
  exists m, nth_error (pre ++ rest)
              (argmax_from best_i best (List.length pre) rest) = Some m
            /\ forall y, In y (pre ++ rest) -> y <= m.
Proof.
  revert pre best_i best.
  induction rest as [|x rest IH]; intros pre best_i best Hn Hall; simpl.
  - rewrite app_nil_r. eauto.
  - replace (pre ++ x :: rest) with ((pre ++ [x]) ++ rest)
      by (now rewrite <- app_assoc).
    replace (S (List.length pre)) with (List.length (pre ++ [x]))
      by (rewrite length_app; simpl; lia).
    destruct (Z.ltb_spec best x) as [Lt|Ge].
    + apply IH.
      * rewrite nth_error_app2 by lia. now rewrite Nat.sub_diag.
      * intros y Hy. apply in_app_or in Hy. destruct Hy as [Hy|[<-|[]]].
        -- specialize (Hall y Hy). lia.
        -- lia.
    + apply IH.
      * rewrite nth_error_app1; [assumption|].
        apply nth_error_Some. congruence.
      * intros y Hy. apply in_app_or in Hy. destruct Hy as [Hy|[<-|[]]]; auto.
Qed.

(** [pts[np.argmin(f(pts))]] on a non-empty array: no exception, and a row
    whose key is least. *)
Lemma getitem_argmin (f : point -> Z) (pts : list point) :
  pts <> [] ->
  exists k p, argmin (map f pts) = Ok k /\ getitem pts k = Ok p
              /\ In p pts /\ forall q, In q pts -> f p <= f q.
Proof.
  intros NE. destruct pts as [|p0 pts]; [congruence|]. cbn [map argmin].
  destruct (argmin_from_spec (map f pts) [f p0] 0 (f p0) eq_refl)
    as (m & Hm & Hall).
  { intros y [<-|[]]. lia. }
  cbn [List.length app] in Hm, Hall.
  change (f p0 :: map f pts) with (map f (p0 :: pts)) in Hm, Hall.
  rewrite nth_error_map in Hm.
  destruct (nth_error (p0 :: pts) (argmin_from 0 (f p0) 1 (map f pts)))
    as [p|] eqn:E; [|discriminate].
  cbn in Hm. injection Hm as <-.
  exists (argmin_from 0 (f p0) 1 (map f pts)), p.
  unfold getitem. rewrite E. repeat split.
  - eapply nth_error_In; eassumption.
  - intros q Hq. apply Hall. now apply in_map.
Qed.

Lemma getitem_argmax (f : point -> Z) (pts : list point) :
  pts <> [] ->
  exists k p, argmax (map f pts) = Ok k /\ getitem pts k = Ok p
              /\ In p pts /\ forall q, In q pts -> f q <= f p.
Proof.
  intros NE. destruct pts as [|p0 pts]; [congruence|]. cbn [map argmax].
  destruct (argmax_from_spec (map f pts) [f p0] 0 (f p0) eq_refl)
    as (m & Hm & Hall).
  { intros y [<-|[]]. lia. }
  cbn [List.length app] in Hm, Hall.
  change (f p0 :: map f pts) with (map f (p0 :: pts)) in Hm, Hall.
  rewrite nth_error_map in Hm.
  destruct (nth_error (p0 :: pts) (argmax_from 0 (f p0) 1 (map f pts)))
    as [p|] eqn:E; [|discriminate].
  cbn in Hm. injection Hm as <-.
  exists (argmax_from 0 (f p0) 1 (map f pts)), p.
  unfold getitem. rewrite E. repeat split.
  - eapply nth_error_In; eassumption.
  - intros q Hq. apply Hall. now apply in_map.
Qed.

(** [_order_points] on a non-empty array never raises and returns four
    rows of the array, each extreme for its key. *)
Lemma order_points_rows (pts : list point) :
  pts <> [] ->
  exists tl tr br bl,
    SimpleOCRWorker._order_points pts = Ok [tl; tr; br; bl]
    /\ In tl pts /\ In tr pts /\ In br pts /\ In bl pts
    /\ (forall q, In q pts -> fst tl + snd tl <= fst q + snd q)
    /\ (forall q, In q pts -> fst q + snd q <= fst br + snd br)
    /\ (forall q, In q pts ->
          wrap32 (snd tr - fst tr) <= wrap32 (snd q - fst q))
    /\ (forall q, In q pts ->
          wrap32 (snd q - fst q) <= wrap32 (snd bl - fst bl)).
Proof.
  intros NE. unfold SimpleOCRWorker._order_points, sum_axis1, diff_axis1.
  cbv zeta.
  destruct (getitem_argmin (fun p => fst p + snd p) pts NE)
    as (k0 & tl & A0 & G0 & I0 & M0).
  destruct (getitem_argmax (fun p => fst p + snd p) pts NE)
    as (k2 & br & A2 & G2 & I2 & M2).
  destruct (getitem_argmin (fun p => wrap32 (snd p - fst p)) pts NE)
    as (k1 & tr & A1 & G1 & I1 & M1).
  destruct (getitem_argmax (fun p => wrap32 (snd p - fst p)) pts NE)
    as (k3 & bl & A3 & G3 & I3 & M3).
  exists tl, tr, br, bl. unfold point in *.
  rewrite A0. cbn [bind]. rewrite G0. cbn [bind].
  rewrite A2. cbn [bind]. rewrite G2. cbn [bind].
  rewrite A1. cbn [bind]. rewrite G1. cbn [bind].
  rewrite A3. cbn [bind]. rewrite G3. cbn [bind].
  repeat split; assumption.
Qed.

Lemma ordered_rect_same (pts : list point) :
  FastPlateOCRWorker.ordered_rect pts = SimpleOCRWorker._order_points pts.
Proof. reflexivity. Qed.

End Ordering.

(** C5, as amended.  For four pixel points (coordinates between 0 and
    2^24, which the [float32] rows hold exactly), [_order_points] (and the
    same code written inline in the fast-plate script) returns, in this
    order:
    the point of least x+y (top-left), the point of greatest x-y, that is
    of least y-x (top-right), the point of greatest x+y (bottom-right) and
    the point of least x-y, that is of greatest y-x (bottom-left). *)
Theorem C5_order_points (pts : list Np.point) :
  List.length pts = 4%nat ->
  Forall Np.is_pixel pts ->
  exists tl tr br bl,
    SimpleOCRWorker._order_points pts = Py.Ok [tl; tr; br; bl]
    /\ FastPlateOCRWorker.ordered_rect pts = Py.Ok [tl; tr; br; bl]
    /\ In tl pts /\ In tr pts /\ In br pts /\ In bl pts
    /\ (forall q, In q pts -> fst tl + snd tl <= fst q + snd q)
    /\ (forall q, In q pts -> fst q - snd q <= fst tr - snd tr)
    /\ (forall q, In q pts -> fst q + snd q <= fst br + snd br)
    /\ (forall q, In q pts -> fst bl - snd bl <= fst q - snd q).
Proof.
  intros L P.
  assert (NE : pts <> []) by (intros ->; discriminate L).
  destruct (order_points_rows pts NE)
    as (tl & tr & br & bl & E & I0 & I1 & I2 & I3 & M0 & M2 & M1 & M3).
  assert (W : forall a b, In a pts -> In b pts ->
                Np.wrap32 (snd a - fst a) <= Np.wrap32 (snd b - fst b) ->
                snd a - fst a <= snd b - fst b).
  { intros a b Ia Ib. rewrite Forall_forall in P.
    destruct (P a Ia) as [? ?]. destruct (P b Ib) as [? ?].
    rewrite (wrap32_small (snd a - fst a)), (wrap32_small (snd b - fst b))
      by (unfold Np.point in *; lia).
    trivial. }
  exists tl, tr, br, bl.
  change (FastPlateOCRWorker.ordered_rect pts)
    with (SimpleOCRWorker._order_points pts).
  repeat split; try assumption.
  - intros q Hq. specialize (W tr q I1 Hq (M1 q Hq)). lia.
  - intros q Hq. specialize (W q bl Hq I3 (M3 q Hq)). lia.
Qed.

(** C5 on an axis-aligned quadrilateral. *)
Lemma C5_order_points_witness :
  exists tl tr br bl,
    SimpleOCRWorker._order_points sample_quad = Py.Ok [tl; tr; br; bl]
    /\ FastPlateOCRWorker.ordered_rect sample_quad = Py.Ok [tl; tr; br; bl]
    /\ In tl sample_quad /\ In tr sample_quad
    /\ In br sample_quad /\ In bl sample_quad
    /\ (forall q, In q sample_quad -> fst tl + snd tl <= fst q + snd q)
    /\ (forall q, In q sample_quad -> fst q - snd q <= fst tr - snd tr)
    /\ (forall q, In q sample_quad -> fst q + snd q <= fst br + snd br)
    /\ (forall q, In q sample_quad -> fst bl - snd bl <= fst q - snd q).
Proof.
  apply (C5_order_points sample_quad).
  - reflexivity.
  - unfold sample_quad, Np.is_pixel. repeat constructor; simpl; lia.
Defined.

(** C5, as stated, fails: on the axis-aligned quadrilateral the second row
    returned, the top-right corner (10, 0), has the greatest x-y of the
    four points, not the least, and the fourth row, the bottom-left corner
    (0, 5), has the least x-y, not the greatest. *)
Lemma C5_top_right_is_not_least_x_minus_y :
  SimpleOCRWorker._order_points sample_quad
    = Py.Ok [(0, 0); (10, 0); (10, 5); (0, 5)]
  /\ ~ (forall q, In q sample_quad -> fst (10, 0) - snd (10, 0) <= fst q - snd q)
  /\ ~ (forall q, In q sample_quad -> fst q - snd q <= fst (0, 5) - snd (0, 5)).
Proof.
  split; [reflexivity|]. split; intros H.
  - specialize (H (0, 5)). simpl in H.
    assert (10 - 0 <= 0 - 5) by (apply H; tauto). lia.
  - specialize (H (10, 0)). simpl in H.
    assert (10 - 0 <= 0 - 5) by (apply H; tauto). lia.
Qed.

(** ** Perspective correction *)

Section Rectifier.

Import Py Np.

Variable findContours : image -> list contour.
Variable contourArea : contour -> Q.
Variable arcLength : contour -> Q.
Variable approxPolyDP : contour -> Q -> contour.
Variable np_sqrt : Q -> Q.
Variable warpPerspective : image -> list point -> Z * Z -> image.

(** [warpPerspective] returns an image of the size it is asked for:
    [shape] is [(height, width, 3)] for [dsize = (width, height)]. *)
Hypothesis warp_shape : forall im pts w h,
  shape0 (warpPerspective im pts (w, h)) = h
  /\ shape1 (warpPerspective im pts (w, h)) = w.

Local Notation "'correct'" := (SimpleOCRWorker._correct_plate_perspective
  findContours contourArea arcLength approxPolyDP np_sqrt warpPerspective).
Local Notation "'the_screen_cnt'" := (SimpleOCRWorker.screen_cnt
  findContours contourArea arcLength approxPolyDP).
Local Notation "'find'" := (SimpleOCRWorker.find_screen_cnt
  contourArea arcLength approxPolyDP).
Local Notation "'width'" := (SimpleOCRWorker.max_width np_sqrt).
Local Notation "'height'" := (SimpleOCRWorker.max_height np_sqrt).

Lemma In_firstn {A} (x : A) (n : nat) (l : list A) :
  In x (firstn n l) -> In x l.
Proof.
  revert l. induction n as [|n IH]; intros [|a l]; simpl; try tauto.
  intros [->|H]; [now left|right; now apply IH].
Qed.

Lemma insert_desc_In (c x : contour) (l : list contour) :
  In x (SimpleOCRWorker.insert_desc contourArea c l) -> x = c \/ In x l.
Proof.
  induction l as [|d l IH]; simpl.
  - intros [<-|[]]. now left.
  - destruct (ge (contourArea d) (contourArea c)); simpl.
    + intros [<-|H]; [right; now left|].
      destruct (IH H); [now left|right; now right].
    + intros [<-|H]; [now left|now right].
Qed.

Lemma sorted_desc_In (x : contour) (l : list contour) :
  In x (SimpleOCRWorker.sorted_desc contourArea l) -> In x l.
Proof.
  unfold SimpleOCRWorker.sorted_desc.
  assert (G : forall acc, In x (fold_left (fun acc c =>
                 SimpleOCRWorker.insert_desc contourArea c acc) l acc) ->
               In x acc \/ In x l).
  { induction l as [|c l IH]; intros acc H; simpl in *; [now left|].
    destruct (IH _ H) as [H'|H']; [|right; now right].
    destruct (insert_desc_In _ _ _ H') as [->|H'']; [right; now left|now left]. }
  intros H. destruct (G [] H) as [[]|H']. exact H'.
Qed.

Lemma find_some (a : Q) (cs : list contour) (cnt : contour) :
  find a cs = Some cnt -> List.length cnt = 4%nat.
Proof.
  induction cs as [|c cs IH]; simpl; [discriminate|].
  destruct (Nat.eqb_spec
              (List.length (approxPolyDP c ((2 # 100) * arcLength c))) 4)
    as [E|E]; [|exact IH].
  destruct (gt _ _); [|exact IH].
  intros H. injection H as <-. exact E.
Qed.

Lemma find_none (crop : image) (cs : list contour) :
  (forall c, In c cs ->
     ~ SimpleOCRWorker.qualifies contourArea arcLength approxPolyDP crop c) ->
  find (inject_Z (shape0 crop * shape1 crop)) cs = None.
Proof.
  induction cs as [|c cs IH]; intros H; simpl; [reflexivity|].
  assert (IH' := IH (fun c' Hc' => H c' (or_intror Hc'))).
  destruct (Nat.eqb_spec
              (List.length (approxPolyDP c ((2 # 100) * arcLength c))) 4)
    as [E|E]; [|exact IH'].
  destruct (gt _ _) eqn:G; [|exact IH'].
  exfalso. apply (H c (or_introl eq_refl)). split; [exact E|].
  now apply gt_spec.
Qed.

(** Past the search for a quadrilateral nothing raises, whatever the
    quadrilateral. *)
Lemma correct_with_quad (crop : image) (cnt : contour) :
  size crop <> 0 ->
  the_screen_cnt crop = Some cnt ->
  exists tl tr br bl,
    SimpleOCRWorker._order_points cnt = Ok [tl; tr; br; bl]
    /\ correct (Some crop) =
       Ok (Some (if (width tl tr br bl =? 0) || (height tl tr br bl =? 0)
                    || (height tl tr br bl <? 20) || (width tl tr br bl <? 50)
                 then crop
                 else warpPerspective crop [tl; tr; br; bl]
                        (width tl tr br bl, height tl tr br bl))).
Proof.
  intros NZ S. unfold SimpleOCRWorker._correct_plate_perspective.
  apply Z.eqb_neq in NZ. rewrite NZ, S.
  pose proof (find_some _ _ _ S) as L4.
  unfold SimpleOCRWorker.reshape_4_2. rewrite L4. cbn [Nat.eqb bind].
  assert (NE : cnt <> []) by (intros ->; discriminate L4).
  destruct (order_points_rows cnt NE) as (tl & tr & br & bl & E & _).
  exists tl, tr, br, bl. split; [exact E|]. rewrite E. cbn [bind].
  destruct (width tl tr br bl =? 0); [reflexivity|].
  destruct (height tl tr br bl =? 0); [reflexivity|]. cbn [orb].
  destruct (warp_shape crop [tl; tr; br; bl] (width tl tr br bl)
              (height tl tr br bl)) as [-> ->].
  destruct (_ || _); reflexivity.
Qed.

(** C6.  With the OpenCV calls taken as total functions,
    [_correct_plate_perspective] never raises, and it returns its input
    unchanged when the input is [None] or of size 0, when no contour of the
    crop approximates to exactly four points with an area above one tenth
    of the crop's, and when the quadrilateral found gives a destination
    width below 50 or a destination height below 20. *)
Theorem C6_perspective_fallbacks (plate_crop_bgr : option image) :
  (exists out, correct plate_crop_bgr = Ok out)
  /\ (plate_crop_bgr = None -> correct plate_crop_bgr = Ok plate_crop_bgr)
  /\ (forall crop, plate_crop_bgr = Some crop ->
        (size crop = 0 -> correct plate_crop_bgr = Ok plate_crop_bgr)
        /\ ((forall c, In c (findContours crop) ->
               ~ SimpleOCRWorker.qualifies contourArea arcLength approxPolyDP
                   crop c) ->
            correct plate_crop_bgr = Ok plate_crop_bgr)
        /\ (forall cnt tl tr br bl,
               the_screen_cnt crop = Some cnt ->
               SimpleOCRWorker._order_points cnt = Ok [tl; tr; br; bl] ->
               width tl tr br bl < 50 \/ height tl tr br bl < 20 ->
               correct plate_crop_bgr = Ok plate_crop_bgr)).
Proof.
  assert (Z0 : forall crop, size crop = 0 -> correct (Some crop) = Ok (Some crop)).
  { intros crop H. unfold SimpleOCRWorker._correct_plate_perspective.
    apply Z.eqb_eq in H. now rewrite H. }
  split; [|split].
  - destruct plate_crop_bgr as [crop|]; [|now exists None].
    destruct (Z.eq_dec (size crop) 0) as [E|NZ]; [rewrite (Z0 _ E); eauto|].
    destruct (the_screen_cnt crop) as [cnt|] eqn:S.
    + destruct (correct_with_quad crop cnt NZ S) as (tl & tr & br & bl & _ & ->).
      eauto.
    + unfold SimpleOCRWorker._correct_plate_perspective.
      apply Z.eqb_neq in NZ. rewrite NZ, S. eauto.
  - intros ->. reflexivity.
  - intros crop ->. split; [apply Z0|]. split.
    + intros NQ. unfold SimpleOCRWorker._correct_plate_perspective.
      destruct (size crop =? 0); [reflexivity|].
      unfold SimpleOCRWorker.screen_cnt. rewrite (find_none crop); [reflexivity|].
      intros c Hc. apply NQ. apply sorted_desc_In.
      apply (In_firstn c 10). exact Hc.
    + intros cnt tl tr br bl S O D.
      destruct (Z.eq_dec (size crop) 0) as [E|NZ]; [now apply Z0|].
      destruct (correct_with_quad crop cnt NZ S)
        as (tl' & tr' & br' & bl' & O' & ->).
      rewrite O in O'. injection O' as <- <- <- <-.
      assert (T : (height tl tr br bl <? 20) || (width tl tr br bl <? 50) = true).
      { apply orb_true_iff. destruct D as [D|D]; [right|left]; now apply Z.ltb_lt. }
      rewrite <- !orb_assoc, T, !orb_true_r. reflexivity.
Qed.

End Rectifier.

(** C6 on a crop whose only quadrilateral is 40 wide and 10 high: the
    destination width is below 50 and the crop comes back unchanged. *)
Lemma C6_perspective_fallbacks_witness :
  SimpleOCRWorker.screen_cnt sample_findContours sample_contourArea
    sample_arcLength sample_approxPolyDP sample_crop = Some sample_rectangle
  /\ SimpleOCRWorker.max_width sample_sqrt (0, 0) (40, 0) (40, 10) (0, 10) < 50
  /\ SimpleOCRWorker._correct_plate_perspective sample_findContours
       sample_contourArea sample_arcLength sample_approxPolyDP sample_sqrt
       sample_warp (Some sample_crop) = Py.Ok (Some sample_crop).
Proof.
  split; [reflexivity|]. split; [reflexivity|].
  pose proof (C6_perspective_fallbacks sample_findContours sample_contourArea
                sample_arcLength sample_approxPolyDP sample_sqrt sample_warp
                (fun _ _ _ _ => conj eq_refl eq_refl) (Some sample_crop))
    as (_ & _ & H).
  destruct (H sample_crop eq_refl) as (_ & _ & H3).
  apply (H3 sample_rectangle (0, 0) (40, 0) (40, 10) (0, 10)).
  - reflexivity.
  - reflexivity.
  - left. reflexivity.
Defined.

(** ** The background OCR worker of [python_yolo.py] *)

Section Worker.

Import Py Np SimpleOCRWorker.

Variable up : char -> str.
Variable trocr_decode : option image -> result str.
Variable easyocr_readtext : option image -> result (list (str * Q)).

Local Notation "'stepW'" := (step up trocr_decode easyocr_readtext).
Local Notation "'runW'" := (run up trocr_decode easyocr_readtext).
Local Notation "'valid'" := (validated up).
Local Notation "'sentinel'" := (lit "No plate detected").

Lemma validated_not_sentinel (t : str) :
  valid t -> t <> sentinel /\ truthy t = true.
Proof.
  intros [raw E].
  destruct (simple_validate_starts_with_digit up raw t E) as (d & rest & -> & D).
  split; [|reflexivity].
  intros H. injection H as -> _. discriminate D.
Qed.

Lemma read_trocr_validated (crop : option image) (t : str) :
  fst (_read_license_plate_trocr up trocr_decode crop) = Some t -> valid t.
Proof.
  unfold _read_license_plate_trocr.
  destruct (trocr_decode crop) as [raw|e]; [|discriminate].
  destruct (validate_and_format up raw) as [f|] eqn:E; cbn [truthy_opt].
  - destruct (truthy f); cbn [fst]; [|discriminate].
    intros H. injection H as <-. now exists raw.
  - discriminate.
Qed.

Lemma read_easyocr_validated (crop : option image) (t : str) :
  fst (_read_license_plate_easyocr up easyocr_readtext crop) = Some t -> valid t.
Proof.
  unfold _read_license_plate_easyocr.
  destruct (easyocr_readtext crop) as [results|e]; [|discriminate].
  destruct results as [|r results]; [discriminate|].
  set (raw := List.concat (map fst (r :: results))).
  destruct (validate_and_format up raw) as [f|] eqn:E; cbn [truthy_opt].
  - destruct (truthy f); cbn [fst]; [|discriminate].
    intros H. injection H as <-. now exists raw.
  - discriminate.
Qed.

Lemma set_nth_Forall {A} (P : A -> Prop) (i : nat) (x : A) (l : list A) :
  Forall P l -> P x -> Forall P (set_nth i x l).
Proof.
  intros F Px. revert i. induction F as [|y l Py F IH]; intros [|i]; simpl;
    try constructor; auto.
Qed.

Lemma nth_error_Forall {A} (P : A -> Prop) (i : nat) (x : A) (l : list A) :
  Forall P l -> nth_error l i = Some x -> P x.
Proof.
  intros F H. rewrite Forall_forall in F. apply F.
  eapply nth_error_In; eassumption.
Qed.

(** [write_result] writes the text it is given when there is one that
    is not empty, and nothing otherwise. *)
Lemma write_result_latest (text : option str) (s : worker) :
  latest_result (write_result text s)
  = match text with
    | Some t => if truthy t then t else latest_result s
    | None => latest_result s
    end.
Proof.
  unfold write_result. destruct text as [t|]; [|reflexivity].
  now destruct (truthy t).
Qed.

(** One event changes the published result only into a validated text. *)
Lemma step_latest (e : event) (w : world) :
  consistent up w ->
  latest_result (self (stepW e w)) = latest_result (self w)
  \/ valid (latest_result (self (stepW e w))).
Proof.
  intros [_ F]. destruct e as [crop| |tid]; simpl.
  - unfold process_latest. destruct (_ && _); now left.
  - now left.
  - destruct (nth_error (threads w) tid) as [p|] eqn:N; [|now left].
    destruct p as [| |text|text|]; simpl.
    + unfold enter. destruct (current_task (self w)); [|now left].
      destruct (stop_event (self w)); now left.
    + unfold read. destruct (ocr_engine_type (self w)); now left.
    + unfold stop_test. destruct (stop_event (self w)); now left.
    + rewrite write_result_latest. destruct text as [t|]; [|now left].
      destruct (truthy t); [right|now left].
      apply (nth_error_Forall _ _ _ _ F N t eq_refl).
    + now left.
Qed.

(** The only event that changes the published result is the write of a
    thread that holds a text. *)
Lemma step_writes (e : event) (w : world) :
  latest_result (self (stepW e w)) = latest_result (self w)
  \/ exists tid t,
       e = run_thread tid
       /\ nth_error (threads w) tid = Some (Writing (Some t))
       /\ truthy t = true
       /\ latest_result (self (stepW e w)) = t.
Proof.
  destruct e as [crop| |tid]; simpl.
  - unfold process_latest. destruct (_ && _); now left.
  - now left.
  - destruct (nth_error (threads w) tid) as [p|] eqn:N; [|now left].
    destruct p as [| |text|text|]; simpl.
    + unfold enter. destruct (current_task (self w)); [|now left].
      destruct (stop_event (self w)); now left.
    + unfold read. destruct (ocr_engine_type (self w)); now left.
    + unfold stop_test. destruct (stop_event (self w)); now left.
    + rewrite write_result_latest. destruct text as [t|]; [|now left].
      destruct (truthy t) eqn:T; [right|now left].
      exists tid, t. auto.
    + now left.
Qed.

Lemma nth_error_set_nth_eq {A} (i : nat) (x y : A) (l : list A) :
  nth_error l i = Some y -> nth_error (set_nth i x l) i = Some x.
Proof.
  revert i. induction l as [|a l IH]; intros [|i] H; simpl in *;
    try discriminate; auto.
Qed.

Lemma nth_error_set_nth_neq {A} (i j : nat) (x : A) (l : list A) :
  i <> j -> nth_error (set_nth i x l) j = nth_error l j.
Proof.
  revert i j. induction l as [|a l IH]; intros [|i] [|j] H; simpl;
    try reflexivity; [congruence|].
  apply IH. congruence.
Qed.

(** A step of thread [tid], spelled out. *)
Lemma step_thread (tid : nat) (p : pc) (w : world) :
  nth_error (threads w) tid = Some p ->
  stepW (run_thread tid) w
  = mkWorld (fst (thread_step up trocr_decode easyocr_readtext p (self w)))
      (set_nth tid
         (snd (thread_step up trocr_decode easyocr_readtext p (self w)))
         (threads w)).
Proof.
  intros N. simpl. rewrite N.
  now destruct (thread_step up trocr_decode easyocr_readtext p (self w)).
Qed.

(** Where a thread stands changes by its own steps only. *)
Lemma step_other_thread (e : event) (tid : nat) (p : pc) (w : world) :
  nth_error (threads w) tid = Some p ->
  e <> run_thread tid ->
  nth_error (threads (stepW e w)) tid = Some p.
Proof.
  intros N D. destruct e as [crop| |tid']; simpl.
  - unfold process_latest. destruct (_ && _); [|exact N]. simpl.
    rewrite nth_error_app1; [exact N|].
    apply nth_error_Some. congruence.
  - exact N.
  - destruct (nth_error (threads w) tid') as [p'|] eqn:N'; [|exact N].
    destruct (thread_step up trocr_decode easyocr_readtext p' (self w)).
    simpl. rewrite nth_error_set_nth_neq; [exact N|]. congruence.
Qed.

(** A text the validator accepts is what the readers return. *)
Lemma read_trocr_some (crop : option image) (raw t : str) :
  trocr_decode crop = Ok raw ->
  validate_and_format up raw = Some t ->
  fst (_read_license_plate_trocr up trocr_decode crop) = Some t.
Proof.
  intros D V. unfold _read_license_plate_trocr. rewrite D, V.
  destruct (simple_validate_starts_with_digit up raw t V) as (d & rest & -> & _).
  reflexivity.
Qed.

Lemma read_easyocr_some (crop : option image) (r : str * Q)
    (results : list (str * Q)) (t : str) :
  easyocr_readtext crop = Ok (r :: results) ->
  validate_and_format up (List.concat (map fst (r :: results))) = Some t ->
  fst (_read_license_plate_easyocr up easyocr_readtext crop) = Some t.
Proof.
  intros D V. unfold _read_license_plate_easyocr. rewrite D.
  cbv zeta. rewrite V.
  destruct (simple_validate_starts_with_digit up _ t V) as (d & rest & -> & _).
  reflexivity.
Qed.

Lemma step_consistent (e : event) (w : world) :
  consistent up w -> consistent up (stepW e w).
Proof.
  intros C. pose proof (step_latest e w C) as L. destruct C as [HL F].
  split.
  - destruct L as [->|V]; [exact HL|now right].
  - destruct e as [crop| |tid]; simpl.
    + unfold process_latest. destruct (_ && _); [|exact F]. simpl.
      apply Forall_app. split; [exact F|].
      constructor; [intros t Ht; discriminate Ht|constructor].
    + exact F.
    + destruct (nth_error (threads w) tid) as [p|] eqn:N; [|exact F].
      destruct (thread_step up trocr_decode easyocr_readtext p (self w))
        as [s' p'] eqn:T. simpl.
      apply set_nth_Forall; [exact F|]. intros t Ht.
      destruct p as [| |text|text|]; simpl in T.
      * unfold enter in T. destruct (current_task (self w));
          [destruct (stop_event (self w))|]; inversion T; subst;
          discriminate Ht.
      * unfold read in T. destruct (ocr_engine_type (self w)); inversion T;
          subst; simpl in Ht.
        -- eapply read_trocr_validated; eassumption.
        -- eapply read_easyocr_validated; eassumption.
        -- discriminate Ht.
      * unfold stop_test in T. destruct (stop_event (self w)); inversion T;
          subst; simpl in Ht; [discriminate Ht|].
        apply (nth_error_Forall _ _ _ _ F N t Ht).
      * inversion T; subst. discriminate Ht.
      * inversion T; subst. discriminate Ht.
Qed.

Lemma boot_consistent (ty : engine_type) : consistent up (boot ty).
Proof. split; [now left|constructor]. Qed.

Lemma run_consistent (schedule : list event) (w : world) :
  consistent up w -> consistent up (runW schedule w).
Proof.
  revert w. induction schedule as [|e schedule IH]; intros w C; simpl.
  - exact C.
  - apply IH. now apply step_consistent.
Qed.

Lemma run_keeps_plate (schedule : list event) (w : world) :
  consistent up w ->
  latest_result (self w) <> sentinel ->
  latest_result (self (runW schedule w)) <> sentinel.
Proof.
  revert w. induction schedule as [|e schedule IH]; intros w C NS; simpl.
  - exact NS.
  - apply IH; [now apply step_consistent|].
    destruct (step_latest e w C) as [->|V]; [exact NS|].
    now apply validated_not_sentinel.
Qed.

Lemma set_nth_last {A} (x y : A) (l : list A) :
  set_nth (List.length l) y (l ++ [x]) = l ++ [y].
Proof. induction l as [|a l IH]; simpl; [reflexivity|now rewrite IH]. Qed.

Lemma nth_error_last {A} (x : A) (l : list A) :
  nth_error (l ++ [x]) (List.length l) = Some x.
Proof. rewrite nth_error_app2 by lia. now rewrite Nat.sub_diag. Qed.

(** What the engine call of a task gives, by engine. *)
Lemma read_step (s : worker) :
  snd (read up trocr_decode easyocr_readtext s)
  = match ocr_engine_type s with
    | trocr =>
        Publishing
          (fst (_read_license_plate_trocr up trocr_decode (current_task s)))
    | easyocr =>
        Publishing
          (fst (_read_license_plate_easyocr up easyocr_readtext
                  (current_task s)))
    | other_engine => Done
    end.
Proof. unfold read. now destruct (ocr_engine_type s). Qed.

Lemma read_keeps (s : worker) :
  stop_event (fst (read up trocr_decode easyocr_readtext s)) = stop_event s
  /\ latest_result (fst (read up trocr_decode easyocr_readtext s))
     = latest_result s.
Proof. unfold read. now destruct (ocr_engine_type s). Qed.

(** A request on an idle worker that is not stopped, followed by the four
    steps of the thread it starts with nothing in between: the text the
    engine call gives is written. *)
Lemma uninterrupted_read_is_written (crop : image) (t : str) (w : world) :
  processing (self w) = false ->
  stop_event (self w) = false ->
  snd (read up trocr_decode easyocr_readtext
         (set_processing (set_current_task (self w) (Some crop)) true))
  = Publishing (Some t) ->
  truthy t = true ->
  latest_result
    (self (runW [ call_process_latest crop;
                  run_thread (started w); run_thread (started w);
                  run_thread (started w); run_thread (started w) ] w))
  = t.
Proof.
  intros P S R T. unfold run. cbn [fold_left].
  assert (E1 : stepW (call_process_latest crop) w
               = mkWorld (set_current_task (self w) (Some crop))
                   (threads w ++ [Entry])).
  { cbn [step]. unfold process_latest. now rewrite P, S. }
  rewrite E1. unfold started.
  set (l := threads w). set (k := List.length l).
  set (s0 := set_current_task (self w) (Some crop)) in *.
  set (s1 := set_processing s0 true) in *.
  assert (E2 : stepW (run_thread k) (mkWorld s0 (l ++ [Entry]))
               = mkWorld s1 (l ++ [Reading])).
  { rewrite (step_thread k Entry) by apply nth_error_last.
    cbn [self threads thread_step]. unfold enter.
    replace (current_task s0) with (Some crop) by reflexivity.
    replace (stop_event s0) with false by (symmetry; exact S).
    cbn [fst snd]. fold s1. unfold k. now rewrite set_nth_last. }
  rewrite E2.
  set (s2 := fst (read up trocr_decode easyocr_readtext s1)).
  assert (E3 : stepW (run_thread k) (mkWorld s1 (l ++ [Reading]))
               = mkWorld s2 (l ++ [Publishing (Some t)])).
  { rewrite (step_thread k Reading) by apply nth_error_last.
    cbn [self threads thread_step]. rewrite R. fold s2.
    unfold k. now rewrite set_nth_last. }
  rewrite E3.
  assert (S2 : stop_event s2 = false).
  { unfold s2. rewrite (proj1 (read_keeps s1)). exact S. }
  assert (E4 : stepW (run_thread k) (mkWorld s2 (l ++ [Publishing (Some t)]))
               = mkWorld s2 (l ++ [Writing (Some t)])).
  { rewrite (step_thread k (Publishing (Some t))) by apply nth_error_last.
    cbn [self threads thread_step]. unfold stop_test. rewrite S2.
    cbn [fst snd]. unfold k. now rewrite set_nth_last. }
  rewrite E4.
  rewrite (step_thread k (Writing (Some t))) by apply nth_error_last.
  cbn [self threads thread_step fst]. rewrite write_result_latest.
  now rewrite T.
Qed.

Lemma run_app (s1 s2 : list event) (w : world) :
  runW (s1 ++ s2) w = runW s2 (runW s1 w).
Proof. unfold run. apply fold_left_app. Qed.

(** A request while the flag is up, or after the stop flag is set, starts
    nothing and leaves no trace. *)
Lemma request_dropped (crop : image) (w : world) :
  processing (self w) = true \/ stop_event (self w) = true ->
  process_latest crop w = w.
Proof.
  unfold process_latest. intros [-> | ->]; [reflexivity|].
  now rewrite andb_false_r.
Qed.

End Worker.

(** C8 on the schedule: first request, second request, then the two
    threads.  The specification asks for one task.  [process_latest] tests
    [processing], but the flag is raised by the started thread (line 47),
    not by [process_latest]: both requests pass the test, two threads are
    started, and both reach the engine call with the flag up. *)
Theorem C8_two_requests_start_two_tasks :
  forall (up : Py.char -> Py.str)
         (decode : option Np.image -> Py.result Py.str)
         (readtext : option Np.image -> Py.result (list (Py.str * Q)))
         (crop1 crop2 : Np.image),
    let w2 := SimpleOCRWorker.run up decode readtext
                [SimpleOCRWorker.call_process_latest crop1;
                 SimpleOCRWorker.call_process_latest crop2]
                (SimpleOCRWorker.boot SimpleOCRWorker.trocr) in
    let w4 := SimpleOCRWorker.run up decode readtext
                [SimpleOCRWorker.run_thread 0; SimpleOCRWorker.run_thread 1] w2 in
    SimpleOCRWorker.started w2 = 2%nat
    /\ SimpleOCRWorker.in_flight w2 = 2%nat
    /\ SimpleOCRWorker.threads w4
       = [SimpleOCRWorker.Reading; SimpleOCRWorker.Reading]
    /\ SimpleOCRWorker.in_flight w4 = 2%nat
    /\ SimpleOCRWorker.current_task (SimpleOCRWorker.self w4) = Some crop2.
Proof. intros. repeat split; reflexivity. Qed.

(** When the first thread has raised the flag before the second request
    comes, the second request is dropped: one thread, the first crop. *)
Lemma second_request_after_flag_is_dropped :
  forall (up : Py.char -> Py.str)
         (decode : option Np.image -> Py.result Py.str)
         (readtext : option Np.image -> Py.result (list (Py.str * Q)))
         (crop1 crop2 : Np.image),
    let w := SimpleOCRWorker.run up decode readtext
               [SimpleOCRWorker.call_process_latest crop1;
                SimpleOCRWorker.run_thread 0;
                SimpleOCRWorker.call_process_latest crop2]
               (SimpleOCRWorker.boot SimpleOCRWorker.trocr) in
    SimpleOCRWorker.started w = 1%nat
    /\ SimpleOCRWorker.current_task (SimpleOCRWorker.self w) = Some crop1.
Proof. intros. split; reflexivity. Qed.

(** A run that reads a plate publishes it; a later run whose engine raises
    leaves it in place. *)
Example single_run_publishes_then_failure_keeps :
  let decode_ok := fun _ : option Np.image => Py.Ok (Py.lit "12-34567") in
  let decode_ko := fun _ : option Np.image => @Py.Raise Py.str Py.EngineError in
  let readtext := fun _ : option Np.image => @Py.Ok (list (Py.str * Q)) [] in
  let s0 := SimpleOCRWorker.set_current_task
              (SimpleOCRWorker.init SimpleOCRWorker.trocr) (Some sample_crop) in
  let s1 := SimpleOCRWorker._process_ocr upper_identity decode_ok readtext s0 in
  let s2 := SimpleOCRWorker._process_ocr upper_identity decode_ko readtext s1 in
  SimpleOCRWorker.get_latest_result s1 = Py.lit "12-345-67"
  /\ SimpleOCRWorker.get_latest_result s2 = Py.lit "12-345-67"
  /\ SimpleOCRWorker.processing s2 = false.
Proof. repeat split; reflexivity. Qed.

(** C9.  [latest_result] starts as the sentinel, and in every state the
    worker can reach, under every interleaving of requests, stop and
    thread steps:
    - it is the sentinel or a string the validator produced;
    - the only event that changes it is the write (line 60) of a thread
      that holds a validated text, and that write stores exactly this text;
    - once it is not the sentinel it never is again, whatever happens next;
    - a read that succeeds gives the thread its validated text; a thread
      that finds the stop flag down at line 56 goes on to the write,
      whatever happens in between; no other event moves a thread;
    - after such a write [latest_result] is not the sentinel, and never is
      again, whatever happens next;
    - in particular a request on an idle worker that is not stopped, whose
      crop the engine reads as a text the validator accepts, followed by
      the steps of its thread, leaves this text in [latest_result], which
      from then on is never the sentinel;
    - an engine exception, a rejected text and an empty read give the
      text [None], and a thread that holds [None] writes nothing. *)
Theorem C9_latest_result_sentinel_or_validated
    (up : Py.char -> Py.str)
    (decode : option Np.image -> Py.result Py.str)
    (readtext : option Np.image -> Py.result (list (Py.str * Q)))
    (ty : SimpleOCRWorker.engine_type)
    (schedule : list SimpleOCRWorker.event) :
  let w := SimpleOCRWorker.run up decode readtext schedule
             (SimpleOCRWorker.boot ty) in
  let latest x := SimpleOCRWorker.get_latest_result (SimpleOCRWorker.self x) in
  let at_ x tid := nth_error (SimpleOCRWorker.threads x) tid in
  let next e := SimpleOCRWorker.step up decode readtext e w in
  latest (SimpleOCRWorker.boot ty) = Py.lit "No plate detected"
  /\ (latest w = Py.lit "No plate detected"
      \/ SimpleOCRWorker.validated up (latest w))
  /\ (forall e,
        latest (next e) = latest w
        \/ exists tid t,
             e = SimpleOCRWorker.run_thread tid
             /\ at_ w tid = Some (SimpleOCRWorker.Writing (Some t))
             /\ SimpleOCRWorker.validated up t
             /\ latest (next e) = t)
  /\ (latest w <> Py.lit "No plate detected" ->
      forall more,
        latest (SimpleOCRWorker.run up decode readtext more w)
          <> Py.lit "No plate detected")
  /\ (forall tid raw t,
        at_ w tid = Some SimpleOCRWorker.Reading ->
        SimpleOCRWorker.ocr_engine_type (SimpleOCRWorker.self w)
          = SimpleOCRWorker.trocr ->
        decode (SimpleOCRWorker.current_task (SimpleOCRWorker.self w))
          = Py.Ok raw ->
        SimpleOCRWorker.validate_and_format up raw = Some t ->
        at_ (next (SimpleOCRWorker.run_thread tid)) tid
          = Some (SimpleOCRWorker.Publishing (Some t)))
  /\ (forall tid r results t,
        at_ w tid = Some SimpleOCRWorker.Reading ->
        SimpleOCRWorker.ocr_engine_type (SimpleOCRWorker.self w)
          = SimpleOCRWorker.easyocr ->
        readtext (SimpleOCRWorker.current_task (SimpleOCRWorker.self w))
          = Py.Ok (r :: results) ->
        SimpleOCRWorker.validate_and_format up
          (List.concat (map fst (r :: results))) = Some t ->
        at_ (next (SimpleOCRWorker.run_thread tid)) tid
          = Some (SimpleOCRWorker.Publishing (Some t)))
  /\ (forall tid text,
        at_ w tid = Some (SimpleOCRWorker.Publishing text) ->
        SimpleOCRWorker.stop_event (SimpleOCRWorker.self w) = false ->
        at_ (next (SimpleOCRWorker.run_thread tid)) tid
          = Some (SimpleOCRWorker.Writing text))
  /\ (forall e tid p,
        at_ w tid = Some p ->
        e <> SimpleOCRWorker.run_thread tid ->
        at_ (next e) tid = Some p)
  /\ (forall tid t,
        at_ w tid = Some (SimpleOCRWorker.Writing (Some t)) ->
        latest (next (SimpleOCRWorker.run_thread tid)) = t
        /\ t <> Py.lit "No plate detected"
        /\ forall more,
             latest (SimpleOCRWorker.run up decode readtext more
                       (next (SimpleOCRWorker.run_thread tid)))
               <> Py.lit "No plate detected")
  /\ (forall crop t,
        SimpleOCRWorker.processing (SimpleOCRWorker.self w) = false ->
        SimpleOCRWorker.stop_event (SimpleOCRWorker.self w) = false ->
        (SimpleOCRWorker.ocr_engine_type (SimpleOCRWorker.self w)
           = SimpleOCRWorker.trocr
         /\ exists raw,
              decode (Some crop) = Py.Ok raw
              /\ SimpleOCRWorker.validate_and_format up raw = Some t)
        \/ (SimpleOCRWorker.ocr_engine_type (SimpleOCRWorker.self w)
              = SimpleOCRWorker.easyocr
            /\ exists r results,
                 readtext (Some crop) = Py.Ok (r :: results)
                 /\ SimpleOCRWorker.validate_and_format up
                      (List.concat (map fst (r :: results))) = Some t) ->
        let k := SimpleOCRWorker.started w in
        let w' := SimpleOCRWorker.run up decode readtext
                    [ SimpleOCRWorker.call_process_latest crop;
                      SimpleOCRWorker.run_thread k;
                      SimpleOCRWorker.run_thread k;
                      SimpleOCRWorker.run_thread k;
                      SimpleOCRWorker.run_thread k ] w in
        latest w' = t
        /\ forall more,
             latest (SimpleOCRWorker.run up decode readtext more w')
               <> Py.lit "No plate detected")
  /\ (forall crop e,
        decode crop = Py.Raise e ->
        fst (SimpleOCRWorker._read_license_plate_trocr up decode crop) = None)
  /\ (forall crop raw,
        decode crop = Py.Ok raw ->
        SimpleOCRWorker.validate_and_format up raw = None ->
        fst (SimpleOCRWorker._read_license_plate_trocr up decode crop) = None)
  /\ (forall crop e,
        readtext crop = Py.Raise e ->
        fst (SimpleOCRWorker._read_license_plate_easyocr up readtext crop) = None)
  /\ (forall crop,
        readtext crop = Py.Ok [] ->
        fst (SimpleOCRWorker._read_license_plate_easyocr up readtext crop) = None)
  /\ (forall crop r results,
        readtext crop = Py.Ok (r :: results) ->
        SimpleOCRWorker.validate_and_format up
          (List.concat (map fst (r :: results))) = None ->
        fst (SimpleOCRWorker._read_license_plate_easyocr up readtext crop) = None)
  /\ (forall tid,
        at_ w tid = Some (SimpleOCRWorker.Writing None) ->
        latest (next (SimpleOCRWorker.run_thread tid)) = latest w).
Proof.
  cbv zeta. unfold SimpleOCRWorker.get_latest_result.
  set (w := SimpleOCRWorker.run up decode readtext schedule
              (SimpleOCRWorker.boot ty)).
  assert (C : SimpleOCRWorker.consistent up w)
    by (apply run_consistent, boot_consistent).
  assert (Held : forall tid p t,
             nth_error (SimpleOCRWorker.threads w) tid = Some p ->
             SimpleOCRWorker.held_text p = Some t ->
             SimpleOCRWorker.validated up t).
  { intros tid p t N H.
    exact (nth_error_Forall _ _ _ _ (proj2 C) N t H). }
  split; [reflexivity|]. split; [exact (proj1 C)|].
  split.
  { intros e.
    destruct (step_writes up decode readtext e w)
      as [E|(tid & t & -> & N & T & E)]; [now left|right].
    exists tid, t. repeat split; try assumption.
    exact (Held tid _ t N eq_refl). }
  split; [intros NS more; now apply run_keeps_plate|].
  split.
  { intros tid raw t N Ty D V.
    rewrite (step_thread up decode readtext tid _ w N). simpl.
    unfold SimpleOCRWorker.read. rewrite Ty. simpl.
    rewrite (nth_error_set_nth_eq _ _ _ _ N).
    now rewrite (read_trocr_some up decode _ raw t D V). }
  split.
  { intros tid r results t N Ty D V.
    rewrite (step_thread up decode readtext tid _ w N). simpl.
    unfold SimpleOCRWorker.read. rewrite Ty. simpl.
    rewrite (nth_error_set_nth_eq _ _ _ _ N).
    now rewrite (read_easyocr_some up readtext _ r results t D V). }
  split.
  { intros tid text N S.
    rewrite (step_thread up decode readtext tid _ w N). simpl.
    unfold SimpleOCRWorker.stop_test. rewrite S. simpl.
    exact (nth_error_set_nth_eq _ _ _ _ N). }
  split.
  { intros e tid p N D. now apply step_other_thread. }
  split.
  { intros tid t N.
    pose proof (Held tid _ t N eq_refl) as V.
    destruct (validated_not_sentinel up t V) as [NS T].
    assert (E : SimpleOCRWorker.latest_result
                  (SimpleOCRWorker.self
                     (SimpleOCRWorker.step up decode readtext
                        (SimpleOCRWorker.run_thread tid) w)) = t).
    { rewrite (step_thread up decode readtext tid _ w N).
      cbn [SimpleOCRWorker.thread_step fst SimpleOCRWorker.self].
      rewrite write_result_latest. now rewrite T. }
    split; [exact E|]. split; [exact NS|].
    intros more. apply run_keeps_plate.
    - now apply step_consistent.
    - now rewrite E. }
  split.
  { intros crop t P S R. cbv zeta.
    assert (V : SimpleOCRWorker.validated up t).
    { destruct R as [(_ & raw & _ & V)|(_ & r & results & _ & V)];
        eexists; exact V. }
    destruct (validated_not_sentinel up t V) as [NS T].
    assert (E : SimpleOCRWorker.latest_result
                  (SimpleOCRWorker.self
                     (SimpleOCRWorker.run up decode readtext
                        [ SimpleOCRWorker.call_process_latest crop;
                          SimpleOCRWorker.run_thread (SimpleOCRWorker.started w);
                          SimpleOCRWorker.run_thread (SimpleOCRWorker.started w);
                          SimpleOCRWorker.run_thread (SimpleOCRWorker.started w);
                          SimpleOCRWorker.run_thread (SimpleOCRWorker.started w) ]
                        w)) = t).
    { apply uninterrupted_read_is_written; try assumption.
      rewrite read_step.
      change (SimpleOCRWorker.ocr_engine_type
                (SimpleOCRWorker.set_processing
                   (SimpleOCRWorker.set_current_task (SimpleOCRWorker.self w)
                      (Some crop)) true))
        with (SimpleOCRWorker.ocr_engine_type (SimpleOCRWorker.self w)).
      change (SimpleOCRWorker.current_task
                (SimpleOCRWorker.set_processing
                   (SimpleOCRWorker.set_current_task (SimpleOCRWorker.self w)
                      (Some crop)) true))
        with (Some crop).
      destruct R as [(-> & raw & D & V')|(-> & r & results & D & V')].
      - now rewrite (read_trocr_some up decode _ raw t D V').
      - now rewrite (read_easyocr_some up readtext _ r results t D V'). }
    split; [exact E|].
    intros more. apply run_keeps_plate.
    - now apply run_consistent.
    - now rewrite E. }
  split; [|split; [|split; [|split; [|split]]]].
  - intros crop e E. unfold SimpleOCRWorker._read_license_plate_trocr.
    now rewrite E.
  - intros crop raw E V. unfold SimpleOCRWorker._read_license_plate_trocr.
    now rewrite E, V.
  - intros crop e E. unfold SimpleOCRWorker._read_license_plate_easyocr.
    now rewrite E.
  - intros crop E. unfold SimpleOCRWorker._read_license_plate_easyocr.
    now rewrite E.
  - intros crop r results E V.
    unfold SimpleOCRWorker._read_license_plate_easyocr.
    rewrite E. cbv zeta. now rewrite V.
  - intros tid N.
    rewrite (step_thread up decode readtext tid _ w N).
    cbn [SimpleOCRWorker.thread_step fst SimpleOCRWorker.self].
    now rewrite write_result_latest.
Qed.

(** ** The background OCR worker of [python_yolo_fast_plate.py] *)

Lemma fast_validate_starts_with_digit (raw s : Py.str) :
  FastPlateOCRWorker._validate_and_format_plate raw = Some s ->
  exists d rest, s = d :: rest /\ Py.is_digit d = true.
Proof.
  intros H.
  pose proof (filter_digits_all (FastPlateOCRWorker.clean_text raw)) as D.
  fold (FastPlateOCRWorker.numeric_only raw) in D.
  destruct (Nat.le_gt_cases 7 (Py.len (FastPlateOCRWorker.numeric_only raw)))
    as [L7|L7];
    [|rewrite fast_validate_out_of_range in H by lia; discriminate].
  destruct (Nat.le_gt_cases (Py.len (FastPlateOCRWorker.numeric_only raw)) 9)
    as [L9|L9];
    [|rewrite fast_validate_out_of_range in H by lia; discriminate].
  rewrite fast_validate_in_range in H by lia.
  assert (C : (Py.len (FastPlateOCRWorker.numeric_only raw) = 7
               \/ Py.len (FastPlateOCRWorker.numeric_only raw) = 8
               \/ Py.len (FastPlateOCRWorker.numeric_only raw) = 9)%nat) by lia.
  destruct C as [L|[L|L]].
  - rewrite (fast_rules_7 _ _ L) in H. destruct_len L.
    inversion D; subst. cbn in H. inversion H. eauto.
  - rewrite (fast_rules_8 _ _ L) in H. destruct_len L.
    inversion D; subst. cbn in H. inversion H. eauto.
  - rewrite (fast_rules_9 _ _ L) in H. destruct_len L.
    inversion D as [|? ? _ D']; subst. inversion D'; subst.
    cbn in H. inversion H. eauto.
Qed.

(** C10.  A background run of the fast-plate worker that is not stopped
    and whose recogniser returns writes [published result]: for a
    non-empty first text that fails validation, the string
    "Raw: <digits> (len:<n>)", which is neither the sentinel nor a string
    the validator can produce; for an empty list or an empty first text,
    the sentinel. *)
Theorem C10_fast_plate_publishes_unvalidated_text
    (self : FastPlateOCRWorker.worker) (task : Np.image)
    (recognizer : Np.image -> Py.result (list Py.str))
    (result : list Py.str) :
  FastPlateOCRWorker.current_task self = Some task ->
  FastPlateOCRWorker.ocr_recognizer self = Some recognizer ->
  FastPlateOCRWorker.stop_event self = false ->
  recognizer task = Py.Ok result ->
  let latest := FastPlateOCRWorker.get_latest_result
                  (FastPlateOCRWorker._process_ocr self) in
  latest = FastPlateOCRWorker.published result
  /\ (forall raw_text rest,
        result = raw_text :: rest ->
        Py.truthy raw_text = true ->
        FastPlateOCRWorker._validate_and_format_plate raw_text = None ->
        latest = Py.lit "Raw: " ++ FastPlateOCRWorker.numeric_only raw_text
                 ++ Py.lit " (len:"
                 ++ Py.str_of_nat (Py.len (FastPlateOCRWorker.numeric_only raw_text))
                 ++ Py.lit ")"
        /\ latest <> Py.lit "No plate detected"
        /\ forall any, FastPlateOCRWorker._validate_and_format_plate any
                       <> Some latest)
  /\ (result = [] \/ (exists rest, result = [] :: rest) ->
      latest = Py.lit "No plate detected").
Proof.
  intros T R S E. cbv zeta.
  assert (P : FastPlateOCRWorker.get_latest_result
                (FastPlateOCRWorker._process_ocr self)
              = FastPlateOCRWorker.published result).
  { unfold FastPlateOCRWorker._process_ocr. rewrite T, R, S. cbn.
    rewrite S, E. reflexivity. }
  rewrite P. split; [reflexivity|]. split.
  - intros raw_text rest -> Tr V.
    assert (Q : FastPlateOCRWorker.published (raw_text :: rest)
                = Py.lit "Raw: " ++ FastPlateOCRWorker.numeric_only raw_text
                  ++ Py.lit " (len:"
                  ++ Py.str_of_nat
                       (Py.len (FastPlateOCRWorker.numeric_only raw_text))
                  ++ Py.lit ")").
    { unfold FastPlateOCRWorker.published. rewrite Tr, Tr, V. reflexivity. }
    rewrite Q. split; [reflexivity|]. split.
    + discriminate.
    + intros any H.
      destruct (fast_validate_starts_with_digit any _ H) as (d & r & Hd & D).
      injection Hd as <- _. discriminate D.
  - intros [->|[rest ->]]; reflexivity.
Qed.

(** C10 on a worker that holds "12-345-67" and reads "123____": the run
    replaces the plate by the debug text. *)
Lemma C10_fast_plate_publishes_unvalidated_text_witness :
  FastPlateOCRWorker.get_latest_result
    (FastPlateOCRWorker._process_ocr sample_fast_worker)
  = Py.lit "Raw: 123 (len:3)".
Proof.
  exact (proj1 (proj1 (proj2
    (C10_fast_plate_publishes_unvalidated_text sample_fast_worker sample_crop
       (fun _ => Py.Ok [Py.lit "123____"]) [Py.lit "123____"]
       eq_refl eq_refl eq_refl eq_refl))
    (Py.lit "123____") [] eq_refl eq_refl eq_refl)).
Defined.

(* ================================================================== *)
(** * Part III - further properties of the two scripts *)
(* ================================================================== *)

(** ** [get_video_rotation] *)

Section RotationFacts.

Import Py Rotation.

Variable int_of_str : str -> outcome Z.

Lemma lookup_contains (key : str) (d : list (str * json)) (v : json) :
  lookup key d = Some v -> contains key (JDict d) = Val true.
Proof. intros H. simpl. now rewrite H. Qed.

(** X1.  Whatever [ffprobe] prints or raises, and whatever the integer
    parser does, [get_video_rotation] returns 0, 90, 180 or 270. *)
Theorem X1_rotation_is_a_quarter_turn (ffprobe : outcome json) :
  In (get_video_rotation int_of_str ffprobe) [0; 90; 180; 270].
Proof.
  unfold get_video_rotation.
  destruct (rotation_of_output int_of_str ffprobe) as [r|e] eqn:E;
    [|simpl; tauto].
  unfold rotation_of_output in E.
  repeat match type of E with
         | and_then ?m _ = _ =>
             destruct m; cbn [and_then] in E; [|discriminate E]
         | (if ?b then _ else _) = _ =>
             destruct b eqn:?; [|idtac]
         end;
    try (injection E as <-; simpl; tauto).
  all: match goal with
       | H : existsb _ _ = true |- _ =>
           apply existsb_exists in H; destruct H as (x & Hx & Hr);
           apply Z.eqb_eq in Hr; rewrite Hr in *; injection E as <-;
           simpl in Hx; simpl; tauto
       | _ => idtac
       end.
Qed.

(** X2.  When [ffprobe] prints an object whose first stream has a rotate
    tag that reads as the integer [r]: the result is [r] for 90, 180 and
    270, [r + 360] for -270, -180 and -90, and 0 for every other [r]
    (450 and -450 included: angles are not reduced modulo 360). *)
Theorem X2_rotation_of_tag
    (d sd td : list (str * json)) (rest : list json) (tag : json) (r : Z) :
  lookup (lit "streams") d = Some (JList (JDict sd :: rest)) ->
  lookup (lit "tags") sd = Some (JDict td) ->
  lookup (lit "rotate") td = Some tag ->
  int_of int_of_str tag = Val r ->
  get_video_rotation int_of_str (Val (JDict d)) =
    if existsb (Z.eqb r) [90; 180; 270] then r
    else if existsb (Z.eqb r) [-270; -180; -90] then r + 360
    else 0.
Proof.
  intros Hs Ht Hr Hi. unfold get_video_rotation, rotation_of_output.
  cbn [and_then]. rewrite (lookup_contains _ _ _ Hs). cbn [and_then negb].
  unfold getitem_key at 1. rewrite Hs. cbn [and_then truthy_json negb getitem_0].
  rewrite (lookup_contains _ _ _ Ht). cbn [and_then negb].
  unfold getitem_key at 1. rewrite Ht. cbn [and_then].
  rewrite (lookup_contains _ _ _ Hr). cbn [and_then negb].
  unfold getitem_key. rewrite Hr. cbn [and_then]. rewrite Hi. cbn [and_then].
  cbn [existsb]. rewrite !orb_false_r.
  destruct (Z.ltb_spec r 0) as [N|P].
  - repeat match goal with
           | |- context [(?a =? ?b)] => destruct (Z.eqb_spec a b)
           end; cbn [orb]; try reflexivity; lia.
  - repeat match goal with
           | |- context [(?a =? ?b)] => destruct (Z.eqb_spec a b)
           end; cbn [orb]; try reflexivity; lia.
Qed.

End RotationFacts.

(** X2 on the tag texts "-90" (a quarter turn the other way, read as 270)
    and "450" (read as no rotation). *)
Lemma X2_rotation_of_tag_witness :
  Rotation.get_video_rotation sample_int_of_str
    (Rotation.Val (Rotation.ffprobe_output (Rotation.JStr (Py.lit "-90")))) = 270
  /\ Rotation.get_video_rotation sample_int_of_str
    (Rotation.Val (Rotation.ffprobe_output (Rotation.JStr (Py.lit "450")))) = 0.
Proof.
  split.
  - exact (X2_rotation_of_tag sample_int_of_str
             [(Py.lit "programs", Rotation.JList []);
              (Py.lit "streams",
               Rotation.JList
                 [Rotation.JDict
                    [(Py.lit "tags",
                      Rotation.JDict
                        [(Py.lit "rotate", Rotation.JStr (Py.lit "-90"))])]])]
             [(Py.lit "tags",
               Rotation.JDict [(Py.lit "rotate", Rotation.JStr (Py.lit "-90"))])]
             [(Py.lit "rotate", Rotation.JStr (Py.lit "-90"))]
             [] (Rotation.JStr (Py.lit "-90")) (-90)
             eq_refl eq_refl eq_refl eq_refl).
  - exact (X2_rotation_of_tag sample_int_of_str
             [(Py.lit "programs", Rotation.JList []);
              (Py.lit "streams",
               Rotation.JList
                 [Rotation.JDict
                    [(Py.lit "tags",
                      Rotation.JDict
                        [(Py.lit "rotate", Rotation.JStr (Py.lit "450"))])]])]
             [(Py.lit "tags",
               Rotation.JDict [(Py.lit "rotate", Rotation.JStr (Py.lit "450"))])]
             [(Py.lit "rotate", Rotation.JStr (Py.lit "450"))]
             [] (Rotation.JStr (Py.lit "450")) 450
             eq_refl eq_refl eq_refl eq_refl).
Defined.

(** ** The OCR interval of [DetectionWorker] *)

Section IntervalFacts.

Import DetectionWorker.

Lemma interval_positive (ocr_interval : Z) :
  1 <= ocr_processing_interval ocr_interval.
Proof.
  unfold ocr_processing_interval.
  destruct (Z.leb_spec ocr_interval 0); lia.
Qed.

Lemma div_succ (N m : Z) :
  1 <= N -> 0 <= m ->
  (m + 1) / N = m / N + (if (m + 1) mod N =? 0 then 1 else 0).
Proof.
  intros HN Hm.
  pose proof (Z.div_mod m N ltac:(lia)) as E.
  pose proof (Z.mod_pos_bound m N ltac:(lia)) as B.
  destruct (Z.eq_dec (m mod N + 1) N) as [F|F].
  - assert (D : (m + 1) / N = m / N + 1)
      by (symmetry; apply (Z.div_unique _ _ _ 0); lia).
    assert (M : (m + 1) mod N = 0)
      by (symmetry; apply (Z.mod_unique _ _ (m / N + 1)); lia).
    rewrite D, M. reflexivity.
  - assert (D : (m + 1) / N = m / N)
      by (symmetry; apply (Z.div_unique _ _ _ (m mod N + 1)); lia).
    assert (M : (m + 1) mod N = m mod N + 1)
      by (symmetry; apply (Z.mod_unique _ _ (m / N)); lia).
    rewrite D, M. destruct (Z.eqb_spec (m mod N + 1) 0); lia.
Qed.

End IntervalFacts.

(** X3.  The interval [DetectionWorker] works with is at least 1 whatever
    was asked for, so the test [frame_nmr_processed % interval == 0] never
    divides by zero.  Among the first [n] frames taken from the queue, the
    frames on which a crop can go to the background OCR are those whose
    number is a multiple of the interval, and there are exactly
    [n / interval] of them (integer division). *)
Theorem X3_ocr_interval (ocr_interval : Z) (n : nat) :
  let N := DetectionWorker.ocr_processing_interval ocr_interval in
  1 <= N
  /\ (0 < ocr_interval -> N = ocr_interval)
  /\ (forall k, exists b, DetectionWorker.ocr_due k N = Some b)
  /\ (forall k, In k (DetectionWorker.due_frames ocr_interval n)
                <-> (1 <= k <= Z.of_nat n /\ k mod N = 0))
  /\ Z.of_nat (List.length (DetectionWorker.due_frames ocr_interval n))
     = Z.of_nat n / N.
Proof.
  cbv zeta. pose proof (interval_positive ocr_interval) as P.
  set (N := DetectionWorker.ocr_processing_interval ocr_interval) in *.
  assert (D : forall k, DetectionWorker.ocr_due k N = Some (k mod N =? 0)).
  { intros k. unfold DetectionWorker.ocr_due.
    destruct (Z.eqb_spec N 0); [lia|reflexivity]. }
  split; [exact P|]. split.
  { intros H. unfold N, DetectionWorker.ocr_processing_interval.
    destruct (Z.leb_spec ocr_interval 0); [lia|reflexivity]. }
  split; [intros k; rewrite D; eauto|].
  unfold DetectionWorker.due_frames. fold N. split.
  - intros k. rewrite filter_In, in_map_iff, D. split.
    + intros [(j & <- & Hj) H]. apply in_seq in Hj.
      apply Z.eqb_eq in H. split; [lia|exact H].
    + intros [R H]. split; [|now apply Z.eqb_eq].
      exists (Z.to_nat k). split; [lia|]. apply in_seq. lia.
  - induction n as [|n IH]; [reflexivity|].
    rewrite seq_S, map_app, filter_app, length_app, Nat2Z.inj_add, IH.
    cbn [map filter plus]. rewrite D.
    replace (Z.of_nat (S n)) with (Z.of_nat n + 1) by lia.
    rewrite (div_succ N (Z.of_nat n)) by lia.
    replace (Z.of_nat (1 + n)) with (Z.of_nat n + 1) by lia.
    destruct ((Z.of_nat n + 1) mod N =? 0); reflexivity.
Qed.

(** ** The numeric-only recogniser *)

Section RecogniserFacts.

Import Py NumericOnlyONNXPlateRecognizer.

Variable isdigit_nonascii : char -> bool.

Local Notation "'isdig'" := (isdigit isdigit_nonascii).

Lemma masked_le_refl (a : option Q) : masked_le a a.
Proof. destruct a; simpl; [apply Qle_refl|trivial]. Qed.

Lemma lt_masked_true (a b : option Q) :
  lt_masked a b = true -> masked_le a b.
Proof.
  destruct a as [x|], b as [y|]; simpl; try discriminate; trivial.
  intros H. apply gt_spec in H. now apply Qlt_le_weak.
Qed.

Lemma lt_masked_false (a b : option Q) :
  lt_masked a b = false -> masked_le b a.
Proof.
  destruct a as [x|], b as [y|]; simpl; try discriminate; trivial.
  intros H. now apply gt_false in H.
Qed.

Lemma masked_le_trans (a b c : option Q) :
  masked_le a b -> masked_le b c -> masked_le a c.
Proof.
  destruct a as [x|], b as [y|], c as [z|]; simpl; try tauto.
  apply Qle_trans.
Qed.

Lemma masked_argmax_from_spec (rest pre : list (option Q)) (best_i : nat)
    (best : option Q) :
  nth_error pre best_i = Some best ->
  (forall y, In y pre -> masked_le y best) ->
  exists m, nth_error (pre ++ rest)
              (argmax_from best_i best (List.length pre) rest) = Some m
            /\ forall y, In y (pre ++ rest) -> masked_le y m.
Proof.
  revert pre best_i best.
  induction rest as [|x rest IH]; intros pre best_i best Hn Hall; simpl.
  - rewrite app_nil_r. eauto.
  - replace (pre ++ x :: rest) with ((pre ++ [x]) ++ rest)
      by (now rewrite <- app_assoc).
    replace (S (List.length pre)) with (List.length (pre ++ [x]))
      by (rewrite length_app; simpl; lia).
    destruct (lt_masked best x) eqn:L.
    + apply IH.
      * rewrite nth_error_app2 by lia. now rewrite Nat.sub_diag.
      * intros y Hy. apply in_app_or in Hy. destruct Hy as [Hy|[<-|[]]].
        -- apply masked_le_trans with best; [auto|now apply lt_masked_true].
        -- apply masked_le_refl.
    + apply IH.
      * rewrite nth_error_app1; [assumption|].
        apply nth_error_Some. congruence.
      * intros y Hy. apply in_app_or in Hy. destruct Hy as [Hy|[<-|[]]]; auto.
        now apply lt_masked_false.
Qed.

Lemma combine_In_l {A B} (a : A) (l : list A) (l' : list B) :
  In a l -> (List.length l <= List.length l')%nat ->
  exists b, In (a, b) (combine l l').
Proof.
  revert l'. induction l as [|x l IH]; intros [|y l'] Ha Hl; simpl in *;
    try tauto; try lia.
  destruct Ha as [->|Ha]; [exists y; now left|].
  destruct (IH l' Ha ltac:(lia)) as [b Hb]. exists b. now right.
Qed.

Lemma combine_nth_l {A B} (k : nat) (a : A) (b : B) (l : list A) (l' : list B) :
  nth_error (combine l l') k = Some (a, b) -> nth_error l k = Some a.
Proof.
  revert l l'. induction k as [|k IH]; intros [|x l] [|y l']; simpl;
    try discriminate.
  - intros H. now inversion H.
  - apply IH.
Qed.

(** One slot: with a digit in the alphabet, the character decoded is a
    digit of the alphabet, whatever the scores. *)
Lemma decode_slot_digit (model_alphabet : str) (row : list Q) :
  (exists d, In d model_alphabet /\ isdig d = true) ->
  List.length row = List.length model_alphabet ->
  exists c, decode_slot isdigit_nonascii model_alphabet row = Ok c
            /\ In c model_alphabet /\ isdig c = true.
Proof.
  intros (d & Hd & Dd) L. unfold decode_slot.
  destruct (combine_In_l d model_alphabet row Hd ltac:(lia)) as [p Hp].
  assert (S : In (Some p) (mask_row isdigit_nonascii model_alphabet row)).
  { unfold mask_row. apply in_map_iff. exists (d, p). simpl.
    now rewrite Dd. }
  destruct (mask_row isdigit_nonascii model_alphabet row) as [|x masked] eqn:M;
    [destruct S|].
  cbn [argmax bind].
  destruct (masked_argmax_from_spec masked [x] 0 x eq_refl) as (m & Hm & Hall).
  { intros y [<-|[]]. apply masked_le_refl. }
  cbn [List.length app] in Hm, Hall.
  destruct m as [q|]; [|exact (False_ind _ (Hall _ S))].
  rewrite <- M in Hm. unfold mask_row in Hm. rewrite nth_error_map in Hm.
  destruct (nth_error (combine model_alphabet row) (argmax_from 0 x 1 masked))
    as [[c q']|] eqn:N; [|discriminate].
  cbn in Hm. destruct (isdig c) eqn:Dc; [|discriminate].
  apply combine_nth_l in N. exists c. unfold alphabet_at. rewrite N.
  repeat split; [|assumption]. eapply nth_error_In; eassumption.
Qed.

Lemma for_each_Forall2 {A B} (f : A -> result B) (P : A -> B -> Prop)
    (l : list A) :
  (forall a, In a l -> exists b, f a = Ok b /\ P a b) ->
  exists bs, for_each f l = Ok bs /\ Forall2 P l bs.
Proof.
  induction l as [|a l IH]; intros H; simpl.
  - exists []. split; [reflexivity|constructor].
  - destruct (H a (or_introl eq_refl)) as (b & -> & Pb).
    destruct (IH (fun x Hx => H x (or_intror Hx))) as (bs & -> & Pbs).
    exists (b :: bs). split; [reflexivity|now constructor].
Qed.

(** The decoding of every slot of every plate. *)
Lemma numeric_only_plates
    (predictions : list (list (list Q))) (max_plate_slots : nat)
    (model_alphabet : str) :
  (exists d, In d model_alphabet /\ isdig d = true) ->
  predictions <> [] ->
  well_shaped predictions max_plate_slots model_alphabet ->
  exists plates,
    _postprocess_output_numeric_only isdigit_nonascii predictions model_alphabet
      = Ok plates
    /\ List.length plates = List.length predictions
    /\ Forall (fun plate =>
                 len plate = max_plate_slots
                 /\ Forall (fun c => In c model_alphabet /\ isdig c = true)
                           plate) plates.
Proof.
  intros D NE W. unfold _postprocess_output_numeric_only.
  destruct predictions as [|p0 ps]; [congruence|].
  set (predictions := p0 :: ps) in *.
  destruct (for_each_Forall2
              (for_each (decode_slot isdigit_nonascii model_alphabet))
              (fun plate out =>
                 List.length out = List.length plate
                 /\ Forall (fun c => In c model_alphabet /\ isdig c = true) out)
              predictions) as (plates & E & F).
  { intros plate Hp. unfold well_shaped in W. rewrite Forall_forall in W.
    destruct (W plate Hp) as [_ R]. rewrite Forall_forall in R.
    destruct (for_each_Forall2 (decode_slot isdigit_nonascii model_alphabet)
                (fun _ c => In c model_alphabet /\ isdig c = true) plate)
      as (out & Eo & Fo).
    { intros row Hr. apply decode_slot_digit; auto. }
    exists out. split; [exact Eo|]. split.
    - symmetry. eapply Forall2_length; eassumption.
    - clear -Fo. induction Fo; constructor; auto. }
  exists plates. split; [exact E|]. split.
  - symmetry. eapply Forall2_length; eassumption.
  - unfold well_shaped in W. clearbody predictions. clear -F W.
    induction F as [|plate out rest outs [L Fo] _ IH]; [constructor|].
    inversion W as [|? ? [Ls _] W']; subst. constructor; [|now apply IH].
    split; [unfold len; lia|exact Fo].
Qed.

(** X4.  When the alphabet holds at least one digit, the numeric-only
    decoding never raises on well-shaped scores and returns one string per
    plate, of exactly [max_plate_slots] characters, each of them a digit of
    the alphabet: no letter and no pad character can come out, however
    high it scores. *)
Theorem X4_numeric_only_output
    (predictions : list (list (list Q))) (max_plate_slots : nat)
    (model_alphabet : str) :
  (exists d, In d model_alphabet /\ isdig d = true) ->
  predictions <> [] ->
  well_shaped predictions max_plate_slots model_alphabet ->
  exists plates,
    _postprocess_output_numeric_only isdigit_nonascii predictions model_alphabet
      = Ok plates
    /\ List.length plates = List.length predictions
    /\ Forall (fun plate =>
                 len plate = max_plate_slots
                 /\ Forall (fun c => In c model_alphabet /\ isdig c = true)
                           plate) plates.
Proof. apply numeric_only_plates. Qed.

End RecogniserFacts.

(** X4 on an alphabet of two digits and the pad character: the pad scores
    highest in both slots, and the plate read is "10". *)
Lemma X4_numeric_only_output_witness :
  exists plates,
    NumericOnlyONNXPlateRecognizer._postprocess_output_numeric_only
      isdigit_ascii_only sample_predictions sample_alphabet = Py.Ok plates
    /\ List.length plates = List.length sample_predictions
    /\ Forall (fun plate =>
                 Py.len plate = 2%nat
                 /\ Forall (fun c =>
                              In c sample_alphabet
                              /\ NumericOnlyONNXPlateRecognizer.isdigit
                                   isdigit_ascii_only c = true) plate) plates.
Proof.
  apply (X4_numeric_only_output isdigit_ascii_only sample_predictions 2
           sample_alphabet).
  - exists 48%N. split; [now left|reflexivity].
  - discriminate.
  - repeat constructor.
Defined.

Example numeric_only_reads_10 :
  NumericOnlyONNXPlateRecognizer._postprocess_output_numeric_only
    isdigit_ascii_only sample_predictions sample_alphabet
  = Py.Ok [Py.lit "10"].
Proof. reflexivity. Qed.

(** ** Digits through the validators *)

Section DigitFacts.

Import Py.

Lemma digit_char (c : char) :
  is_digit c = true ->
  is_space c = false /\ char_eqb c 95%N = false /\ is_alnum c = true
  /\ SimpleOCRWorker.sep_class c = false /\ (c < 128)%N
  /\ is_ascii_lower c = false /\ is_ascii_upper c = false.
Proof.
  intros H.
  assert (R : (48 <= c <= 57)%N).
  { unfold is_digit in H. apply andb_true_iff in H.
    destruct H as [H1 H2]. apply N.leb_le in H1, H2. lia. }
  assert (T : forall a b : N, (a <= b)%N -> (a <=? b)%N = true)
    by (intros; now apply N.leb_le).
  assert (F : forall a b : N, (b < a)%N -> (a <=? b)%N = false)
    by (intros; now apply N.leb_gt).
  assert (E : forall a b : N, a <> b -> (a =? b)%N = false)
    by (intros; now apply N.eqb_neq).
  unfold is_space, char_eqb, is_alnum, is_digit, is_ascii_lower,
    is_ascii_upper, SimpleOCRWorker.sep_class.
  rewrite (T 9%N c), (F c 13%N), (T 28%N c), (F c 32%N), (F 97%N c),
    (F 65%N c), (T 48%N c), (T c 57%N), (F 8192%N c), (T c 8202%N),
    (T c 122%N), (T c 90%N) by lia.
  rewrite !(E c) by lia. cbn. repeat split; lia.
Qed.

Lemma remove_char_id (x : char) (s : str) :
  Forall (fun c => char_eqb c x = false) s -> remove_char x s = s.
Proof.
  unfold remove_char. induction 1 as [|c s Hc _ IH]; simpl; [reflexivity|].
  now rewrite Hc, IH.
Qed.

Lemma strip_id (a b : char) (s : str) :
  is_space a = false -> is_space b = false ->
  strip (a :: s ++ [b]) = a :: s ++ [b].
Proof.
  intros Ha Hb. unfold strip. cbn [lstrip]. rewrite Ha.
  change (a :: s ++ [b]) with ((a :: s) ++ [b]).
  rewrite rev_app_distr. cbn [rev app lstrip]. rewrite Hb.
  change (b :: rev s ++ [a]) with ([b] ++ rev (a :: s)).
  rewrite rev_app_distr, rev_involutive. reflexivity.
Qed.

Lemma strip_single (a : char) : is_space a = false -> strip [a] = [a].
Proof. intros Ha. unfold strip. cbn. rewrite Ha. cbn. now rewrite Ha. Qed.

(** A string of digits goes through the cleaning of the fast-plate
    validator unchanged. *)
Lemma digits_clean (s : str) :
  Forall (fun c => is_digit c = true) s ->
  FastPlateOCRWorker.clean_text s = s /\ FastPlateOCRWorker.numeric_only s = s.
Proof.
  intros D.
  assert (C : FastPlateOCRWorker.clean_text s = s).
  { unfold FastPlateOCRWorker.clean_text.
    rewrite remove_char_id
      by (eapply Forall_impl; [|exact D]; intros c Hc; now apply digit_char).
    destruct s as [|a s]; [reflexivity|].
    destruct (exists_last (l := a :: s) ltac:(discriminate)) as (s' & b & E).
    destruct s' as [|a' s'].
    - cbn in E. injection E as -> ->. apply strip_single.
      inversion D; subst. now apply digit_char.
    - rewrite E in *. cbn in E. cbn [app].
      assert (Hb : is_digit b = true).
      { rewrite Forall_forall in D. apply D. cbn. right.
        apply in_or_app. right. now left. }
      inversion D; subst.
      apply strip_id; now apply digit_char. }
  split; [exact C|]. unfold FastPlateOCRWorker.numeric_only. rewrite C.
  unfold re_sub_non_digits. apply forallb_filter_id.
  apply forallb_forall. rewrite Forall_forall in D. exact D.
Qed.

End DigitFacts.

(** X5.  A string of digits, as the numeric-only recogniser returns them,
    loses nothing in cleaning, so the fast-plate validator decides on its
    length alone: it returns [None] exactly when the number of slots is not
    7, 8 or 9, and for 9 slots it always returns the two-candidate text. *)
Theorem X5_digit_plate_validated_by_length (plate : Py.str) :
  Forall (fun c => Py.is_digit c = true) plate ->
  FastPlateOCRWorker.numeric_only plate = plate
  /\ (FastPlateOCRWorker._validate_and_format_plate plate = None
      <-> ~ (7 <= Py.len plate <= 9)%nat)
  /\ (Py.len plate = 9%nat ->
      FastPlateOCRWorker._validate_and_format_plate plate
      = Some (layout_nnn_nn_nnn (drop_first plate) ++ Py.lit " or "
              ++ layout_nnn_nn_nnn (drop_last plate))).
Proof.
  intros D. destruct (digits_clean plate D) as [C N].
  split; [exact N|]. split; [split|].
  - intros H R. rewrite fast_validate_in_range in H by (rewrite N; exact R).
    rewrite N in H.
    assert (L : (Py.len plate = 7 \/ Py.len plate = 8 \/ Py.len plate = 9)%nat)
      by lia.
    destruct L as [L|[L|L]].
    + rewrite (fast_rules_7 _ _ L) in H. discriminate.
    + rewrite (fast_rules_8 _ _ L) in H. discriminate.
    + rewrite (fast_rules_9 _ _ L) in H. discriminate.
  - intros R. apply fast_validate_out_of_range. now rewrite N.
  - intros L. rewrite fast_validate_in_range by (rewrite N; lia).
    rewrite N. now apply fast_rules_9.
Qed.

(** X5 on nine digits. *)
Lemma X5_digit_plate_validated_by_length_witness :
  FastPlateOCRWorker.numeric_only (Py.lit "123456789") = Py.lit "123456789"
  /\ FastPlateOCRWorker._validate_and_format_plate (Py.lit "123456789")
     = Some (Py.lit "234-56-789 or 123-45-678").
Proof.
  pose proof (X5_digit_plate_validated_by_length (Py.lit "123456789")
                ltac:(repeat constructor)) as (N & _ & H).
  split; [exact N|exact (H eq_refl)].
Defined.

(** X6.  The recogniser followed by the validator, for an ASCII alphabet
    that holds a digit: every plate the numeric-only decoding returns is
    its own digit string, and the validator accepts it exactly when the
    model has 7, 8 or 9 slots; the scores play no part in that. *)
Theorem X6_numeric_only_then_validate
    (isdigit_nonascii : Py.char -> bool)
    (predictions : list (list (list Q))) (max_plate_slots : nat)
    (model_alphabet : Py.str) :
  (exists d, In d model_alphabet
             /\ NumericOnlyONNXPlateRecognizer.isdigit isdigit_nonascii d = true) ->
  Forall (fun c => (c < 128)%N) model_alphabet ->
  predictions <> [] ->
  NumericOnlyONNXPlateRecognizer.well_shaped predictions max_plate_slots
    model_alphabet ->
  exists plates,
    NumericOnlyONNXPlateRecognizer._postprocess_output_numeric_only
      isdigit_nonascii predictions model_alphabet = Py.Ok plates
    /\ Forall (fun plate =>
                 FastPlateOCRWorker.numeric_only plate = plate
                 /\ Py.len plate = max_plate_slots
                 /\ (FastPlateOCRWorker._validate_and_format_plate plate = None
                     <-> ~ (7 <= max_plate_slots <= 9)%nat)) plates.
Proof.
  intros D A NE W.
  destruct (numeric_only_plates isdigit_nonascii predictions max_plate_slots
              model_alphabet D NE W) as (plates & E & _ & F).
  exists plates. split; [exact E|].
  eapply Forall_impl; [|exact F]. intros plate [L Fc].
  assert (Dg : Forall (fun c => Py.is_digit c = true) plate).
  { eapply Forall_impl; [|exact Fc]. intros c [Hc Hd].
    rewrite Forall_forall in A. specialize (A c Hc).
    unfold NumericOnlyONNXPlateRecognizer.isdigit in Hd.
    apply N.ltb_lt in A. now rewrite A in Hd. }
  destruct (digits_clean plate Dg) as [C N].
  split; [exact N|]. split; [exact L|]. rewrite <- L. split.
  - intros H R. rewrite fast_validate_in_range in H by (rewrite N; exact R).
    rewrite N in H.
    assert (K : (Py.len plate = 7 \/ Py.len plate = 8 \/ Py.len plate = 9)%nat)
      by lia.
    destruct K as [K|[K|K]].
    + rewrite (fast_rules_7 _ _ K) in H. discriminate.
    + rewrite (fast_rules_8 _ _ K) in H. discriminate.
    + rewrite (fast_rules_9 _ _ K) in H. discriminate.
  - intros R. apply fast_validate_out_of_range. now rewrite N.
Qed.

(** X6 on the two-slot sample: the plate "10" is rejected. *)
Lemma X6_numeric_only_then_validate_witness :
  exists plates,
    NumericOnlyONNXPlateRecognizer._postprocess_output_numeric_only
      isdigit_ascii_only sample_predictions sample_alphabet = Py.Ok plates
    /\ Forall (fun plate =>
                 FastPlateOCRWorker.numeric_only plate = plate
                 /\ Py.len plate = 2%nat
                 /\ (FastPlateOCRWorker._validate_and_format_plate plate = None
                     <-> ~ (7 <= 2 <= 9)%nat)) plates.
Proof.
  apply (X6_numeric_only_then_validate isdigit_ascii_only sample_predictions 2
           sample_alphabet).
  - exists 48%N. split; [now left|reflexivity].
  - unfold sample_alphabet. repeat constructor.
  - discriminate.
  - repeat constructor.
Defined.

(** ** Feeding a result back to the validators *)

Section Revalidation.

Import Py.

Lemma clean_between_digits (a b : char) (mid : str) :
  is_digit a = true -> is_digit b = true ->
  Forall (fun c => char_eqb c 95%N = false) mid ->
  FastPlateOCRWorker.clean_text (a :: mid ++ [b]) = a :: mid ++ [b].
Proof.
  intros Ha Hb Hm. unfold FastPlateOCRWorker.clean_text.
  rewrite remove_char_id.
  - apply strip_id; now apply digit_char.
  - constructor; [now apply digit_char|].
    apply Forall_app. split; [exact Hm|].
    constructor; [now apply digit_char|constructor].
Qed.

Ltac no_underscore :=
  repeat (constructor;
          [first [reflexivity | now apply digit_char]|]);
  try constructor.

Lemma filter_keep {A} (f : A -> bool) (a : A) (l : list A) :
  f a = true -> filter f (a :: l) = a :: filter f l.
Proof. intros H. simpl. now rewrite H. Qed.

Lemma filter_drop {A} (f : A -> bool) (a : A) (l : list A) :
  f a = false -> filter f (a :: l) = filter f l.
Proof. intros H. simpl. now rewrite H. Qed.

Ltac filter_digits :=
  unfold re_sub_non_digits;
  repeat first [ rewrite filter_keep by assumption
               | rewrite filter_drop by reflexivity ];
  change (filter is_digit []) with (@nil char).

Lemma fast_revalidate_7 (numeric : str) :
  Forall (fun c => is_digit c = true) numeric -> len numeric = 7%nat ->
  FastPlateOCRWorker._validate_and_format_plate (layout_nn_nnn_nn numeric)
  = Some (layout_nn_nnn_nn numeric).
Proof.
  intros D L. destruct_len L. all_digits D. cbn [layout_nn_nnn_nn].
  match goal with
  | |- FastPlateOCRWorker._validate_and_format_plate
         [?a; ?b; ?h1; ?c; ?d; ?e; ?h2; ?f; ?g] = _ =>
      assert (C : FastPlateOCRWorker.clean_text [a; b; h1; c; d; e; h2; f; g]
                  = [a; b; h1; c; d; e; h2; f; g])
        by (apply (clean_between_digits a g [b; h1; c; d; e; h2; f]);
            [assumption|assumption|no_underscore]);
      assert (N : FastPlateOCRWorker.numeric_only [a; b; h1; c; d; e; h2; f; g]
                  = [a; b; c; d; e; f; g])
        by (unfold FastPlateOCRWorker.numeric_only; rewrite C;
            filter_digits; reflexivity)
  end.
  rewrite fast_validate_in_range by (rewrite N; cbn; lia).
  rewrite N. reflexivity.
Qed.

Lemma fast_revalidate_8 (numeric : str) :
  Forall (fun c => is_digit c = true) numeric -> len numeric = 8%nat ->
  FastPlateOCRWorker._validate_and_format_plate (layout_nnn_nn_nnn numeric)
  = Some (layout_nnn_nn_nnn numeric).
Proof.
  intros D L. destruct_len L. all_digits D. cbn [layout_nnn_nn_nnn].
  match goal with
  | |- FastPlateOCRWorker._validate_and_format_plate
         [?a; ?b; ?c; ?h1; ?d; ?e; ?h2; ?f; ?g; ?h] = _ =>
      assert (C : FastPlateOCRWorker.clean_text
                    [a; b; c; h1; d; e; h2; f; g; h]
                  = [a; b; c; h1; d; e; h2; f; g; h])
        by (apply (clean_between_digits a h [b; c; h1; d; e; h2; f; g]);
            [assumption|assumption|no_underscore]);
      assert (N : FastPlateOCRWorker.numeric_only
                    [a; b; c; h1; d; e; h2; f; g; h]
                  = [a; b; c; d; e; f; g; h])
        by (unfold FastPlateOCRWorker.numeric_only; rewrite C;
            filter_digits; reflexivity)
  end.
  rewrite fast_validate_in_range by (rewrite N; cbn; lia).
  rewrite N. reflexivity.
Qed.

Lemma fast_revalidate_9 (numeric : str) :
  Forall (fun c => is_digit c = true) numeric -> len numeric = 9%nat ->
  FastPlateOCRWorker._validate_and_format_plate
    (layout_nnn_nn_nnn (drop_first numeric) ++ lit " or "
     ++ layout_nnn_nn_nnn (drop_last numeric)) = None.
Proof.
  intros D L. destruct_len L. all_digits D.
  cbn [layout_nnn_nn_nnn drop_first drop_last tl removelast app].
  change (lit " or ") with [32%N; 111%N; 114%N; 32%N]. cbn [app].
  apply fast_validate_out_of_range.
  match goal with
  | |- ~ (7 <= len (FastPlateOCRWorker.numeric_only (?a :: ?rest)) <= 9)%nat =>
      let mid := eval cbn in (removelast rest) in
      let b := eval cbn in (last rest 0%N) in
      assert (C : FastPlateOCRWorker.clean_text (a :: rest) = a :: rest)
        by (apply (clean_between_digits a b mid);
            [assumption|assumption|no_underscore])
  end.
  unfold FastPlateOCRWorker.numeric_only. rewrite C. filter_digits.
  cbn. lia.
Qed.

End Revalidation.

(** X7.  The fast-plate validator is idempotent on its single-layout
    results: a text formatted from 7 or 8 digits validates to itself.  The
    two-candidate text it makes from 9 digits holds 16 digits and is
    rejected when fed back. *)
Theorem X7_fast_revalidation (raw s : Py.str) :
  FastPlateOCRWorker._validate_and_format_plate raw = Some s ->
  (Py.len (FastPlateOCRWorker.numeric_only raw) <> 9%nat ->
   FastPlateOCRWorker._validate_and_format_plate s = Some s)
  /\ (Py.len (FastPlateOCRWorker.numeric_only raw) = 9%nat ->
      FastPlateOCRWorker._validate_and_format_plate s = None).
Proof.
  intros H.
  pose proof (filter_digits_all (FastPlateOCRWorker.clean_text raw)) as D.
  fold (FastPlateOCRWorker.numeric_only raw) in D.
  set (numeric := FastPlateOCRWorker.numeric_only raw) in *.
  destruct (Nat.le_gt_cases 7 (Py.len numeric)) as [L7|L7];
    [|rewrite fast_validate_out_of_range in H by (fold numeric; lia);
      discriminate].
  destruct (Nat.le_gt_cases (Py.len numeric) 9) as [L9|L9];
    [|rewrite fast_validate_out_of_range in H by (fold numeric; lia);
      discriminate].
  rewrite fast_validate_in_range in H by (fold numeric; lia).
  fold numeric in H.
  assert (C : (Py.len numeric = 7 \/ Py.len numeric = 8
               \/ Py.len numeric = 9)%nat) by lia.
  destruct C as [L|[L|L]].
  - rewrite (fast_rules_7 _ _ L) in H. injection H as <-.
    split; [intros _; now apply fast_revalidate_7|lia].
  - rewrite (fast_rules_8 _ _ L) in H. injection H as <-.
    split; [intros _; now apply fast_revalidate_8|lia].
  - rewrite (fast_rules_9 _ _ L) in H. injection H as <-.
    split; [lia|intros _; now apply fast_revalidate_9].
Qed.

(** X7 on "12345678" and on "123456789". *)
Lemma X7_fast_revalidation_witness :
  FastPlateOCRWorker._validate_and_format_plate (Py.lit "123-45-678")
    = Some (Py.lit "123-45-678")
  /\ FastPlateOCRWorker._validate_and_format_plate
       (Py.lit "234-56-789 or 123-45-678") = None.
Proof.
  split.
  - apply (proj1 (X7_fast_revalidation (Py.lit "12345678")
                    (Py.lit "123-45-678") eq_refl)).
    vm_compute; discriminate.
  - exact (proj2 (X7_fast_revalidation (Py.lit "123456789")
                    (Py.lit "234-56-789 or 123-45-678") eq_refl)
             eq_refl).
Defined.

(** X8.  [_apply_numeric_format_rules] gives the same text as the rules
    of the validator for 7 and for 8 digits; for any other length,
    9 included, it returns its argument unchanged where the validator
    returns [None] or two candidates. *)
Theorem X8_apply_numeric_format_rules (raw numeric : Py.str) :
  ((Py.len numeric = 7 \/ Py.len numeric = 8)%nat ->
   Some (FastPlateOCRWorker._apply_numeric_format_rules numeric)
   = FastPlateOCRWorker._validate_and_format_plate_by_rules raw numeric)
  /\ ((Py.len numeric <> 7 /\ Py.len numeric <> 8)%nat ->
      FastPlateOCRWorker._apply_numeric_format_rules numeric = numeric).
Proof.
  split.
  - intros [L|L]; destruct_len L; reflexivity.
  - intros [H7 H8]. unfold FastPlateOCRWorker._apply_numeric_format_rules.
    cbv zeta.
    destruct (Nat.eqb_spec (Py.len numeric) 7); [contradiction|].
    destruct (Nat.eqb_spec (Py.len numeric) 8); [contradiction|]. reflexivity.
Qed.

(** X8 on seven and on nine digits. *)
Lemma X8_apply_numeric_format_rules_witness :
  Some (FastPlateOCRWorker._apply_numeric_format_rules (Py.lit "1234567"))
    = FastPlateOCRWorker._validate_and_format_plate_by_rules
        (Py.lit "1234567") (Py.lit "1234567")
  /\ FastPlateOCRWorker._apply_numeric_format_rules (Py.lit "123456789")
     = Py.lit "123456789".
Proof.
  split.
  - exact (proj1 (X8_apply_numeric_format_rules (Py.lit "1234567")
                    (Py.lit "1234567")) (or_introl eq_refl)).
  - apply (proj2 (X8_apply_numeric_format_rules (Py.lit "123456789")
                    (Py.lit "123456789"))).
    split; vm_compute; discriminate.
Defined.

Section SimpleRevalidation.

Import Py.

Variable up : char -> str.

Local Notation "'mapped' c" :=
  (dict_get SimpleOCRWorker.char_map
     (SimpleOCRWorker.upper up c) (SimpleOCRWorker.upper up c))
  (at level 10, c at level 9).

Lemma mapped_digit (c : char) : is_digit c = true -> mapped c = [c].
Proof.
  intros H. destruct (digit_char c H) as (_ & _ & _ & _ & A & Lo & Up).
  now apply mapped_non_letter.
Qed.

Lemma mapped_hyphen : mapped 45%N = [45%N].
Proof. reflexivity. Qed.

Lemma mapped_space : mapped 32%N = [32%N].
Proof. reflexivity. Qed.

Lemma mapped_o : mapped 111%N = [48%N].
Proof. reflexivity. Qed.

Lemma mapped_r : mapped 114%N = [82%N].
Proof. reflexivity. Qed.

Lemma corrected_cons (c : char) (s : str) :
  SimpleOCRWorker.corrected_raw_text up (c :: s)
  = mapped c ++ SimpleOCRWorker.corrected_raw_text up s.
Proof. reflexivity. Qed.

Ltac correct_text :=
  repeat (rewrite corrected_cons;
          first [ rewrite mapped_digit by assumption
                | rewrite mapped_hyphen | rewrite mapped_space
                | rewrite mapped_o | rewrite mapped_r ]);
  change (SimpleOCRWorker.corrected_raw_text up []) with (@nil char);
  cbn [app].

Ltac keep_digits :=
  unfold re_sub_non_digits;
  repeat first [ rewrite filter_keep by assumption
               | rewrite filter_keep by reflexivity
               | rewrite filter_drop by reflexivity ];
  change (filter is_digit []) with (@nil char).

Ltac digit_facts :=
  repeat match goal with
         | H : is_digit ?x = true |- _ =>
             lazymatch goal with
             | _ : is_alnum x = true |- _ => fail
             | _ =>
                 let Ha := fresh "Ha" in
                 let Hp := fresh "Hp" in
                 pose proof (proj1 (proj2 (proj2 (digit_char x H)))) as Ha;
                 pose proof (proj1 (proj2 (proj2 (proj2 (digit_char x H)))))
                   as Hp
             end
         end.

Lemma alnum_hyphen : is_alnum 45%N = false.
Proof. reflexivity. Qed.

Lemma sep_hyphen : SimpleOCRWorker.sep_class 45%N = true.
Proof. reflexivity. Qed.

Ltac run_regex :=
  unfold Re.fullmatch, SimpleOCRWorker.nn_nnn_nn_raw_re,
    SimpleOCRWorker.n_nnnn_nn_raw_re;
  repeat (cbn [Re.match_prefix Re.times flat_map app existsb];
          repeat match goal with
                 | H : is_alnum ?x = true |- context [is_alnum ?x] => rewrite H
                 | H : SimpleOCRWorker.sep_class ?x = false
                   |- context [SimpleOCRWorker.sep_class ?x] => rewrite H
                 | |- context [is_alnum 45%N] => rewrite alnum_hyphen
                 | |- context [SimpleOCRWorker.sep_class 45%N] =>
                     rewrite sep_hyphen
                 end).

(** The hints on the two single layouts of seven digits. *)
Lemma hints_on_nn_nnn_nn (a b c d e f g : char) :
  is_digit a = true -> is_digit b = true -> is_digit c = true ->
  is_digit d = true -> is_digit e = true -> is_digit f = true ->
  is_digit g = true ->
  Re.fullmatch SimpleOCRWorker.nn_nnn_nn_raw_re
    [a; b; 45%N; c; d; e; 45%N; f; g] = true
  /\ Re.fullmatch SimpleOCRWorker.n_nnnn_nn_raw_re
       [a; b; 45%N; c; d; e; 45%N; f; g] = false.
Proof.
  intros. digit_facts. split; run_regex; reflexivity.
Qed.

Lemma hints_on_n_nnnn_nn (a b c d e f g : char) :
  is_digit a = true -> is_digit b = true -> is_digit c = true ->
  is_digit d = true -> is_digit e = true -> is_digit f = true ->
  is_digit g = true ->
  Re.fullmatch SimpleOCRWorker.nn_nnn_nn_raw_re
    [a; 45%N; b; c; d; e; 45%N; f; g] = false
  /\ Re.fullmatch SimpleOCRWorker.n_nnnn_nn_raw_re
       [a; 45%N; b; c; d; e; 45%N; f; g] = true.
Proof.
  intros. digit_facts. split; run_regex; reflexivity.
Qed.

Lemma simple_revalidate_nn_nnn_nn (numeric : str) :
  Forall (fun c => is_digit c = true) numeric -> len numeric = 7%nat ->
  SimpleOCRWorker.validate_and_format up (layout_nn_nnn_nn numeric)
  = Some (layout_nn_nnn_nn numeric).
Proof.
  intros D L. destruct_len L. all_digits D. cbn [layout_nn_nnn_nn].
  unfold SimpleOCRWorker.validate_and_format, SimpleOCRWorker.numeric_text.
  correct_text. keep_digits.
  rewrite simple_rules_7 by reflexivity. cbv zeta.
  match goal with
  | |- context [Re.fullmatch _ [?a; ?b; _; ?c; ?d; ?e; _; ?f; ?g]] =>
      destruct (hints_on_nn_nnn_nn a b c d e f g) as [E1 E2]; try assumption;
      unfold char in *; rewrite E1, E2
  end.
  reflexivity.
Qed.

Lemma simple_revalidate_n_nnnn_nn (numeric : str) :
  Forall (fun c => is_digit c = true) numeric -> len numeric = 7%nat ->
  SimpleOCRWorker.validate_and_format up (layout_n_nnnn_nn numeric)
  = Some (layout_n_nnnn_nn numeric).
Proof.
  intros D L. destruct_len L. all_digits D. cbn [layout_n_nnnn_nn].
  unfold SimpleOCRWorker.validate_and_format, SimpleOCRWorker.numeric_text.
  correct_text. keep_digits.
  rewrite simple_rules_7 by reflexivity. cbv zeta.
  match goal with
  | |- context [Re.fullmatch _ [?a; _; ?b; ?c; ?d; ?e; _; ?f; ?g]] =>
      destruct (hints_on_n_nnnn_nn a b c d e f g) as [E1 E2]; try assumption;
      unfold char in *; rewrite E1, E2
  end.
  reflexivity.
Qed.

Lemma simple_revalidate_nnn_nn_nnn (numeric : str) :
  Forall (fun c => is_digit c = true) numeric -> len numeric = 8%nat ->
  SimpleOCRWorker.validate_and_format up (layout_nnn_nn_nnn numeric)
  = Some (layout_nnn_nn_nnn numeric).
Proof.
  intros D L. destruct_len L. all_digits D. cbn [layout_nnn_nn_nnn].
  unfold SimpleOCRWorker.validate_and_format, SimpleOCRWorker.numeric_text.
  correct_text. keep_digits.
  rewrite simple_rules_8 by reflexivity. reflexivity.
Qed.

Lemma simple_revalidate_both (numeric : str) :
  Forall (fun c => is_digit c = true) numeric -> len numeric = 7%nat ->
  SimpleOCRWorker.validate_and_format up
    (layout_nn_nnn_nn numeric ++ lit " or " ++ layout_n_nnnn_nn numeric)
  = None.
Proof.
  intros D L. destruct_len L. all_digits D.
  cbn [layout_nn_nnn_nn layout_n_nnnn_nn].
  change (lit " or ") with [32%N; 111%N; 114%N; 32%N]. cbn [app].
  unfold SimpleOCRWorker.validate_and_format, SimpleOCRWorker.numeric_text.
  correct_text. keep_digits.
  apply simple_rules_other; cbn; lia.
Qed.

End SimpleRevalidation.

(** X9.  The validator of [python_yolo.py] is idempotent on its
    single-layout results: a text it returned in the layout NN-NNN-NN,
    N-NNNN-NN or NNN-NN-NNN validates to itself (the hyphens it put in
    are the hint that selects the same layout again).  The two-candidate
    text "A or B" is rejected when fed back: its letter o is read as a
    zero, which makes fifteen digits. *)
Theorem X9_simple_revalidation (up : Py.char -> Py.str) (raw s : Py.str) :
  SimpleOCRWorker.validate_and_format up raw = Some s ->
  let numeric := SimpleOCRWorker.numeric_text up raw in
  let both := layout_nn_nnn_nn numeric ++ Py.lit " or "
              ++ layout_n_nnnn_nn numeric in
  (s = both -> SimpleOCRWorker.validate_and_format up s = None)
  /\ (s <> both -> SimpleOCRWorker.validate_and_format up s = Some s).
Proof.
  intros H. cbv zeta.
  pose proof (numeric_text_digits up raw) as D.
  destruct (simple_validate_cases up raw) as [(_ & _ & E)|[(L & E)|(L & E)]];
    cbv zeta in *.
  - congruence.
  - split.
    + intros ->. now apply simple_revalidate_both.
    + intros NB. destruct E as [E|[E|E]]; rewrite E in H; injection H as <-.
      * now apply simple_revalidate_nn_nnn_nn.
      * now apply simple_revalidate_n_nnnn_nn.
      * contradiction.
  - rewrite E in H. injection H as <-. split.
    + intros B. exfalso. destruct_len L. discriminate B.
    + intros _. now apply simple_revalidate_nnn_nn_nnn.
Qed.

(** X9 on "12-345-67" and on the two-candidate text of "1234567". *)
Lemma X9_simple_revalidation_witness :
  SimpleOCRWorker.validate_and_format upper_identity (Py.lit "12-345-67")
    = Some (Py.lit "12-345-67")
  /\ SimpleOCRWorker.validate_and_format upper_identity
       (Py.lit "12-345-67 or 1-2345-67") = None.
Proof.
  split.
  - apply (proj2 (X9_simple_revalidation upper_identity (Py.lit "12-345-67")
                    (Py.lit "12-345-67") eq_refl)).
    vm_compute. discriminate.
  - apply (proj1 (X9_simple_revalidation upper_identity (Py.lit "1234567")
                    (Py.lit "12-345-67 or 1-2345-67") eq_refl)).
    reflexivity.
Defined.

(** ** What the normalisation reads as a digit *)

Section Reading.

Import Py.

Variable up : char -> str.

Lemma str_eqb_eq (s t : str) : str_eqb s t = true -> s = t.
Proof.
  revert t. induction s as [|a s IH]; intros [|b t]; simpl;
    try discriminate; [reflexivity|].
  intros H. apply andb_true_iff in H. destruct H as [E H].
  apply N.eqb_eq in E. subst. f_equal. now apply IH.
Qed.

Lemma below_128 (P : char -> bool) :
  forallb P (map N.of_nat (seq 0 128)) = true ->
  forall c, (c < 128)%N -> P c = true.
Proof.
  intros H c Hc. rewrite forallb_forall in H. apply H.
  apply in_map_iff. exists (N.to_nat c). split; [apply N2Nat.id|].
  apply in_seq. lia.
Qed.

Lemma digits_of_mapped (c : char) :
  (c < 128)%N ->
  re_sub_non_digits
    (dict_get SimpleOCRWorker.char_map
       (SimpleOCRWorker.upper up c) (SimpleOCRWorker.upper up c))
  = match digit_read c with Some d => [d] | None => [] end.
Proof.
  intros Hc. apply str_eqb_eq. revert c Hc.
  apply (below_128 (fun c =>
    str_eqb
      (re_sub_non_digits
         (dict_get SimpleOCRWorker.char_map
            (SimpleOCRWorker.upper up c) (SimpleOCRWorker.upper up c)))
      match digit_read c with Some d => [d] | None => [] end)).
  vm_compute. reflexivity.
Qed.

End Reading.

(** X10.  On ASCII text the digit string the validator of
    [python_yolo.py] works with is the text read character by character:
    each digit as itself, each of the letters O, I, L, S, B, Z, G, Q, A, E
    in either case as the digit 0, 1, 1, 5, 8, 2, 6, 0, 4, 3, and every
    other character dropped.  So a text is accepted exactly when it holds
    7 or 8 characters of these kinds, whatever else it holds. *)
Theorem X10_digits_read (up : Py.char -> Py.str) (raw : Py.str) :
  Forall (fun c => (c < 128)%N) raw ->
  SimpleOCRWorker.numeric_text up raw = digits_read raw
  /\ (SimpleOCRWorker.validate_and_format up raw = None
      <-> (Py.len (digits_read raw) <> 7 /\ Py.len (digits_read raw) <> 8)%nat).
Proof.
  intros A.
  assert (E : SimpleOCRWorker.numeric_text up raw = digits_read raw).
  { unfold SimpleOCRWorker.numeric_text, SimpleOCRWorker.corrected_raw_text,
      digits_read.
    induction A as [|c raw Hc _ IH]; [reflexivity|].
    cbn [map List.concat flat_map]. unfold Py.re_sub_non_digits in *.
    rewrite filter_app, IH. f_equal. now apply digits_of_mapped. }
  split; [exact E|]. rewrite <- E.
  unfold SimpleOCRWorker.validate_and_format. split.
  - intros H. split; intros L.
    + rewrite (simple_rules_7 _ _ L) in H. cbv zeta in H.
      repeat (destruct (_ && _) in H; try discriminate).
    + rewrite (simple_rules_8 _ _ L) in H. discriminate.
  - intros [H7 H8]. now apply simple_rules_other.
Qed.

(** X10 on "Bo1 s-E9a": read as "8015394", seven digits, hence accepted. *)
Lemma X10_digits_read_witness :
  SimpleOCRWorker.numeric_text upper_identity (Py.lit "Bo1 s-E9a")
    = Py.lit "8015394"
  /\ SimpleOCRWorker.validate_and_format upper_identity (Py.lit "Bo1 s-E9a")
     <> None.
Proof.
  pose proof (X10_digits_read upper_identity (Py.lit "Bo1 s-E9a")
                ltac:(repeat constructor)) as [E V].
  split; [exact E|].
  intros H. apply V in H. destruct H as [H _]. apply H. reflexivity.
Defined.

(** ** More on the background worker of [python_yolo.py] *)

Section WorkerMore.

Import Py Np SimpleOCRWorker.

Variable up : char -> str.
Variable trocr_decode : option image -> result str.
Variable easyocr_readtext : option image -> result (list (str * Q)).

Local Notation "'stepW'" := (step up trocr_decode easyocr_readtext).
Local Notation "'runW'" := (run up trocr_decode easyocr_readtext).
Local Notation "'ostep'" := (orderly_step up trocr_decode easyocr_readtext).
Local Notation "'orun'" := (orderly_run up trocr_decode easyocr_readtext).

Lemma set_nth_length {A} (i : nat) (x : A) (l : list A) :
  List.length (set_nth i x l) = List.length l.
Proof.
  revert i. induction l as [|y l IH]; intros [|i]; simpl; auto.
Qed.

(** After the stop flag is set: no thread is started, the flag stays,
    no thread comes to stand before the write, and the published result
    changes only by the write of a thread that stood there already. *)
Lemma step_after_stop (e : event) (w : world) :
  stop_event (self w) = true ->
  started (stepW e w) = started w
  /\ stop_event (self (stepW e w)) = true
  /\ (forall tid text,
        nth_error (threads (stepW e w)) tid = Some (Writing text) ->
        nth_error (threads w) tid = Some (Writing text))
  /\ (latest_result (self (stepW e w)) = latest_result (self w)
      \/ exists tid t,
           nth_error (threads w) tid = Some (Writing (Some t))
           /\ latest_result (self (stepW e w)) = t).
Proof.
  intros S.
  assert (L : latest_result (self (stepW e w)) = latest_result (self w)
              \/ exists tid t,
                   nth_error (threads w) tid = Some (Writing (Some t))
                   /\ latest_result (self (stepW e w)) = t).
  { destruct (step_writes up trocr_decode easyocr_readtext e w)
      as [E|(tid & t & _ & N & _ & E)]; [now left|right; eauto]. }
  destruct e as [crop| |tid].
  - cbn [step] in *. rewrite (request_dropped crop w (or_intror S)) in *. auto.
  - cbn [step] in *. repeat split; auto.
  - destruct (nth_error (threads w) tid) as [p|] eqn:N;
      [|cbn [step] in *; rewrite N in *; auto].
    rewrite (step_thread up trocr_decode easyocr_readtext tid p w N) in *.
    cbn [self threads]. unfold started. cbn [threads].
    rewrite set_nth_length.
    assert (Mv : stop_event
                   (fst (thread_step up trocr_decode easyocr_readtext p (self w)))
                 = true
                 /\ forall text,
                     snd (thread_step up trocr_decode easyocr_readtext p (self w))
                     <> Writing text).
    { destruct p as [| |text|text|]; cbn [thread_step].
      - unfold enter. destruct (current_task (self w)); rewrite ?S;
          split; try exact S; discriminate.
      - unfold read. destruct (ocr_engine_type (self w));
          split; try exact S; discriminate.
      - unfold stop_test. rewrite S. split; [exact S|discriminate].
      - split; [|discriminate]. unfold write_result.
        destruct text as [t|]; [destruct (truthy t)|]; exact S.
      - split; [exact S|discriminate]. }
    destruct Mv as [S' NW].
    split; [reflexivity|]. split; [exact S'|]. split; [|exact L].
    intros tid' text H.
    destruct (Nat.eq_dec tid tid') as [<-|D].
    + rewrite (nth_error_set_nth_eq _ _ _ _ N) in H.
      injection H as H. now apply NW in H.
    + now rewrite nth_error_set_nth_neq in H.
Qed.

(** The same, for every schedule. *)
Lemma run_after_stop (schedule : list event) (w : world) :
  stop_event (self w) = true ->
  started (runW schedule w) = started w
  /\ stop_event (self (runW schedule w)) = true
  /\ (latest_result (self (runW schedule w)) = latest_result (self w)
      \/ exists tid t,
           nth_error (threads w) tid = Some (Writing (Some t))
           /\ latest_result (self (runW schedule w)) = t).
Proof.
  revert w. induction schedule as [|e schedule IH]; intros w S;
    [cbn; auto|].
  change (runW (e :: schedule) w) with (runW schedule (stepW e w)).
  destruct (step_after_stop e w S) as (T & S' & W & L).
  destruct (IH _ S') as (T' & S'' & L').
  split; [congruence|]. split; [exact S''|].
  destruct L' as [E|(tid & t & N & E)].
  - rewrite E. exact L.
  - right. exists tid, t. split; [now apply W|exact E].
Qed.

Lemma live_set_nth (i : nat) (p p' : pc) (l : list pc) :
  nth_error l i = Some p ->
  (List.length (filter is_live (set_nth i p' l))
   + (if is_live p then 1 else 0)
   = List.length (filter is_live l) + (if is_live p' then 1 else 0))%nat.
Proof.
  revert i. induction l as [|y l IH]; intros [|i] H; simpl in *;
    try discriminate.
  - injection H as ->. destruct (is_live p), (is_live p'); simpl; lia.
  - specialize (IH i H). destruct (is_live y); simpl; lia.
Qed.

Lemma orderly_step_single_flight (e : orderly_event) (w : world) :
  single_flight w -> single_flight (ostep e w).
Proof.
  intros J. pose proof J as [NE F]. destruct e as [crop| |tid]; simpl.
  - unfold request_and_enter. simpl. unfold process_latest.
    destruct (processing (self w)) eqn:P; simpl.
    + rewrite (proj2 (nth_error_None (threads w) (started w)))
        by (unfold started; lia).
      exact J.
    + destruct (stop_event (self w)) eqn:S; simpl.
      * rewrite (proj2 (nth_error_None (threads w) (started w)))
          by (unfold started; lia).
        exact J.
      * unfold started. rewrite nth_error_last. simpl. unfold enter. simpl.
        rewrite S. simpl. rewrite set_nth_last. split; simpl.
        -- apply Forall_app. split; [exact NE|].
           constructor; [discriminate|constructor].
        -- right. unfold in_flight in *. simpl.
           rewrite filter_app, length_app. simpl.
           destruct F as [F|[_ F]]; [|congruence]. split; [lia|reflexivity].
  - split; [exact NE|]. unfold in_flight in *. simpl. exact F.
  - destruct (nth_error (threads w) tid) as [p|] eqn:N; [|now split].
    assert (Hp : p <> Entry).
    { rewrite Forall_forall in NE. apply NE.
      eapply nth_error_In; eassumption. }
    destruct (thread_step up trocr_decode easyocr_readtext p (self w))
      as [s' p'] eqn:T.
    pose proof (live_set_nth tid p p' (threads w) N) as C.
    unfold in_flight in *. simpl.
    assert (Live : is_live p = true -> List.length (filter is_live (threads w)) = 1%nat
                                       /\ processing (self w) = true).
    { intros L. destruct F as [F|F]; [|exact F]. exfalso.
      apply nth_error_In in N.
      assert (In p (filter is_live (threads w))) by (apply filter_In; auto).
      destruct (filter is_live (threads w)); [contradiction|discriminate]. }
    split.
    + apply set_nth_Forall; [exact NE|].
      destruct p as [| |text|text|]; simpl in T; [congruence| | | |].
      * unfold read in T. destruct (ocr_engine_type (self w));
          inversion T; discriminate.
      * unfold stop_test in T. destruct (stop_event (self w));
          inversion T; discriminate.
      * inversion T. discriminate.
      * inversion T. discriminate.
    + unfold in_flight. cbn [threads self].
      destruct p as [| |text|text|]; simpl in T; [congruence| | | |].
      * destruct (Live eq_refl) as [L1 P1]. simpl in C.
        unfold read in T. destruct (ocr_engine_type (self w)); inversion T;
          subst; simpl in C.
        -- right. split; [lia|exact P1].
        -- right. split; [lia|exact P1].
        -- left. lia.
      * destruct (Live eq_refl) as [L1 P1]. simpl in C.
        unfold stop_test in T. destruct (stop_event (self w)); inversion T;
          subst; simpl in C.
        -- left. lia.
        -- right. split; [lia|exact P1].
      * destruct (Live eq_refl) as [L1 P1]. simpl in C.
        inversion T; subst. simpl in C. left. lia.
      * inversion T; subst. simpl in C.
        destruct F as [F|[F P1]]; [left; lia|right; split; [lia|exact P1]].
Qed.

Lemma boot_single_flight (ty : engine_type) : single_flight (boot ty).
Proof. split; [constructor|now left]. Qed.

Lemma orderly_run_single_flight (schedule : list orderly_event) (w : world) :
  single_flight w -> single_flight (orun schedule w).
Proof.
  revert w. induction schedule as [|e schedule IH]; intros w J; simpl.
  - exact J.
  - apply IH. now apply orderly_step_single_flight.
Qed.

End WorkerMore.

(** X11.  Once the stop flag of the OCR worker is set, whatever happens
    afterwards, in any order: no request starts a thread, the flag stays
    set, and [latest_result] changes only by the write of a task that had
    passed the stop test of line 56 before the flag was set and has its
    text to write.  When no task stands between line 56 and line 60 at
    that moment, [latest_result] never changes again. *)
Theorem X11_nothing_published_after_stop
    (up : Py.char -> Py.str)
    (decode : option Np.image -> Py.result Py.str)
    (readtext : option Np.image -> Py.result (list (Py.str * Q)))
    (schedule : list SimpleOCRWorker.event) (w : SimpleOCRWorker.world) :
  SimpleOCRWorker.stop_event (SimpleOCRWorker.self w) = true ->
  let w' := SimpleOCRWorker.run up decode readtext schedule w in
  let latest x := SimpleOCRWorker.get_latest_result (SimpleOCRWorker.self x) in
  SimpleOCRWorker.started w' = SimpleOCRWorker.started w
  /\ SimpleOCRWorker.stop_event (SimpleOCRWorker.self w') = true
  /\ (latest w' = latest w
      \/ exists tid t,
           nth_error (SimpleOCRWorker.threads w) tid
             = Some (SimpleOCRWorker.Writing (Some t))
           /\ latest w' = t)
  /\ ((forall tid t,
         nth_error (SimpleOCRWorker.threads w) tid
           <> Some (SimpleOCRWorker.Writing (Some t))) ->
      latest w' = latest w).
Proof.
  cbv zeta. intros S.
  destruct (run_after_stop up decode readtext schedule w S) as (T & S' & L).
  unfold SimpleOCRWorker.get_latest_result.
  split; [exact T|]. split; [exact S'|]. split; [exact L|].
  intros NW. destruct L as [E|(tid & t & N & _)]; [exact E|].
  now apply NW in N.
Qed.

(** X11 on a worker stopped while its task waits at the stop test with
    the text "12-345-67": the task's next steps, a new request and the
    steps of the thread it would have started leave the sentinel in
    place. *)
Lemma X11_nothing_published_after_stop_witness :
  nth_error (SimpleOCRWorker.threads sample_stopped_world) 0
    = Some (SimpleOCRWorker.Publishing (Some (Py.lit "12-345-67")))
  /\ SimpleOCRWorker.get_latest_result
       (SimpleOCRWorker.self
          (SimpleOCRWorker.run upper_identity sample_trocr_decode
             sample_easyocr_readtext
             [ SimpleOCRWorker.run_thread 0;
               SimpleOCRWorker.call_process_latest sample_crop;
               SimpleOCRWorker.run_thread 1;
               SimpleOCRWorker.run_thread 0 ]
             sample_stopped_world))
     = Py.lit "No plate detected"
  /\ SimpleOCRWorker.started
       (SimpleOCRWorker.run upper_identity sample_trocr_decode
          sample_easyocr_readtext
          [ SimpleOCRWorker.run_thread 0;
            SimpleOCRWorker.call_process_latest sample_crop;
            SimpleOCRWorker.run_thread 1;
            SimpleOCRWorker.run_thread 0 ]
          sample_stopped_world)
     = 1%nat.
Proof.
  split; [vm_compute; reflexivity|].
  pose proof (X11_nothing_published_after_stop upper_identity
                sample_trocr_decode sample_easyocr_readtext
                [ SimpleOCRWorker.run_thread 0;
                  SimpleOCRWorker.call_process_latest sample_crop;
                  SimpleOCRWorker.run_thread 1;
                  SimpleOCRWorker.run_thread 0 ]
                sample_stopped_world eq_refl) as (T & _ & _ & L).
  split; [|exact T].
  apply L. intros [|[|tid]] t; vm_compute; discriminate.
Defined.

(** A task that has passed the stop test when the flag is set does write
    afterwards: stopped one step later, the same worker publishes
    "12-345-67" after the stop. *)
Example write_after_stop :
  SimpleOCRWorker.stop_event (SimpleOCRWorker.self sample_late_stopped_world)
    = true
  /\ nth_error (SimpleOCRWorker.threads sample_late_stopped_world) 0
     = Some (SimpleOCRWorker.Writing (Some (Py.lit "12-345-67")))
  /\ SimpleOCRWorker.get_latest_result
       (SimpleOCRWorker.self sample_late_stopped_world)
     = Py.lit "No plate detected"
  /\ SimpleOCRWorker.get_latest_result
       (SimpleOCRWorker.self
          (SimpleOCRWorker.step upper_identity sample_trocr_decode
             sample_easyocr_readtext (SimpleOCRWorker.run_thread 0)
             sample_late_stopped_world))
     = Py.lit "12-345-67".
Proof. repeat split; vm_compute; reflexivity. Qed.

(** X12.  When every started thread runs its first lines (up to
    [self.processing = True]) before the next request, stop or thread step
    happens, at most one OCR task is in flight in every reachable state,
    whatever the order of the remaining steps; and while one is in
    flight every request is dropped without a trace. *)
Theorem X12_single_flight_when_threads_enter_at_once
    (up : Py.char -> Py.str)
    (decode : option Np.image -> Py.result Py.str)
    (readtext : option Np.image -> Py.result (list (Py.str * Q)))
    (ty : SimpleOCRWorker.engine_type)
    (schedule : list SimpleOCRWorker.orderly_event) :
  let w := SimpleOCRWorker.orderly_run up decode readtext schedule
             (SimpleOCRWorker.boot ty) in
  (SimpleOCRWorker.in_flight w <= 1)%nat
  /\ (SimpleOCRWorker.in_flight w = 1%nat ->
      forall crop, SimpleOCRWorker.process_latest crop w = w).
Proof.
  cbv zeta.
  destruct (orderly_run_single_flight up decode readtext schedule _
              (boot_single_flight ty)) as [_ F].
  split.
  - destruct F as [->|[-> _]]; lia.
  - intros One crop. apply request_dropped. left.
    destruct F as [F|[_ P]]; [congruence|exact P].
Qed.

Example orderly_second_request_dropped :
  forall up decode readtext crop1 crop2,
    let w := SimpleOCRWorker.orderly_run up decode readtext
               [SimpleOCRWorker.request crop1; SimpleOCRWorker.request crop2]
               (SimpleOCRWorker.boot SimpleOCRWorker.trocr) in
    SimpleOCRWorker.started w = 1%nat
    /\ SimpleOCRWorker.in_flight w = 1%nat
    /\ SimpleOCRWorker.current_task (SimpleOCRWorker.self w) = Some crop1.
Proof. intros. repeat split; reflexivity. Qed.

(** ** The synchronous OCR of the two workers *)

(** X13.  In the fast-plate worker a text returned by
    [process_synchronous_ocr] is always a result of the validator, and a
    background run on the same crop that is not stopped publishes exactly
    that text.  Unlike the background run, the synchronous call never
    returns the debug text or the sentinel. *)
Theorem X13_fast_sync_agrees_with_background
    (self : FastPlateOCRWorker.worker) (crop : Np.image) (t : Py.str) :
  FastPlateOCRWorker.process_synchronous_ocr self (Some crop) = Some t ->
  (exists raw_text,
      FastPlateOCRWorker._validate_and_format_plate raw_text = Some t)
  /\ (FastPlateOCRWorker.current_task self = Some crop ->
      FastPlateOCRWorker.stop_event self = false ->
      FastPlateOCRWorker.get_latest_result
        (FastPlateOCRWorker._process_ocr self) = t).
Proof.
  unfold FastPlateOCRWorker.process_synchronous_ocr.
  destruct (FastPlateOCRWorker.ocr_recognizer self) as [recognizer|] eqn:R;
    [|discriminate].
  destruct (Np.size crop =? 0); [discriminate|].
  destruct (recognizer crop) as [result|e] eqn:E; [|discriminate].
  destruct result as [|first rest]; [discriminate|]. cbv zeta.
  destruct (Py.truthy first) eqn:T; [|discriminate]. rewrite T.
  destruct (FastPlateOCRWorker._validate_and_format_plate first) as [f|] eqn:V;
    [|discriminate].
  cbn [Py.truthy_opt]. destruct (Py.truthy f) eqn:Tf; [|discriminate].
  intros H. injection H as <-. split; [now exists first|].
  intros C S. unfold FastPlateOCRWorker._process_ocr. rewrite C, R, S. cbn.
  rewrite S, E. cbn. unfold FastPlateOCRWorker.published. cbv zeta.
  rewrite T, T, V. cbn [Py.truthy_opt]. now rewrite Tf.
Qed.

(** X13 on a worker whose recogniser reads "12345678". *)
Lemma X13_fast_sync_agrees_with_background_witness :
  FastPlateOCRWorker.process_synchronous_ocr sample_fast_reader
    (Some sample_crop) = Some (Py.lit "123-45-678")
  /\ FastPlateOCRWorker.get_latest_result
       (FastPlateOCRWorker._process_ocr sample_fast_reader)
     = Py.lit "123-45-678".
Proof.
  split; [reflexivity|].
  exact (proj2 (X13_fast_sync_agrees_with_background sample_fast_reader
                  sample_crop (Py.lit "123-45-678") eq_refl)
           eq_refl eq_refl).
Defined.

(** X14.  A fast-plate worker whose model failed to load is silently
    inert: every request is dropped without starting a thread, the
    synchronous call returns [None], and a run of [_process_ocr] leaves
    [latest_result] as it was. *)
Theorem X14_fast_worker_without_model
    (self : FastPlateOCRWorker.worker) (crop : Np.image) :
  FastPlateOCRWorker.ocr_recognizer self = None ->
  FastPlateOCRWorker.process_latest crop self = (self, false)
  /\ FastPlateOCRWorker.process_synchronous_ocr self (Some crop) = None
  /\ FastPlateOCRWorker.get_latest_result (FastPlateOCRWorker._process_ocr self)
     = FastPlateOCRWorker.get_latest_result self
  /\ FastPlateOCRWorker.processing (FastPlateOCRWorker._process_ocr self) = false.
Proof.
  intros R. unfold FastPlateOCRWorker.process_latest,
    FastPlateOCRWorker.process_synchronous_ocr, FastPlateOCRWorker._process_ocr.
  rewrite R, andb_false_r.
  destruct (FastPlateOCRWorker.current_task self); repeat split.
Qed.

(** X14 on a worker made by [__init__] without a recogniser. *)
Lemma X14_fast_worker_without_model_witness :
  FastPlateOCRWorker.process_latest sample_crop (FastPlateOCRWorker.init None)
    = (FastPlateOCRWorker.init None, false)
  /\ FastPlateOCRWorker.process_synchronous_ocr (FastPlateOCRWorker.init None)
       (Some sample_crop) = None.
Proof.
  pose proof (X14_fast_worker_without_model (FastPlateOCRWorker.init None)
                sample_crop eq_refl) as (A & B & _).
  split; [exact A|exact B].
Defined.

(** ** The last-resort corners and the crop around a plate *)

(** X15.  The last-resort corners of the fast-plate rectifier (strategy
    3) leave a tenth of the width on each side and a fifth of the height
    above and below, rounded down; for every crop of at least one pixel
    each way they form a non-degenerate rectangle that is already in the
    order top-left, top-right, bottom-right, bottom-left, so the ordering
    step returns them unchanged.  The sizes are bounded by 2^24, below
    which the [float32] array the corners pass through holds every
    integer exactly. *)
Theorem X15_central_region_is_ordered (w_img h_img : Z) :
  1 <= w_img <= 16777216 ->
  1 <= h_img <= 16777216 ->
  FastPlateOCRWorker.central_region w_img h_img
    = [ (w_img / 10, h_img / 5);
        (w_img - w_img / 10, h_img / 5);
        (w_img - w_img / 10, h_img - h_img / 5);
        (w_img / 10, h_img - h_img / 5) ]
  /\ FastPlateOCRWorker.ordered_rect
       (FastPlateOCRWorker.central_region w_img h_img)
     = Py.Ok (FastPlateOCRWorker.central_region w_img h_img)
  /\ w_img / 10 < w_img - w_img / 10
  /\ h_img / 5 < h_img - h_img / 5.
Proof.
  intros Hw Hh.
  assert (E : FastPlateOCRWorker.central_region w_img h_img
              = [ (w_img / 10, h_img / 5);
                  (w_img - w_img / 10, h_img / 5);
                  (w_img - w_img / 10, h_img - h_img / 5);
                  (w_img / 10, h_img - h_img / 5) ]).
  { unfold FastPlateOCRWorker.central_region. cbv zeta.
    assert (X : Py.int (inject_Z w_img * (1 # 10)) = w_img / 10).
    { unfold Py.int. simpl. rewrite Z.mul_1_r.
      apply Z.quot_div_nonneg; lia. }
    rewrite X.
    assert (Y : Py.int (inject_Z h_img * (2 # 10)) = h_img / 5).
    { unfold Py.int. simpl. rewrite Z.quot_div_nonneg by lia.
      replace (h_img * 2) with (2 * h_img) by lia.
      change 10 with (2 * 5). apply Z.div_mul_cancel_l; lia. }
    rewrite Y. reflexivity. }
  pose proof (Z.mul_div_le w_img 10 ltac:(lia)) as Bw.
  pose proof (Z.div_pos w_img 10 ltac:(lia) ltac:(lia)) as Pw.
  pose proof (Z.mul_div_le h_img 5 ltac:(lia)) as Bh.
  pose proof (Z.div_pos h_img 5 ltac:(lia) ltac:(lia)) as Ph.
  split; [exact E|]. split; [|lia].
  rewrite E. set (mx := w_img / 10) in *. set (my := h_img / 5) in *.
  set (pts := [(mx, my); (w_img - mx, my); (w_img - mx, h_img - my);
               (mx, h_img - my)]).
  change (FastPlateOCRWorker.ordered_rect pts)
    with (SimpleOCRWorker._order_points pts).
  destruct (order_points_rows pts ltac:(discriminate))
    as (tl & tr & br & bl & O & I0 & I1 & I2 & I3 & M0 & M2 & M1 & M3).
  assert (W : forall q, In q pts -> Np.wrap32 (snd q - fst q) = snd q - fst q).
  { intros q Hq. apply wrap32_small.
    unfold pts in Hq. simpl in Hq.
    destruct Hq as [<-|[<-|[<-|[<-|[]]]]]; simpl; lia. }
  assert (P1 : In (mx, my) pts) by (unfold pts; simpl; tauto).
  assert (P2 : In (w_img - mx, my) pts) by (unfold pts; simpl; tauto).
  assert (P3 : In (w_img - mx, h_img - my) pts) by (unfold pts; simpl; tauto).
  assert (P4 : In (mx, h_img - my) pts) by (unfold pts; simpl; tauto).
  pose proof (M0 _ P1) as A0. pose proof (M2 _ P3) as A2.
  pose proof (M1 _ P2) as A1. pose proof (M3 _ P4) as A3.
  rewrite (W _ I1), (W _ P2) in A1. rewrite (W _ I3), (W _ P4) in A3.
  rewrite O. do 2 f_equal.
  unfold pts in I0, I1, I2, I3. simpl in I0, I1, I2, I3, A0, A1, A2, A3.
  assert (T0 : tl = (mx, my))
    by (destruct I0 as [<-|[<-|[<-|[<-|[]]]]]; simpl in A0;
        first [reflexivity | exfalso; lia]).
  assert (T1 : tr = (w_img - mx, my))
    by (destruct I1 as [<-|[<-|[<-|[<-|[]]]]]; simpl in A1;
        first [reflexivity | exfalso; lia]).
  assert (T2 : br = (w_img - mx, h_img - my))
    by (destruct I2 as [<-|[<-|[<-|[<-|[]]]]]; simpl in A2;
        first [reflexivity | exfalso; lia]).
  assert (T3 : bl = (mx, h_img - my))
    by (destruct I3 as [<-|[<-|[<-|[<-|[]]]]]; simpl in A3;
        first [reflexivity | exfalso; lia]).
  now rewrite T0, T1, T2, T3.
Qed.

(** X15 on a crop 120 wide and 40 high: margins 12 and 8. *)
Lemma X15_central_region_is_ordered_witness :
  FastPlateOCRWorker.central_region 120 40
    = [(12, 8); (108, 8); (108, 32); (12, 32)]
  /\ FastPlateOCRWorker.ordered_rect (FastPlateOCRWorker.central_region 120 40)
     = Py.Ok (FastPlateOCRWorker.central_region 120 40).
Proof.
  pose proof (X15_central_region_is_ordered 120 40
                ltac:(lia) ltac:(lia)) as (E & O & _).
  split; [exact E|exact O].
Defined.

(** *** The crop around the best plate *)

Section Crop.

Import Py PyFloat.










End Crop.



(** ** The synchronous reader of the TrOCR/EasyOCR worker *)

Section SimpleSynchronous.

Import Py Np SimpleOCRWorker.

Variable up : char -> str.
Variable trocr_decode_sync : image -> result str.
Variable easyocr_readtext : option image -> result (list (str * Q)).

Lemma sync_validated (ty : engine_type) (crop : option image) (t : str) :
  process_synchronous_ocr up trocr_decode_sync easyocr_readtext ty crop = Some t ->
  validated up t.
Proof.
  unfold process_synchronous_ocr.
  destruct crop as [crop|]; [|discriminate].
  destruct (size crop =? 0); [discriminate|].
  destruct ty; [| |discriminate].
  - destruct (trocr_decode_sync crop) as [raw|e]; [|discriminate].
    intros H. now exists raw.
  - destruct (easyocr_readtext (Some crop)) as [[|r results]|e];
      try discriminate.
    intros H. now exists (List.concat (map fst (r :: results))).
Qed.

Lemma sync_easyocr_is_background_read (crop : image) :
  size crop <> 0 ->
  process_synchronous_ocr up trocr_decode_sync easyocr_readtext easyocr (Some crop)
  = fst (_read_license_plate_easyocr up easyocr_readtext (Some crop)).
Proof.
  intros S. unfold process_synchronous_ocr, _read_license_plate_easyocr.
  apply Z.eqb_neq in S. rewrite S.
  destruct (easyocr_readtext (Some crop)) as [[|r results]|e];
    try reflexivity.
  set (raw := List.concat (map fst (r :: results))).
  destruct (validate_and_format up raw) as [f|] eqn:E; [|reflexivity].
  destruct (simple_validate_starts_with_digit up raw f E) as (d & rest & -> & _).
  reflexivity.
Qed.

End SimpleSynchronous.

(** X17.  [process_synchronous_ocr] of the TrOCR/EasyOCR worker: with
    EasyOCR and a crop that is not empty it returns exactly the text the
    background reader [_read_license_plate_easyocr] returns for that crop
    (the background reader's extra test [if formatted_plate] never fails on
    a validator output); and with every engine and crop, a text it returns
    is a validator output: it starts with a digit and is not the sentinel
    "No plate detected". *)
Theorem X17_simple_sync_reads_what_background_reads
    (up : Py.char -> Py.str)
    (trocr_decode_sync : Np.image -> Py.result Py.str)
    (easyocr_readtext : option Np.image -> Py.result (list (Py.str * Q)))
    (crop : Np.image) :
  Np.size crop <> 0 ->
  SimpleOCRWorker.process_synchronous_ocr up trocr_decode_sync easyocr_readtext
    SimpleOCRWorker.easyocr (Some crop)
  = fst (SimpleOCRWorker._read_license_plate_easyocr up easyocr_readtext
           (Some crop))
  /\ forall ty t,
       SimpleOCRWorker.process_synchronous_ocr up trocr_decode_sync
         easyocr_readtext ty (Some crop) = Some t ->
       SimpleOCRWorker.validated up t
       /\ (exists d rest, t = d :: rest /\ Py.is_digit d = true)
       /\ t <> Py.lit "No plate detected".
Proof.
  intros S. split; [now apply sync_easyocr_is_background_read|].
  intros ty t H.
  pose proof (sync_validated up trocr_decode_sync easyocr_readtext ty _ t H)
    as V.
  split; [exact V|].
  destruct V as [raw E].
  destruct (simple_validate_starts_with_digit up raw t E)
    as (d & rest & -> & D).
  split; [eauto|].
  intros X. injection X as -> _. discriminate D.
Qed.

(** X17 on the sample crop and an EasyOCR reader that finds "12-345-67":
    both readers give "12-345-67". *)
Lemma X17_simple_sync_reads_what_background_reads_witness :
  Np.size sample_crop <> 0
  /\ SimpleOCRWorker.process_synchronous_ocr upper_identity
       (fun _ => Py.Ok (Py.lit "12-345-67")) sample_easyocr_readtext
       SimpleOCRWorker.easyocr (Some sample_crop)
     = fst (SimpleOCRWorker._read_license_plate_easyocr upper_identity
              sample_easyocr_readtext (Some sample_crop)).
Proof.
  assert (S : Np.size sample_crop <> 0) by (vm_compute; discriminate).
  split; [exact S|].
  apply (proj1 (X17_simple_sync_reads_what_background_reads upper_identity
                  (fun _ => Py.Ok (Py.lit "12-345-67"))
                  sample_easyocr_readtext sample_crop S)).
Defined.
